(** * Production resolver database: a shallow embedding and its properties

    The development follows [src/rezplugins/command/production_resolver_lib.py].
    The SQLite store is modelled by its three relations, each one a list of
    rows in scan order (ascending rowid, the order in which a [SELECT]
    without [ORDER BY] visits a table that has no index).  A [Database]
    value stands for a store on which the schema exists; a table that was
    never written is the empty list.  Python exceptions are values of
    [exn]; a method that can raise returns an [outcome].  Methods that
    mutate the session are state transformers over [Session]; [deploy]
    is a state transformer over the [FileSystem].  A call that never
    returns has the [completion] [Blocks]. *)

From Stdlib Require Import String Ascii List ZArith Bool Lia Sorted DecimalString.
Import ListNotations.

Open Scope string_scope.
Open Scope list_scope.
Open Scope Z_scope.

(** ** Python values and exceptions *)

(** [str | None] *)
Definition pystr := option string.

(** Truthiness of a [str | None] value: [None] and [""] are falsy. *)
Definition truthy_str (v : pystr) : bool :=
  match v with
  | Some s => negb (String.eqb s "")
  | None => false
  end.

(** Truthiness of an [int | None] value: [None] and [0] are falsy. *)
Definition truthy_int (v : option Z) : bool :=
  match v with
  | Some z => negb (z =? 0)
  | None => false
  end.

(** [v or ""] *)
Definition or_empty (v : pystr) : string :=
  match v with
  | Some s => if String.eqb s "" then "" else s
  | None => ""
  end.

Inductive exn : Type :=
| ValueError (msg : string)
| RuntimeError (msg : string)
| TypeError (msg : string)
| OSError (msg : string)
| OperationalError (msg : string)   (* sqlite3.OperationalError *)
| RezError (msg : string).          (* rez.exceptions.RezError and its subclasses *)

(** [isinstance(e, RezError)], the test of [except RezError]. *)
Definition is_RezError (e : exn) : bool :=
  match e with
  | RezError _ => true
  | _ => false
  end.

(** [str(e)] *)
Definition exn_str (e : exn) : string :=
  match e with
  | ValueError m | RuntimeError m | TypeError m
  | OSError m | OperationalError m | RezError m => m
  end.

(** [str(message)] for [message : Exception | None] *)
Definition message_str (message : option exn) : string :=
  match message with
  | Some e => exn_str e
  | None => "None"
  end.

(** The exception that the statement [raise message] produces: raising
    [None] is itself a [TypeError]. *)
Definition py_raise (message : option exn) : exn :=
  match message with
  | Some e => e
  | None => TypeError "exceptions must derive from BaseException"
  end.

Inductive outcome (A : Type) : Type :=
| Return (a : A)
| Raise (e : exn).
Arguments Return {A} a.
Arguments Raise {A} e.

Definition obind {A B : Type} (o : outcome A) (k : A -> outcome B) : outcome B :=
  match o with
  | Return a => k a
  | Raise e => Raise e
  end.

(** State and exception monad: the state survives a raised exception,
    as the attributes of a Python object do. *)
Definition M (S A : Type) : Type := S -> outcome A * S.

Definition ret {S A : Type} (a : A) : M S A := fun s => (Return a, s).
Definition raise {S A : Type} (e : exn) : M S A := fun s => (Raise e, s).
Definition bind {S A B : Type} (m : M S A) (k : A -> M S B) : M S B :=
  fun s =>
    match m s with
    | (Return a, s') => k a s'
    | (Raise e, s') => (Raise e, s')
    end.
Definition get {S : Type} : M S S := fun s => (Return s, s).
Definition put {S : Type} (s : S) : M S unit := fun _ => (Return tt, s).
Definition lift {S A : Type} (o : outcome A) : M S A := fun s => (o, s).

(** How a call ends when it may also never return: [Blocks] is the call
    that is still waiting whatever the time given to it. *)
Inductive completion (A : Type) : Type :=
| Completes (o : outcome A)
| Blocks.
Arguments Completes {A} o.
Arguments Blocks {A}.

(** The same monad for code that may block. *)
Definition MB (S A : Type) : Type := S -> completion A * S.

Definition completes {S A : Type} (m : M S A) : MB S A :=
  fun s => match m s with (o, s') => (Completes o, s') end.

Definition bindB {S A B : Type} (m : MB S A) (k : A -> MB S B) : MB S B :=
  fun s =>
    match m s with
    | (Completes (Return a), s') => k a s'
    | (Completes (Raise e), s') => (Completes (Raise e), s')
    | (Blocks, s') => (Blocks, s')
    end.

Declare Scope monad_scope.
Delimit Scope monad_scope with monad.
Notation "x <- c1 ;; c2" := (bind c1 (fun x => c2))
  (at level 61, c1 at next level, right associativity) : monad_scope.
Notation "c1 ;; c2" := (bind c1 (fun _ => c2))
  (at level 61, right associativity) : monad_scope.
Notation "x <-- c1 ;; c2" := (obind c1 (fun x => c2))
  (at level 61, c1 at next level, right associativity) : monad_scope.
Open Scope monad_scope.

Declare Scope blocking_scope.
Delimit Scope blocking_scope with blocking.
Notation "x <- c1 ;; c2" := (bindB c1 (fun x => c2))
  (at level 61, c1 at next level, right associativity) : blocking_scope.
Notation "c1 ;; c2" := (bindB c1 (fun _ => c2))
  (at level 61, right associativity) : blocking_scope.

(** [dict.fromkeys(l)] read back as a list: keys are inserted one by one,
    a key already present keeps its position. *)
Definition dict_fromkeys {A : Type} (eqb : A -> A -> bool) (l : list A) : list A :=
  fold_left (fun keys k => if existsb (eqb k) keys then keys else keys ++ [k]) l [].

(** [list.remove(x)]: deletes the first occurrence, [ValueError] if there is none. *)
Fixpoint list_remove (x : string) (l : list string) : outcome (list string) :=
  match l with
  | [] => Raise (ValueError "list.remove(x): x not in list")
  | y :: t =>
      if String.eqb y x then Return t
      else t' <-- list_remove x t ;; Return (y :: t')
  end.

(** [",".join(l)] *)
Fixpoint join (sep : string) (l : list string) : string :=
  match l with
  | [] => ""
  | [x] => x
  | x :: t => String.append x (String.append sep (join sep t))
  end.

(** [[c for c in contexts if c]] *)
Definition truthy_levels (contexts : list pystr) : list string :=
  flat_map (fun c => if truthy_str c then match c with Some s => [s] | None => [] end else [])
           contexts.

Definition decimal (n : nat) : string := NilZero.string_of_uint (Nat.to_uint n).

(** ** The persisted schema *)

(** [context(context_id INTEGER PRIMARY KEY AUTOINCREMENT, project TEXT,
    category TEXT, entity TEXT)] *)
Record context_row : Type := mk_context_row {
  ctx_context_id : Z;
  ctx_project : pystr;
  ctx_category : pystr;
  ctx_entity : pystr
}.

(** [package(context_id INTEGER, name TEXT, step TEXT, software TEXT)],
    with the implicit [rowid] of a table that declares no primary key. *)
Record package_row : Type := mk_package_row {
  pkg_rowid : Z;
  pkg_context_id : Z;
  pkg_name : string;
  pkg_step : pystr;
  pkg_software : pystr
}.

(** [history(user, context, package_name, step, software, operation,
    date, comment)] *)
Record history_row : Type := mk_history_row {
  hist_user : string;
  hist_context : string;
  hist_package_name : string;
  hist_step : string;
  hist_software : string;
  hist_operation : Z;
  hist_date : Z;
  hist_comment : string
}.

Record Database : Type := mk_Database {
  context : list context_row;
  context_seq : Z;              (* sqlite_sequence entry of the context table *)
  package : list package_row;
  history : list history_row
}.

Definition empty_database : Database := mk_Database [] 0 [] [].

Definition max_list (l : list Z) : Z := fold_right Z.max 0 l.

(** ** History edits *)

Inductive HistoryEditOperation : Type := INSTALL | UNINSTALL.

Definition operation_value (op : HistoryEditOperation) : Z :=
  match op with
  | INSTALL => 1
  | UNINSTALL => 2
  end.

Record HistoryEdit : Type := mk_HistoryEdit {
  edit_context : list pystr;
  edit_package_name : string;
  edit_step : pystr;
  edit_software : pystr;
  edit_operation : HistoryEditOperation
}.

(** ** The session object *)

(** [self.connection] is a [sqlite3.Connection] in Python's default
    transaction mode: the module opens a transaction before an [INSERT]
    or a [DELETE], and the transaction stays open until [commit()].
    [connection] is the store as the connection sees it;
    [in_transaction] is the attribute of that name, true while writes
    are uncommitted. *)
Record Session : Type := mk_Session {
  load_production : bool;
  connection : Database;
  edits : list HistoryEdit;
  in_transaction : bool
}.

(** [self.cursor.execute] of an [INSERT] or a [DELETE] that leaves the
    store [db]. *)
Definition after_write (db : Database) (s : Session) : Session :=
  mk_Session (load_production s) db (edits s) true.

Definition set_edits (e : list HistoryEdit) (s : Session) : Session :=
  mk_Session (load_production s) (connection s) e (in_transaction s).

(** [self.connection.commit()] *)
Definition sql_commit (s : Session) : Session :=
  mk_Session (load_production s) (connection s) (edits s) false.

(** ** SQL conditions *)

(** One conjunct of a [WHERE] clause on a nullable text column:
    [col = ?] bound to [v] when the value is [Some v] (never true on a
    [NULL] column), [col IS NULL] when the value is [None]. *)
Definition sql_cond (value : pystr) (col : pystr) : bool :=
  match value with
  | Some v =>
      match col with
      | Some c => String.eqb c v
      | None => false
      end
  | None =>
      match col with
      | Some _ => false
      | None => true
      end
  end.

(** [next(iter(result), (None,))[0]] on the rows of a one-column [SELECT] *)
Definition first_or_none {A : Type} (result : list A) : option A :=
  match result with
  | [] => None
  | r :: _ => Some r
  end.

(** ** [sanitize_context] *)

Definition sanitize_context (contexts : list pystr) : outcome (list pystr) :=
  if (3 <? length contexts)%nat
  then Raise (ValueError "A context can only 0 to 3 production environments.")
  else Return (contexts ++ repeat None (3 - length contexts)).

(** ** [get_context_row_id] *)

Definition context_matches (production_context : list pystr) (r : context_row) : bool :=
  sql_cond (nth 0 production_context None) (ctx_project r)
  && sql_cond (nth 1 production_context None) (ctx_category r)
  && sql_cond (nth 2 production_context None) (ctx_entity r).

Definition get_context_row_id (db : Database) (contexts : list pystr)
  : outcome (option Z) :=
  production_context <-- sanitize_context contexts ;;
  let result := map ctx_context_id
                     (filter (context_matches production_context) (context db)) in
  Return (first_or_none result).

(** ** [insert_context] *)

(** [INSERT INTO context(project, category, entity) VALUES (?, ?, ?)]: the
    key is [AUTOINCREMENT], one more than the largest key the table holds
    or ever held. *)
Definition sql_insert_context (db : Database) (p c e : pystr) : Z * Database :=
  let new_id := 1 + Z.max (context_seq db) (max_list (map ctx_context_id (context db))) in
  (new_id,
   mk_Database (context db ++ [mk_context_row new_id p c e]) new_id
               (package db) (history db)).

Definition insert_context (contexts : list pystr) : M Session Z :=
  production_context <- lift (sanitize_context contexts) ;;
  s <- get ;;
  let inserted := sql_insert_context (connection s)
                    (nth 0 production_context None)
                    (nth 1 production_context None)
                    (nth 2 production_context None) in
  put (after_write (snd inserted) s) ;;
  ret (fst inserted).

(** ** The external resolver *)

(** [rez.resolver.ResolverStatus] *)
Inductive ResolverStatus : Type := pending | solved | failed | aborted.

Definition ResolverStatus_eqb (a b : ResolverStatus) : bool :=
  match a, b with
  | pending, pending | solved, solved | failed, failed | aborted, aborted => true
  | _, _ => false
  end.

(** [[value for value in context_row_ids if value]] *)
Definition truthy_ids (ids : list (option Z)) : list Z :=
  flat_map (fun v => if truthy_int v then match v with Some z => [z] | None => [] end else [])
           ids.

(** One entry of the [lookup_steps] dictionary: the condition on [step]
    and the condition on [software], [None] for [IS NULL] and [Some v]
    for [= ?] bound to [v].  The four SQL fragments used as keys are
    pairwise different, so the dictionary keeps the entries in the
    order of insertion. *)
Definition lookup_step : Type := (pystr * pystr)%type.

Definition lookup_steps (step software : pystr) : list lookup_step :=
  [(None, None)]
  ++ (if truthy_str step then [(step, None)] else [])
  ++ (if truthy_str software then [(None, software)] else [])
  ++ (if truthy_str step && truthy_str software then [(step, software)] else []).

(** [SELECT name from package WHERE context_id = ? <lookup_step>] *)
Definition select_names (db : Database) (context_id : Z) (l : lookup_step) : list string :=
  map pkg_name
      (filter (fun r => (pkg_context_id r =? context_id)
                        && sql_cond (fst l) (pkg_step r)
                        && sql_cond (snd l) (pkg_software r))
              (package db)).

(** [SELECT rowid FROM package WHERE name = ? AND context_id = ? AND step ...
    AND software ...] as [remove_package] builds it: [step = ?] when
    [step is not None], [step IS NULL] otherwise, and the same for software. *)
Definition select_rowids (db : Database) (package_name : string) (context_id : Z)
           (step software : pystr) : list Z :=
  map pkg_rowid
      (filter (fun r => String.eqb (pkg_name r) package_name
                        && (pkg_context_id r =? context_id)
                        && sql_cond step (pkg_step r)
                        && sql_cond software (pkg_software r))
              (package db)).

(** [INSERT INTO package (context_id, name, step, software) VALUES (...)]:
    the new rowid is one more than the largest rowid in the table. *)
Definition sql_insert_package (db : Database) (context_id : Z) (package_name : string)
           (step software : pystr) : Z * Database :=
  let new_rowid := 1 + max_list (map pkg_rowid (package db)) in
  (new_rowid,
   mk_Database (context db) (context_seq db)
               (package db ++ [mk_package_row new_rowid context_id package_name step software])
               (history db)).

(** [DELETE FROM package WHERE rowid = ?] *)
Definition sql_delete_package (db : Database) (package_row_id : Z) : Database :=
  mk_Database (context db) (context_seq db)
              (filter (fun r => negb (pkg_rowid r =? package_row_id)) (package db))
              (history db).

Definition sql_insert_history (db : Database) (row : history_row) : Database :=
  mk_Database (context db) (context_seq db) (package db) (history db ++ [row]).

Section Resolver.

(** [ResolvedContext(packages)] followed by [rez_context.validate()]:
    either both return and the context carries a status, or one of them
    raises; rez is not part of this repository. *)
Variable resolve : list string -> outcome ResolverStatus.

(** [getpass.getuser()] and the [datetime.now()] read while the record of
    a given index is flushed. *)
Variable getuser : string.
Variable now : nat -> Z.

(** ** [validate_context] *)

Definition validate_context (packages : list string) : outcome (bool * option exn) :=
  match resolve packages with
  | Return status => Return (ResolverStatus_eqb status solved, None)
  | Raise e => if is_RezError e then Return (false, Some e) else Raise e
  end.

(** ** [get_package_list] *)

Definition get_package_list (db : Database) (contexts : list pystr)
           (step software : pystr) (validate : bool) : outcome (list string) :=
  production_context <-- sanitize_context contexts ;;
  id0 <-- get_context_row_id db [None; None; None] ;;
  id1 <-- get_context_row_id db [nth 0 production_context None; None; None] ;;
  id2 <-- get_context_row_id db [nth 0 production_context None;
                                 nth 1 production_context None; None] ;;
  id3 <-- get_context_row_id db [nth 0 production_context None;
                                 nth 1 production_context None;
                                 nth 2 production_context None] ;;
  let context_row_ids := dict_fromkeys Z.eqb (truthy_ids [id0; id1; id2; id3]) in
  let packages :=
    fold_left
      (fun packages context_id =>
         fold_left
           (fun packages l => packages ++ select_names db context_id l)
           (lookup_steps step software) packages)
      context_row_ids [] in
  if validate then
    r <-- validate_context packages ;;
    if negb (fst r)
    then Raise (ValueError (String.append "Package list can't be validated: "
                                          (message_str (snd r))))
    else Return (dict_fromkeys String.eqb packages)
  else Return (dict_fromkeys String.eqb packages).

(** ** [add_package] *)

Definition add_package (contexts : list pystr) (package_name : string)
           (step software : pystr) (validate : bool) : M Session Z :=
  s <- get ;;
  (if validate then
     all_packages <- lift (get_package_list (connection s) contexts step software false) ;;
     r <- lift (validate_context (all_packages ++ [package_name])) ;;
     if negb (fst r) then raise (py_raise (snd r)) else ret tt
   else ret tt) ;;
  found <- lift (get_context_row_id (connection s) contexts) ;;
  context_id <- (if negb (truthy_int found)
                 then insert_context contexts
                 else ret (match found with Some z => z | None => 0 end)) ;;
  s1 <- get ;;
  let inserted := sql_insert_package (connection s1) context_id package_name step software in
  put (after_write (snd inserted) s1) ;;
  s2 <- get ;;
  put (set_edits (edits s2 ++ [mk_HistoryEdit contexts package_name step software INSTALL]) s2) ;;
  ret (fst inserted).

(** ** [remove_package] *)

Definition remove_package (contexts : list pystr) (package_name : string)
           (step software : pystr) (validate : bool) : M Session unit :=
  s <- get ;;
  found <- lift (get_context_row_id (connection s) contexts) ;;
  (if negb (truthy_int found)
   then raise (ValueError (String.append "Context '"
                 (String.append (join "," (truthy_levels contexts)) "' doesn't exist.")))
   else ret tt) ;;
  let context_id := match found with Some z => z | None => 0 end in
  let package_row_id :=
    first_or_none (select_rowids (connection s) package_name context_id step software) in
  (if negb (truthy_int package_row_id)
   then raise (ValueError (String.append "Package '"
                 (String.append package_name "' doesn't exists.")))
   else ret tt) ;;
  (if validate then
     all_packages <- lift (get_package_list (connection s) contexts step software false) ;;
     remaining <- lift (list_remove package_name all_packages) ;;
     r <- lift (validate_context remaining) ;;
     if negb (fst r) then raise (py_raise (snd r)) else ret tt
   else ret tt) ;;
  put (after_write
         (sql_delete_package (connection s)
            (match package_row_id with Some z => z | None => 0 end)) s) ;;
  s1 <- get ;;
  put (set_edits (edits s1 ++ [mk_HistoryEdit contexts package_name step software UNINSTALL]) s1).

(** ** [save] *)

Definition history_entry (comment : string) (total : nat) (index : nat)
           (edit_data : HistoryEdit) : history_row :=
  mk_history_row
    getuser
    (join "," (truthy_levels (edit_context edit_data)))
    (edit_package_name edit_data)
    (or_empty (edit_step edit_data))
    (or_empty (edit_software edit_data))
    (operation_value (edit_operation edit_data))
    (now index)
    (String.append comment
       (String.append "("
          (String.append (decimal (index + 1))
             (String.append "/" (String.append (decimal total) ")"))))).

(** One [INSERT INTO history] for each pending edit, then
    [self.__edits = []] and [self.connection.commit()]. *)
Definition save (store_history : bool) (comment : string) : M Session unit :=
  s <- get ;;
  (if store_history then
     put (fold_left
            (fun s1 ie =>
               after_write
                 (sql_insert_history (connection s1)
                    (history_entry comment (length (edits s)) (fst ie) (snd ie)))
                 s1)
            (combine (seq 0 (length (edits s))) (edits s))
            s)
   else ret tt) ;;
  s1 <- get ;;
  put (set_edits [] s1) ;;
  s2 <- get ;;
  put (sql_commit s2).

(** ** [initialize] *)

(** The tables are created if they do not exist, then
    [INSERT INTO context(project, category, entity) VALUES (NULL, NULL, NULL)]
    and [self.save()]. *)
Definition initialize : M Session unit :=
  s <- get ;;
  put (after_write (snd (sql_insert_context (connection s) None None None)) s) ;;
  save true "".

End Resolver.

(** ** Deployment *)

(** The three locations computed by [__init__]: the production database
    file, and the history folder with the database files it holds
    ([None]: the file or the folder does not exist).  [io_log] lists the
    operating-system and SQLite calls made so far, oldest first. *)
Inductive io_event : Type :=
| PathExists                                   (* os.path.exists(history_folder_path) *)
| Makedirs                                     (* os.makedirs(history_folder_path) *)
| ConnectProduction                            (* sqlite3.connect(production_database_path) *)
| ConnectBackup (name : string)                (* sqlite3.connect(db_backup_path) *)
| BackupProductionTo (name : string)           (* production_db.backup(backup_db) *)
| BackupConnectionToProduction.                (* self.connection.backup(production_db) *)

Record FileSystem : Type := mk_FileSystem {
  production_database : option Database;
  history_folder : option (list (string * Database));
  io_log : list io_event
}.

(** A configuration value as [rezconfig.py] or a test fixture gives it. *)
Inductive config_value : Type :=
| CfgBool (b : bool)
| CfgStr (s : string).

(** [bool(v)] *)
Definition py_bool (v : config_value) : bool :=
  match v with
  | CfgBool b => b
  | CfgStr s => negb (String.eqb s "")
  end.

(** Writing [db] under [name] in a folder: an existing file of that name
    is overwritten in place, a new one is added. *)
Fixpoint write_file (name : string) (db : Database) (files : list (string * Database))
  : list (string * Database) :=
  match files with
  | [] => [(name, db)]
  | (n, d) :: t => if String.eqb n name then (n, db) :: t else (n, d) :: write_file name db t
  end.

Definition read_file (name : string) (files : list (string * Database)) : option Database :=
  match find (fun f => String.eqb (fst f) name) files with
  | Some f => Some (snd f)
  | None => None
  end.

Definition contents (file : option Database) : Database :=
  match file with
  | Some db => db
  | None => empty_database
  end.

Section Deploy.

(** Which calls fail in this run, given the calls made before, and the
    exception each one raises. *)
Variable fault : list io_event -> io_event -> option exn.

(** [get_rez_config().keep_history] and
    [datetime.now().strftime('%y_%m_%d_%H_%M_%S_%f')] at the time of the call. *)
Variable keep_history : config_value.
Variable timestamp : string.

(** Every call is logged when it is made, then fails or takes effect. *)
Definition io (ev : io_event) (effect : FileSystem -> FileSystem) : M FileSystem unit :=
  fun fs =>
    let fs1 := mk_FileSystem (production_database fs) (history_folder fs) (io_log fs ++ [ev]) in
    match fault (io_log fs) ev with
    | Some e => (Raise e, fs1)
    | None => (Return tt, effect fs1)
    end.

Definition set_production (db : option Database) (fs : FileSystem) : FileSystem :=
  mk_FileSystem db (history_folder fs) (io_log fs).

Definition set_history_folder (h : option (list (string * Database))) (fs : FileSystem)
  : FileSystem :=
  mk_FileSystem (production_database fs) h (io_log fs).

(** [sqlite3.connect(path)] creates an empty database file when there is none. *)
Definition connect_production : M FileSystem unit :=
  io ConnectProduction
     (fun fs => set_production (Some (contents (production_database fs))) fs).

Definition connect_backup (name : string) : M FileSystem unit :=
  io (ConnectBackup name)
     (fun fs =>
        let files := match history_folder fs with Some l => l | None => [] end in
        match read_file name files with
        | Some _ => fs
        | None => set_history_folder (Some (write_file name empty_database files)) fs
        end).

Definition backup_production_to (name : string) : M FileSystem unit :=
  io (BackupProductionTo name)
     (fun fs =>
        let files := match history_folder fs with Some l => l | None => [] end in
        set_history_folder
          (Some (write_file name (contents (production_database fs)) files)) fs).

(** [self.connection.backup(production_db)].  SQLite refuses to read a
    source whose connection is inside a write transaction and answers
    [SQLITE_BUSY]; [Connection.backup] then sleeps and tries again, and
    as the transaction belongs to the very connection that waits, it
    tries for ever.  With no transaction open the production file
    receives the store of the connection. *)
Definition backup_connection_to_production (s : Session) : MB FileSystem unit :=
  fun fs =>
    let fs1 := mk_FileSystem (production_database fs) (history_folder fs)
                             (io_log fs ++ [BackupConnectionToProduction]) in
    match fault (io_log fs) BackupConnectionToProduction with
    | Some e => (Completes (Raise e), fs1)
    | None =>
        if in_transaction s then (Blocks, fs1)
        else (Completes (Return tt), set_production (Some (connection s)) fs1)
    end.

Definition _compute_history_database_path : string := String.append timestamp ".db".

Definition deploy (s : Session) : MB FileSystem unit :=
  if load_production s
  then completes (raise (RuntimeError "Cannot deploy a production database."))
  else
    (completes
       ((if py_bool keep_history then
           io PathExists (fun fs => fs) ;;
           fs <- get ;;
           (match history_folder fs with
            | None => io Makedirs (set_history_folder (Some []))
            | Some _ => ret tt
            end) ;;
           let db_backup_path := _compute_history_database_path in
           connect_production ;;
           connect_backup db_backup_path ;;
           backup_production_to db_backup_path
         else ret tt) ;;
        connect_production)%monad ;;
     backup_connection_to_production s)%blocking.

End Deploy.

(** * Definitions used to state the properties *)

(** The list without its repetitions, every element at the place of its
    first occurrence. *)
Fixpoint first_occurrences {A : Type} (eqb : A -> A -> bool) (l : list A) : list A :=
  match l with
  | [] => []
  | x :: t => x :: filter (fun y => negb (eqb x y)) (first_occurrences eqb t)
  end.

(** What SQLite guarantees of the two tables and what the operations
    maintain: rows are in ascending rowid order, rowids are positive, and
    a package row refers to a context row that exists. *)
Record wf_database (db : Database) : Prop := mk_wf_database {
  wf_context_sorted : StronglySorted Z.lt (map ctx_context_id (context db));
  wf_context_positive : Forall (fun r => 0 < ctx_context_id r) (context db);
  wf_package_sorted : StronglySorted Z.lt (map pkg_rowid (package db));
  wf_package_positive : Forall (fun r => 0 < pkg_rowid r) (package db);
  wf_foreign_key :
    Forall (fun r => In (pkg_context_id r) (map ctx_context_id (context db))) (package db)
}.

(** The value of [sanitize_context] when it returns. *)
Definition pad3 (contexts : list pystr) : list pystr :=
  contexts ++ repeat None (3 - length contexts).

(** The first context row, in scan order, whose three columns match. *)
Definition lookup_context (db : Database) (production_context : list pystr) : option Z :=
  first_or_none (map ctx_context_id
                     (filter (context_matches production_context) (context db))).

(** [get_context_row_id] followed by [insert_context] when nothing truthy
    was found, as [add_package] does. *)
Definition ensure_context (db : Database) (contexts : list pystr) : Z * Database :=
  let found := lookup_context db (pad3 contexts) in
  if negb (truthy_int found)
  then sql_insert_context db (nth 0 (pad3 contexts) None) (nth 1 (pad3 contexts) None)
                          (nth 2 (pad3 contexts) None)
  else (match found with Some z => z | None => 0 end, db).

(** The first row, in scan order, that [remove_package] selects. *)
Definition first_package_rowid (db : Database) (package_name : string) (context_id : Z)
           (step software : pystr) : option Z :=
  first_or_none (select_rowids db package_name context_id step software).

Section Checks.

Variable resolve : list string -> outcome ResolverStatus.

(** The check that [add_package] makes when [validate] is true. *)
Definition add_validation (db : Database) (contexts : list pystr) (package_name : string)
           (step software : pystr) : outcome unit :=
  all_packages <-- get_package_list resolve db contexts step software false ;;
  r <-- validate_context resolve (all_packages ++ [package_name]) ;;
  if negb (fst r) then Raise (py_raise (snd r)) else Return tt.

(** The check that [remove_package] makes when [validate] is true. *)
Definition remove_validation (db : Database) (contexts : list pystr) (package_name : string)
           (step software : pystr) : outcome unit :=
  all_packages <-- get_package_list resolve db contexts step software false ;;
  remaining <-- list_remove package_name all_packages ;;
  r <-- validate_context resolve remaining ;;
  if negb (fst r) then Raise (py_raise (snd r)) else Return tt.

End Checks.

(** ** Sequences of mutating calls *)

Inductive mutating_call : Type :=
| call_add_package (contexts : list pystr) (package_name : string)
                   (step software : pystr) (validate : bool)
| call_remove_package (contexts : list pystr) (package_name : string)
                      (step software : pystr) (validate : bool).

(** The [HistoryEdit] that a call appends when it returns. *)
Definition call_record (c : mutating_call) : HistoryEdit :=
  match c with
  | call_add_package contexts package_name step software _ =>
      mk_HistoryEdit contexts package_name step software INSTALL
  | call_remove_package contexts package_name step software _ =>
      mk_HistoryEdit contexts package_name step software UNINSTALL
  end.

Section Calls.

Variable resolve : list string -> outcome ResolverStatus.

Definition run_call (c : mutating_call) : M Session unit :=
  match c with
  | call_add_package contexts package_name step software validate =>
      add_package resolve contexts package_name step software validate ;; ret tt
  | call_remove_package contexts package_name step software validate =>
      remove_package resolve contexts package_name step software validate
  end.

(** The calls made one after the other, with no [save] in between; an
    exception ends the sequence as it ends the Python caller. *)
Fixpoint run_calls (calls : list mutating_call) : M Session unit :=
  match calls with
  | [] => ret tt
  | c :: rest => run_call c ;; run_calls rest
  end.

End Calls.

(** ** Sessions and resolvers used as concrete inputs *)

Definition resolver_solved (_ : list string) : outcome ResolverStatus := Return solved.

Definition resolver_rejecting (_ : list string) : outcome ResolverStatus :=
  Raise (RezError "Mocked message").

(** The resolver ends without a solution and raises nothing. *)
Definition resolver_unsolved (_ : list string) : outcome ResolverStatus := Return failed.

Definition resolver_crashing (_ : list string) : outcome ResolverStatus :=
  Raise (TypeError "'NoneType' object is not iterable").

Definition fresh_staging_session : Session := mk_Session false empty_database [] false.

Definition fresh_production_session : Session := mk_Session true empty_database [] false.

(** A staging session on a new store, after [initialize()]. *)
Definition initialized_session : Session :=
  snd (initialize "user" (fun _ => 0) fresh_staging_session).

(** The calls of [test_edits]. *)
Definition test_edits_calls : list mutating_call :=
  [ call_add_package [] "packageA" None None false;
    call_add_package [] "packageB" (Some "stepA") None false;
    call_add_package [] "packageC" None (Some "software") false;
    call_add_package [] "packageD" (Some "stepA") (Some "software") false;
    call_remove_package [] "packageA" None None false;
    call_remove_package [] "packageB" (Some "stepA") None false;
    call_remove_package [] "packageC" None (Some "software") false;
    call_remove_package [] "packageD" (Some "stepA") (Some "software") false ].

(** ** File systems that [deploy] leaves behind *)

Definition history_files (fs : FileSystem) : list (string * Database) :=
  match history_folder fs with
  | Some l => l
  | None => []
  end.

(** The calls of the backup step, in the order [deploy] makes them. *)
Definition backup_calls (fs : FileSystem) (name : string) : list io_event :=
  [PathExists]
  ++ (match history_folder fs with None => [Makedirs] | Some _ => [] end)
  ++ [ConnectProduction; ConnectBackup name; BackupProductionTo name].

Definition promotion_calls : list io_event :=
  [ConnectProduction; BackupConnectionToProduction].

(** After a deployment with history: the production file holds the
    session's database, the history folder holds its former files and
    one more, the copy of the former production database. *)
Definition deployed_with_history (s : Session) (name : string) (fs : FileSystem)
  : FileSystem :=
  mk_FileSystem (Some (connection s))
                (Some (history_files fs ++ [(name, contents (production_database fs))]))
                (io_log fs ++ backup_calls fs name ++ promotion_calls).

(** After a deployment without history. *)
Definition deployed_without_history (s : Session) (fs : FileSystem) : FileSystem :=
  mk_FileSystem (Some (connection s)) (history_folder fs) (io_log fs ++ promotion_calls).

(** After a deployment whose backup call failed: the production file
    holds what it held (it exists now, empty if it did not), the backup
    file was created and is empty, and no promotion call was made. *)
Definition backup_failed (name : string) (fs : FileSystem) : FileSystem :=
  mk_FileSystem (Some (contents (production_database fs)))
                (Some (history_files fs ++ [(name, empty_database)]))
                (io_log fs ++ backup_calls fs name).

Definition no_fault (_ : list io_event) (_ : io_event) : option exn := None.

Definition io_event_eqb (a b : io_event) : bool :=
  match a, b with
  | PathExists, PathExists | Makedirs, Makedirs
  | ConnectProduction, ConnectProduction
  | BackupConnectionToProduction, BackupConnectionToProduction => true
  | ConnectBackup n, ConnectBackup m | BackupProductionTo n, BackupProductionTo m =>
      String.eqb n m
  | _, _ => false
  end.

(** The run in which [production_db.backup(backup_db)] raises
    [sqlite3.OperationalError] and every other call goes through. *)
Definition backup_fault (name : string) (_ : list io_event) (ev : io_event) : option exn :=
  if io_event_eqb ev (BackupProductionTo name)
  then Some (OperationalError "disk I/O error")
  else None.

Definition initialized_production : Database :=
  connection initialized_session.

(** A staging session in which [maya-2024] was added at studio scope
    and not saved yet. *)
Definition unsaved_maya_session : Session :=
  snd (add_package resolver_solved [] "maya-2024" None None false initialized_session).

(** The same session after [save()]. *)
Definition maya_session : Session :=
  snd (save "user" (fun _ => 0) true "" unsaved_maya_session).

(** ** Package entries *)

Definition pystr_eqb (a b : pystr) : bool :=
  match a, b with
  | Some x, Some y => String.eqb x y
  | None, None => true
  | _, _ => false
  end.

(** The full tuple [(context_id, name, step, software)] of a package row. *)
Definition entry_of (r : package_row) : Z * string * pystr * pystr :=
  (pkg_context_id r, pkg_name r, pkg_step r, pkg_software r).

Definition entry_eqb (context_id : Z) (package_name : string) (step software : pystr)
           (r : package_row) : bool :=
  (pkg_context_id r =? context_id)
  && String.eqb (pkg_name r) package_name
  && pystr_eqb (pkg_step r) step
  && pystr_eqb (pkg_software r) software.

(** The number of package rows that are equal on the full tuple. *)
Definition count_entries (db : Database) (context_id : Z) (package_name : string)
           (step software : pystr) : nat :=
  length (filter (entry_eqb context_id package_name step software) (package db)).

(** The studio store of [test_remove_package]-like scenarios: [pkgB]
    once with no step and once under [stepA]. *)
Definition two_pkgB_session : Session :=
  snd (add_package resolver_solved [] "pkgB" (Some "stepA") None false
         (snd (add_package resolver_solved [] "pkgB" None None false initialized_session))).

(** The same package added twice with the same tuple. *)
Definition duplicated_session : Session :=
  snd (add_package resolver_solved [] "pkgA" None None false
         (snd (add_package resolver_solved [] "pkgA" None None false initialized_session))).

(** ** Context triples *)

Definition triple_of (r : context_row) : pystr * pystr * pystr :=
  (ctx_project r, ctx_category r, ctx_entity r).

(** The triple that a sequence of at most three levels denotes. *)
Definition triple_of_levels (contexts : list pystr) : pystr * pystr * pystr :=
  (nth 0 (pad3 contexts) None, nth 1 (pad3 contexts) None, nth 2 (pad3 contexts) None).

Definition unknown_context_message (contexts : list pystr) : string :=
  String.append "Context '"
    (String.append (join "," (truthy_levels contexts)) "' doesn't exist.").

Definition unknown_package_message (package_name : string) : string :=
  String.append "Package '" (String.append package_name "' doesn't exists.").

(** ** Uniqueness of context triples *)

Definition unique_triples (db : Database) : Prop :=
  NoDup (map triple_of (context db)).

Definition is_studio_root (r : context_row) : bool :=
  match triple_of r with
  | (None, None, None) => true
  | _ => false
  end.

(** The all-[NULL] rows of the context table. *)
Definition studio_rows (db : Database) : list context_row :=
  filter is_studio_root (context db).

(** What holds of every store that the guarded operations reach. *)
Definition context_invariant (db : Database) : Prop :=
  wf_database db /\ unique_triples db /\ length (studio_rows db) = 1%nat.

(** [manage.py] calls [insert_context] only when [get_context_row_id]
    returned nothing truthy for the same levels. *)
Definition insert_context_if_missing (contexts : list pystr) : M Session unit :=
  s <- get ;;
  found <- lift (get_context_row_id (connection s) contexts) ;;
  if negb (truthy_int found) then insert_context contexts ;; ret tt else ret tt.

Inductive session_call : Type :=
| do_mutation (c : mutating_call)
| do_save (store_history : bool) (comment : string)
| do_insert_context_if_missing (contexts : list pystr).

Section SessionCalls.

Variable resolve : list string -> outcome ResolverStatus.
Variable getuser : string.
Variable now : nat -> Z.

Definition run_session_call (c : session_call) : M Session unit :=
  match c with
  | do_mutation m => run_call resolve m
  | do_save store_history comment => save getuser now store_history comment
  | do_insert_context_if_missing contexts => insert_context_if_missing contexts
  end.

(** The session after a sequence of calls, the caller going on after a
    call that raised. *)
Definition after_calls (calls : list session_call) (s : Session) : Session :=
  fold_left (fun s c => snd (run_session_call c s)) calls s.

End SessionCalls.

(** ** The package list as the specification words it *)

Definition triple_eqb (a b : pystr * pystr * pystr) : bool :=
  pystr_eqb (fst (fst a)) (fst (fst b))
  && pystr_eqb (snd (fst a)) (snd (fst b))
  && pystr_eqb (snd a) (snd b).

(** The ancestor chain of a triple: studio, project, category, entity. *)
Definition ancestor_chain (t : pystr * pystr * pystr) : list (pystr * pystr * pystr) :=
  [ (None, None, None);
    (fst (fst t), None, None);
    (fst (fst t), snd (fst t), None);
    (fst (fst t), snd (fst t), snd t) ].

(** Exact-match lookup of a triple: a null level matches a null column only. *)
Definition findId (db : Database) (t : pystr * pystr * pystr) : option Z :=
  match find (fun r => triple_eqb (triple_of r) t) (context db) with
  | Some r => Some (ctx_context_id r)
  | None => None
  end.

(** The context ids of a chain, absent ones dropped. *)
Definition existing_ids (db : Database) (chain : list (pystr * pystr * pystr)) : list Z :=
  flat_map (fun t => match findId db t with Some i => [i] | None => [] end) chain.

(** An axis was requested when the optional argument is present. *)
Definition requested (axis : pystr) : bool :=
  match axis with
  | Some _ => true
  | None => false
  end.

(** The axis groups in their fixed order, [asked] telling which axes count
    as requested. *)
Definition axis_groups (asked : pystr -> bool) (step software : pystr)
  : list (pystr * pystr) :=
  [(None, None)]
  ++ (if asked step then [(step, None)] else [])
  ++ (if asked software then [(None, software)] else [])
  ++ (if asked step && asked software then [(step, software)] else []).

(** The names of the rows of one context in one axis group. *)
Definition group_names (db : Database) (context_id : Z) (g : pystr * pystr) : list string :=
  map pkg_name
      (filter (fun r => (pkg_context_id r =? context_id)
                        && pystr_eqb (pkg_step r) (fst g)
                        && pystr_eqb (pkg_software r) (snd g))
              (package db)).

(** The results context by context, axis group by axis group. *)
Definition stacked_names (asked : pystr -> bool) (db : Database)
           (t : pystr * pystr * pystr) (step software : pystr) : list string :=
  flat_map (fun context_id => flat_map (group_names db context_id)
                                       (axis_groups asked step software))
           (first_occurrences Z.eqb (existing_ids db (ancestor_chain t))).

Definition listPackages (asked : pystr -> bool) (db : Database)
           (t : pystr * pystr * pystr) (step software : pystr) : list string :=
  first_occurrences String.eqb (stacked_names asked db t step software).

(** ** [get_package_list] in three stages *)

(** The four lookups, broadest scope first. *)
Definition chain_lookups (db : Database) (production_context : list pystr)
  : list (option Z) :=
  [ lookup_context db [None; None; None];
    lookup_context db [nth 0 production_context None; None; None];
    lookup_context db [nth 0 production_context None; nth 1 production_context None; None];
    lookup_context db [nth 0 production_context None; nth 1 production_context None;
                       nth 2 production_context None] ].

(** The value of [packages] when the two loops are over. *)
Definition stacked (db : Database) (context_row_ids : list Z) (step software : pystr)
  : list string :=
  flat_map (fun context_id => flat_map (select_names db context_id)
                                       (lookup_steps step software))
           context_row_ids.

Section Finish.

Variable resolve : list string -> outcome ResolverStatus.

(** The end of [get_package_list]: validation of [packages] when asked
    for, then [tuple(dict.fromkeys(packages))]. *)
Definition validated (validate : bool) (packages : list string) : outcome (list string) :=
  if validate then
    r <-- validate_context resolve packages ;;
    if negb (fst r)
    then Raise (ValueError (String.append "Package list can't be validated: "
                                          (message_str (snd r))))
    else Return (dict_fromkeys String.eqb packages)
  else Return (dict_fromkeys String.eqb packages).

End Finish.

(** The store of [test_get_package_list_without_validation]: one package
    at each scope and one under [stepA] at studio scope. *)
Definition override_session : Session :=
  snd (run_calls resolver_solved
         [ call_add_package [] "pkgA" None None false;
           call_add_package [Some "project"] "pkgB" None None false;
           call_add_package [Some "project"; Some "category"] "pkgC" None None false;
           call_add_package [Some "project"; Some "category"; Some "entity"] "pkgD"
                            None None false;
           call_add_package [] "pkgE" (Some "stepA") None false ]
         initialized_session).

(** A studio store with one package under the empty step. *)
Definition empty_step_session : Session :=
  snd (add_package resolver_solved [] "pkgE" (Some "") None false initialized_session).

(** ** Adds followed by the same removes *)

Record entry_args : Type := mk_entry_args {
  arg_contexts : list pystr;
  arg_name : string;
  arg_step : pystr;
  arg_software : pystr
}.

Definition add_call (a : entry_args) : mutating_call :=
  call_add_package (arg_contexts a) (arg_name a) (arg_step a) (arg_software a) false.

Definition remove_call (a : entry_args) : mutating_call :=
  call_remove_package (arg_contexts a) (arg_name a) (arg_step a) (arg_software a) false.

(** The adds, then the removes of the same tuples in the same order,
    validation disabled. *)
Definition adds_then_removes (l : list entry_args) : list mutating_call :=
  map add_call l ++ map remove_call l.

(** [db] has the context rows of [db0], in the same order, and maybe more
    after them. *)
Definition extends (db0 db : Database) : Prop :=
  exists new_rows, context db = context db0 ++ new_rows.

(** [r] is the row that an unvalidated [add_package] with arguments [a]
    inserts, the context being looked up in [db]. *)
Definition row_of_call (db : Database) (a : entry_args) (r : package_row) : Prop :=
  lookup_context db (pad3 (arg_contexts a)) = Some (pkg_context_id r)
  /\ pkg_name r = arg_name a
  /\ pkg_step r = arg_step a
  /\ pkg_software r = arg_software a.

(** The context ids of the store, as a test. *)
Definition known_context (db : Database) (context_id : Z) : bool :=
  existsb (Z.eqb context_id) (map ctx_context_id (context db)).

(** A studio store that holds [pkgA] then [pkgB]. *)
Definition pkgA_pkgB_session : Session :=
  snd (run_calls resolver_solved
         [ call_add_package [] "pkgA" None None false;
           call_add_package [] "pkgB" None None false ]
         initialized_session).

(** ** Definitions used by the further properties *)

(** The list without the first element that satisfies [p]. *)
Fixpoint remove_first_match {R : Type} (p : R -> bool) (l : list R) : list R :=
  match l with
  | [] => []
  | x :: t => if p x then t else x :: remove_first_match p t
  end.

(** Any method of the session object, in any order. *)
Inductive api_call : Type :=
| api_session_call (c : session_call)
| api_insert_context (contexts : list pystr)
| api_initialize.

Section ApiCalls.

Variable resolve : list string -> outcome ResolverStatus.
Variable getuser : string.
Variable now : nat -> Z.

Definition run_api_call (c : api_call) : M Session unit :=
  match c with
  | api_session_call c => run_session_call resolve getuser now c
  | api_insert_context contexts => insert_context contexts ;; ret tt
  | api_initialize => initialize getuser now
  end.

(** The session after a sequence of calls, the caller going on after a
    call that raised. *)
Definition after_api_calls (calls : list api_call) (s : Session) : Session :=
  fold_left (fun s c => snd (run_api_call c s)) calls s.

End ApiCalls.

(** What no method changes or breaks, over one call. *)
Definition kept (s s' : Session) : Prop :=
  load_production s' = load_production s
  /\ (wf_database (connection s) -> wf_database (connection s'))
  /\ (exists rows, history (connection s') = history (connection s) ++ rows)
  /\ (exists rows, context (connection s') = context (connection s) ++ rows).

(** * [manage.py] *)

(** What the command writes on the terminal and what it reads from it. *)
Inductive console_event : Type :=
| Printed (line : string)                 (* print(line) *)
| Asked (prompt : string) (answer : string).   (* input(prompt) returned answer *)

(** The parsed arguments, as [setup_parser] declares them. *)
Record manage_opts : Type := mk_manage_opts {
  opt_context : list pystr;            (* the levels given, [None, None, None] by default *)
  opt_software : pystr;
  opt_step : pystr;
  opt_install : option (list string);
  opt_initialize : bool;
  opt_uninstall : option (list string);
  opt_list_packages : bool;
  opt_deploy : bool;
  opt_force : bool
}.

(** What the command can see and change from outside the [with] block:
    the staging database as it was last committed, the files that
    [deploy] works on, the terminal, and the number of lines read. *)
Record World : Type := mk_World {
  staging_file : Database;
  file_system : FileSystem;
  console : list console_event;
  asked : nat
}.

(** The same with the session object [db] of the [with] block. *)
Record Run : Type := mk_Run {
  run_session : Session;
  run_world : World
}.

(** How a loop body ended: it fell through, or it executed [return]. *)
Inductive flow : Type := Continue | Returned.

(** [str(v)] for an optional argument *)
Definition py_str (v : pystr) : string :=
  match v with
  | Some s => s
  | None => "None"
  end.

(** [[p] if the list is given and not empty] *)
Definition given_packages (l : option (list string)) : list string :=
  match l with
  | Some packages => packages
  | None => []
  end.

Section Manage.

Variable resolve : list string -> outcome ResolverStatus.
Variable getuser : string.
Variable now : nat -> Z.
Variable fault : list io_event -> io_event -> option exn.
Variable keep_history : config_value.
Variable timestamp : string.

(** The line that the [k]-th call of [input] returns. *)
Variable answers : nat -> string.

(** [str.upper], [str.capitalize] and the [repr] of a list of strings. *)
Variable upper : string -> string.
Variable capitalize : string -> string.
Variable repr_list : list string -> string.

Definition print (line : string) : M Run unit :=
  fun r =>
    (Return tt,
     mk_Run (run_session r)
            (mk_World (staging_file (run_world r)) (file_system (run_world r))
                      (console (run_world r) ++ [Printed line]) (asked (run_world r)))).

Definition input (prompt : string) : M Run string :=
  fun r =>
    let answer := answers (asked (run_world r)) in
    (Return answer,
     mk_Run (run_session r)
            (mk_World (staging_file (run_world r)) (file_system (run_world r))
                      (console (run_world r) ++ [Asked prompt answer])
                      (S (asked (run_world r))))).

(** A method of [db]. *)
Definition on_session {A : Type} (m : M Session A) : M Run A :=
  fun r =>
    match m (run_session r) with
    | (o, s') => (o, mk_Run s' (run_world r))
    end.

(** [self.connection.commit()], the last statement of [save]: the staging
    file now holds what the connection holds. *)
Definition commit : M Run unit :=
  fun r =>
    (Return tt,
     mk_Run (run_session r)
            (mk_World (connection (run_session r)) (file_system (run_world r))
                      (console (run_world r)) (asked (run_world r)))).

(** [db.deploy()] *)
Definition deploy_session : MB Run unit :=
  fun r =>
    match deploy fault keep_history timestamp (run_session r) (file_system (run_world r)) with
    | (o, fs') =>
        (o, mk_Run (run_session r)
                   (mk_World (staging_file (run_world r)) fs'
                             (console (run_world r)) (asked (run_world r))))
    end.

(** [confirm.upper() not in ["Y", "N"] or confirm.upper() == "N"] *)
Definition declined (confirm : string) : bool :=
  negb (existsb (String.eqb (upper confirm)) ["Y"; "N"])
  || String.eqb (upper confirm) "N".

(** ** [_confirm_action] *)

Definition _confirm_action (action : string) (packages : list string) (force_flag : bool)
  : M Run bool :=
  cancelled <-
    (if negb force_flag then
       confirm <- input (String.append "Are you sure you want to "
                           (String.append action
                              (String.append " the following packages: "
                                 (String.append (repr_list packages) "? [y/N]: ")))) ;;
       if declined confirm
       then print "Operation cancelled by user." ;; ret true
       else ret false
     else ret false) ;;
  if (cancelled : bool) then ret false
  else print (String.append (capitalize action) " operation approved.") ;; ret true.

(** ** [command] *)

(** [try: method(package) except ValueError as error_message:
    print(error_message); return], for each package in turn. *)
Fixpoint try_each (method : string -> M Session unit) (packages : list string)
  : M Run flow :=
  match packages with
  | [] => ret Continue
  | package :: rest =>
      fun r =>
        match on_session (method package) r with
        | (Return _, r') => try_each method rest r'
        | (Raise (ValueError error_message), r') =>
            (print error_message ;; ret Returned) r'
        | (Raise e, r') => (Raise e, r')
        end
  end.

(** One of the two blocks [if opts.X and len(opts.X): ...]. *)
Definition confirmed_block (action : string) (packages : option (list string))
           (force : bool) (method : string -> M Session unit) : M Run flow :=
  match given_packages packages with
  | [] => ret Continue
  | _ :: _ =>
      approved <- _confirm_action action (given_packages packages) force ;;
      if negb approved then ret Returned
      else try_each method (given_packages packages)
  end.

(** The branch [if opts.initialize: ...]. *)
Definition initialize_branch : M Run unit :=
  confirm <- input "Do you want to generate a new staging database (existing value could be lost)? [y/N]: " ;;
  if declined confirm
  then print "Database initialization aborted by user."
  else
    on_session (initialize getuser now) ;;
    commit ;;
    print "Database initialized successfully!".

(** The branch [if opts.list_packages: ...]. *)
Definition list_branch (opts : manage_opts) (contexts : list pystr) : M Run unit :=
  r <- get ;;
  package_list <- lift (get_package_list resolve (connection (run_session r))
                          [nth 0 contexts None; nth 1 contexts None; nth 2 contexts None]
                          (opt_step opts) (opt_software opts) true) ;;
  print (String.append "Installed packages: " (join ", " package_list)).

(** The end of the command: [db.save()], then the block [if opts.deploy: ...]. *)
Definition save_and_deploy (opts : manage_opts) : MB Run unit :=
  (completes (on_session (save getuser now true "")) ;;
   completes commit ;;
   if opt_deploy opts then
     cancelled <-
       completes
         (if negb (opt_force opts) then
            confirm <- input "Do you want to move the staging configuration to production? [y/N]: " ;;
            if declined confirm
            then print "Deployment aborted by user." ;; ret true
            else ret false
          else ret false)%monad ;;
     if (cancelled : bool) then completes (ret tt)
     else
       deploy_session ;;
       completes (print "Production configuration updated successfully!")
   else completes (ret tt))%blocking.

Definition command_body (opts : manage_opts) : MB Run unit :=
  let force_actions := opt_force opts in
  if opt_initialize opts then completes initialize_branch
  else
    (contexts <- completes (lift (sanitize_context (opt_context opts))) ;;
     completes
       (print (String.append "Current contexts: "
                 (String.append (join ", " ("studio" :: truthy_levels contexts))
                    (String.append " [step: "
                       (String.append (py_str (opt_step opts))
                          (String.append "] (software: "
                             (String.append (py_str (opt_software opts)) ")"))))))) ;;
     completes (on_session (insert_context_if_missing contexts)) ;;
     if opt_list_packages opts then completes (list_branch opts contexts)
     else
       after_uninstall <-
         completes
           (confirmed_block "uninstall" (opt_uninstall opts) (opt_force opts)
              (fun package => remove_package resolve contexts package (opt_step opts)
                                             (opt_software opts) (negb force_actions))) ;;
       match after_uninstall with
       | Returned => completes (ret tt)
       | Continue =>
           after_install <-
             completes
               (confirmed_block "install" (opt_install opts) (opt_force opts)
                  (fun package =>
                     (add_package resolve contexts package (opt_step opts)
                                  (opt_software opts) (negb force_actions) ;;
                      ret tt)%monad)) ;;
           match after_install with
           | Returned => completes (ret tt)
           | Continue => save_and_deploy opts
           end
       end)%blocking.

(** [with ProductionResolverDatabase(load_production=False) as db: ...]:
    [db] is connected to the staging file, with no pending edit; when
    the block is left, by its end, by [return] or by an exception, the
    connection is closed and what was not committed is lost. *)
Definition command (opts : manage_opts) : MB World unit :=
  fun w =>
    match command_body opts (mk_Run (mk_Session false (staging_file w) [] false) w) with
    | (o, r') => (o, run_world r')
    end.

End Manage.

(** ** What [command] plans to do *)

(** The session that [command] works on once it has looked the context
    up and inserted it when missing. *)
Definition entry_session (staging : Database) (contexts : list pystr) : Session :=
  snd (insert_context_if_missing contexts (mk_Session false staging [] false)).

(** The removals, then the additions, in the order of the command line. *)
Definition planned_calls (opts : manage_opts) (contexts : list pystr) : list mutating_call :=
  map (fun package => call_remove_package contexts package (opt_step opts)
                                          (opt_software opts) (negb (opt_force opts)))
      (given_packages (opt_uninstall opts))
  ++ map (fun package => call_add_package contexts package (opt_step opts)
                                          (opt_software opts) (negb (opt_force opts)))
         (given_packages (opt_install opts)).

(** Nothing outside the session has changed but the terminal. *)
Definition same_stores (w w' : World) : Prop :=
  staging_file w' = staging_file w /\ file_system w' = file_system w.

Definition identity_upper (s : string) : string := s.

(** The user agrees to everything, or is not asked. *)
Definition approving (answers : nat -> string) (upper : string -> string)
           (opts : manage_opts) : Prop :=
  opt_force opts = true \/ forall k, upper (answers k) = "Y".

(** [rez manage --install pkgC --uninstall pkgA --deploy --force] *)
Definition forced_opts : manage_opts :=
  mk_manage_opts [None; None; None] None None (Some ["pkgC"]) false (Some ["pkgA"])
                 false true true.

(** [rez manage project --install pkgC], to be confirmed. *)
Definition install_opts : manage_opts :=
  mk_manage_opts [Some "project"] None None (Some ["pkgC"]) false None false false false.

(** [rez manage -ls] and [rez manage -init] *)
Definition list_opts : manage_opts :=
  mk_manage_opts [None; None; None] None None None false None true false false.

Definition initialize_opts : manage_opts :=
  mk_manage_opts [None; None; None] None None None true None false false true.

(** The world in which the staging store holds [pkgA] and [pkgB] at
    studio scope and nothing was deployed yet. *)
Definition pkgA_pkgB_world : World :=
  mk_World (connection pkgA_pkgB_session) (mk_FileSystem None None []) [] 0.

(** The line that [command] prints before it touches the database. *)
Definition contexts_line (opts : manage_opts) (contexts : list pystr) : string :=
  String.append "Current contexts: "
    (String.append (join ", " ("studio" :: truthy_levels contexts))
       (String.append " [step: "
          (String.append (py_str (opt_step opts))
             (String.append "] (software: "
                (String.append (py_str (opt_software opts)) ")"))))).

(** The state in which [command] reaches its branches: the context line
    is printed and the context row is in the session. *)
Definition entry_run (opts : manage_opts) (contexts : list pystr) (w : World) : Run :=
  mk_Run (entry_session (staging_file w) contexts)
         (mk_World (staging_file w) (file_system w)
                   (console w ++ [Printed (contexts_line opts contexts)]) (asked w)).

(** * Properties *)

(** ** Lists: first occurrences, folds, sorted row identifiers *)

Section FirstOccurrences.

Context {A : Type} (eqb : A -> A -> bool).
Hypothesis eqb_spec : forall x y, eqb x y = true <-> x = y.

Lemma eqb_refl' : forall x, eqb x x = true.
Proof. intro x. apply eqb_spec. reflexivity. Qed.

Lemma eqb_sym' : forall x y, eqb x y = eqb y x.
Proof.
  intros x y. destruct (eqb x y) eqn:E1, (eqb y x) eqn:E2; auto.
  - apply eqb_spec in E1. subst. rewrite eqb_refl' in E2. discriminate.
  - apply eqb_spec in E2. subst. rewrite eqb_refl' in E1. discriminate.
Qed.

Lemma filter_filter : forall (p q : A -> bool) l,
  filter p (filter q l) = filter (fun x => p x && q x) l.
Proof.
  intros p q l. induction l as [|a l IH]; simpl; auto.
  destruct (q a); simpl; destruct (p a); simpl; rewrite ?IH; auto.
Qed.

Lemma existsb_eqb_In : forall x l, existsb (eqb x) l = true <-> In x l.
Proof.
  intros x l. rewrite existsb_exists. split.
  - intros [y [Hy E]]. apply eqb_spec in E. subst. assumption.
  - intro H. exists x. split; auto. apply eqb_refl'.
Qed.

Lemma fold_fromkeys : forall l keys,
  fold_left (fun keys k => if existsb (eqb k) keys then keys else keys ++ [k]) l keys
  = keys ++ filter (fun y => negb (existsb (eqb y) keys)) (first_occurrences eqb l).
Proof.
  induction l as [|x t IH]; intro keys; simpl.
  - rewrite app_nil_r. reflexivity.
  - destruct (existsb (eqb x) keys) eqn:E; simpl.
    + rewrite IH. f_equal. rewrite filter_filter. apply filter_ext.
      intro y. destruct (existsb (eqb y) keys) eqn:Ey; simpl; auto.
      destruct (eqb x y) eqn:Exy; auto.
      apply eqb_spec in Exy. subst. congruence.
    + rewrite IH. rewrite <- app_assoc. simpl. f_equal. f_equal.
      rewrite filter_filter. apply filter_ext.
      intro y. rewrite existsb_app. simpl. rewrite orb_false_r.
      rewrite negb_orb. rewrite (eqb_sym' y x). reflexivity.
Qed.

Lemma dict_fromkeys_first_occurrences : forall l,
  dict_fromkeys eqb l = first_occurrences eqb l.
Proof.
  intro l. unfold dict_fromkeys. rewrite fold_fromkeys. simpl.
  induction (first_occurrences eqb l) as [|a m IH]; simpl; congruence.
Qed.

Lemma first_occurrences_filter : forall (p : A -> bool) l,
  first_occurrences eqb (filter p l) = filter p (first_occurrences eqb l).
Proof.
  intros p l. induction l as [|x t IH]; simpl; auto.
  destruct (p x) eqn:E; simpl.
  - rewrite IH. f_equal. rewrite !filter_filter. apply filter_ext.
    intro y. apply andb_comm.
  - rewrite IH. rewrite filter_filter. apply filter_ext_in.
    intros y _. destruct (p y) eqn:Ey; simpl; auto.
    destruct (eqb x y) eqn:Exy; auto.
    apply eqb_spec in Exy. subst. congruence.
Qed.

Lemma first_occurrences_In : forall x l, In x (first_occurrences eqb l) <-> In x l.
Proof.
  intros x l. induction l as [|a t IH]; simpl; [tauto|].
  rewrite filter_In, IH. split.
  - intros [H | [H _]]; auto.
  - intros [H | H]; auto.
    destruct (eqb a x) eqn:E.
    + apply eqb_spec in E. auto.
    + right. split; auto.
Qed.

Lemma first_occurrences_NoDup : forall l, NoDup (first_occurrences eqb l).
Proof.
  induction l as [|a t IH]; simpl; constructor.
  - rewrite filter_In. intros [_ H]. rewrite eqb_refl' in H. discriminate.
  - apply NoDup_filter. assumption.
Qed.

End FirstOccurrences.

Lemma String_eqb_spec : forall x y : string, String.eqb x y = true <-> x = y.
Proof. apply String.eqb_eq. Qed.

Lemma fold_left_extend : forall {A B C : Type} (f : A -> B -> list C) (ls : list B) a acc,
  fold_left (fun acc l => acc ++ f a l) ls acc = acc ++ flat_map (f a) ls.
Proof.
  intros A B C f ls a. induction ls as [|l ls IH]; intro acc; simpl.
  - rewrite app_nil_r. reflexivity.
  - rewrite IH, <- app_assoc. reflexivity.
Qed.

Lemma fold_left_nested : forall {A B C : Type} (f : A -> B -> list C) (ls : list B)
                                (cs : list A) acc,
  fold_left (fun acc c => fold_left (fun acc l => acc ++ f c l) ls acc) cs acc
  = acc ++ flat_map (fun c => flat_map (f c) ls) cs.
Proof.
  intros A B C f ls cs. induction cs as [|c cs IH]; intro acc; simpl.
  - rewrite app_nil_r. reflexivity.
  - rewrite IH, fold_left_extend, <- app_assoc. reflexivity.
Qed.

Lemma max_list_ge : forall l x, In x l -> x <= max_list l.
Proof.
  induction l as [|a l IH]; simpl; intros x H; [contradiction|].
  destruct H as [-> | H]; [lia|]. apply IH in H. lia.
Qed.

Lemma max_list_nonneg : forall l, 0 <= max_list l.
Proof. induction l; simpl; lia. Qed.

Lemma sorted_snoc : forall l y,
  StronglySorted Z.lt l -> (forall x, In x l -> x < y) -> StronglySorted Z.lt (l ++ [y]).
Proof.
  induction l as [|a l IH]; intros y Hs Hlt; simpl.
  - repeat constructor.
  - inversion Hs; subst. constructor.
    + apply IH; auto. intros x Hx. apply Hlt. right. assumption.
    + apply Forall_app. split; auto. constructor; auto. apply Hlt. left. reflexivity.
Qed.

Lemma sorted_map_filter : forall {R : Type} (f : R -> Z) (p : R -> bool) l,
  StronglySorted Z.lt (map f l) -> StronglySorted Z.lt (map f (filter p l)).
Proof.
  intros R f p l. induction l as [|a l IH]; simpl; intro H; auto.
  inversion H; subst. destruct (p a); simpl; auto.
  constructor; auto.
  rewrite Forall_forall in *. intros x Hx. apply H3.
  rewrite in_map_iff in *. destruct Hx as [r [E Hr]]. exists r. split; auto.
  apply filter_In in Hr. tauto.
Qed.

Lemma Forall_filter' : forall {R : Type} (P : R -> Prop) (p : R -> bool) l,
  Forall P l -> Forall P (filter p l).
Proof.
  intros R P p l H. rewrite Forall_forall in *.
  intros x Hx. apply filter_In in Hx. apply H. tauto.
Qed.

Lemma sorted_NoDup : forall l, StronglySorted Z.lt l -> NoDup l.
Proof.
  induction l as [|a l IH]; intro H; constructor; inversion H; subst; auto.
  intro Hin. rewrite Forall_forall in H3. apply H3 in Hin. lia.
Qed.

(** ** Well-formed stores *)


Lemma wf_sql_insert_context : forall db p c e,
  wf_database db -> wf_database (snd (sql_insert_context db p c e)).
Proof.
  intros db p c e [H1 H2 H3 H4 H5]. unfold sql_insert_context.
  constructor; cbn [context package snd]; auto.
  - rewrite map_app. cbn [map ctx_context_id]. apply sorted_snoc; auto.
    intros x Hx. apply max_list_ge in Hx. lia.
  - apply Forall_app. split; auto. constructor; auto. cbn [ctx_context_id].
    pose proof (max_list_nonneg (map ctx_context_id (context db))). lia.
  - rewrite Forall_forall in *. intros r Hr. rewrite map_app, in_app_iff. left. auto.
Qed.

Lemma wf_sql_insert_package : forall db cid name step software,
  wf_database db -> In cid (map ctx_context_id (context db)) ->
  wf_database (snd (sql_insert_package db cid name step software)).
Proof.
  intros db cid name step software [H1 H2 H3 H4 H5] Hin.
  unfold sql_insert_package.
  constructor; cbn [context package snd]; auto.
  - rewrite map_app. cbn [map pkg_rowid]. apply sorted_snoc; auto.
    intros x Hx. apply max_list_ge in Hx. lia.
  - apply Forall_app. split; auto. constructor; auto. cbn [pkg_rowid].
    pose proof (max_list_nonneg (map pkg_rowid (package db))). lia.
  - apply Forall_app. split; auto.
Qed.

Lemma wf_sql_delete_package : forall db rid,
  wf_database db -> wf_database (sql_delete_package db rid).
Proof.
  intros db rid [H1 H2 H3 H4 H5]. constructor; simpl; auto.
  - apply sorted_map_filter. assumption.
  - apply Forall_filter'. assumption.
  - apply Forall_filter'. assumption.
Qed.

Lemma fold_insert_history_tables : forall (f : nat * HistoryEdit -> history_row) l db,
  let db' := fold_left (fun db ie => sql_insert_history db (f ie)) l db in
  context db' = context db /\ context_seq db' = context_seq db /\ package db' = package db
  /\ history db' = history db ++ map f l.
Proof.
  intros f l. induction l as [|a l IH]; intro db; simpl.
  - rewrite app_nil_r. auto.
  - destruct (IH (sql_insert_history db (f a))) as [E1 [E2 [E3 E4]]].
    simpl in *. rewrite E1, E2, E3, E4, <- app_assoc. auto.
Qed.

Lemma fold_write_history : forall (f : nat * HistoryEdit -> history_row) l s,
  let s' := fold_left (fun s1 ie => after_write (sql_insert_history (connection s1) (f ie)) s1)
                      l s in
  load_production s' = load_production s
  /\ edits s' = edits s
  /\ connection s'
     = fold_left (fun db ie => sql_insert_history db (f ie)) l (connection s).
Proof.
  intros f l. induction l as [|a l IH]; intro s; simpl; auto.
  destruct (IH (after_write (sql_insert_history (connection s) (f a)) s)) as [E1 [E2 E3]].
  simpl in *. auto.
Qed.

Lemma wf_same_tables : forall db db',
  context db' = context db -> package db' = package db ->
  wf_database db -> wf_database db'.
Proof.
  intros db db' E1 E2 [H1 H2 H3 H4 H5]. constructor; rewrite ?E1, ?E2; auto.
Qed.

(** ** [sanitize_context] and [get_context_row_id] *)

Lemma sanitize_context_ok : forall contexts,
  (length contexts <= 3)%nat -> sanitize_context contexts = Return (pad3 contexts).
Proof.
  intros contexts H. unfold sanitize_context.
  destruct (3 <? length contexts)%nat eqn:E; auto.
  apply Nat.ltb_lt in E. lia.
Qed.

Lemma sanitize_context_too_long : forall contexts,
  (3 < length contexts)%nat ->
  sanitize_context contexts
  = Raise (ValueError "A context can only 0 to 3 production environments.").
Proof.
  intros contexts H. unfold sanitize_context.
  apply Nat.ltb_lt in H. rewrite H. reflexivity.
Qed.


Lemma pad3_eta : forall contexts, (length contexts <= 3)%nat ->
  pad3 contexts = [nth 0 (pad3 contexts) None; nth 1 (pad3 contexts) None;
                   nth 2 (pad3 contexts) None].
Proof.
  intros contexts H.
  destruct contexts as [|a [|b [|c [|d t]]]]; simpl in *; try reflexivity; lia.
Qed.

Lemma get_context_row_id_ok : forall db contexts,
  (length contexts <= 3)%nat ->
  get_context_row_id db contexts = Return (lookup_context db (pad3 contexts)).
Proof.
  intros db contexts H. unfold get_context_row_id.
  rewrite sanitize_context_ok by assumption. reflexivity.
Qed.

Lemma lookup_context_In : forall db pc c,
  lookup_context db pc = Some c -> In c (map ctx_context_id (context db)).
Proof.
  intros db pc c. unfold lookup_context.
  destruct (filter (context_matches pc) (context db)) as [|r l] eqn:E; simpl; [discriminate|].
  intro H. injection H as <-. apply in_map.
  assert (Hin : In r (filter (context_matches pc) (context db))) by (rewrite E; left; auto).
  apply filter_In in Hin. tauto.
Qed.

Lemma lookup_context_truthy : forall db pc c,
  wf_database db -> lookup_context db pc = Some c -> truthy_int (Some c) = true.
Proof.
  intros db pc c Hwf H. apply lookup_context_In in H.
  apply in_map_iff in H. destruct H as [r [<- Hr]].
  pose proof (wf_context_positive db Hwf) as Hpos. rewrite Forall_forall in Hpos.
  apply Hpos in Hr. simpl. destruct (Z.eqb_spec (ctx_context_id r) 0); auto. lia.
Qed.

(** ** The mutating methods as equations *)

Section Equations.

Variable resolve : list string -> outcome ResolverStatus.
Variable getuser : string.
Variable now : nat -> Z.

Lemma insert_context_ok : forall contexts s,
  (length contexts <= 3)%nat ->
  insert_context contexts s
  = (Return (fst (sql_insert_context (connection s) (nth 0 (pad3 contexts) None)
                    (nth 1 (pad3 contexts) None) (nth 2 (pad3 contexts) None))),
     after_write (snd (sql_insert_context (connection s) (nth 0 (pad3 contexts) None)
                    (nth 1 (pad3 contexts) None) (nth 2 (pad3 contexts) None))) s).
Proof.
  intros contexts s H. unfold insert_context, bind, lift, get, put, ret.
  rewrite sanitize_context_ok by assumption. reflexivity.
Qed.

Lemma add_package_unvalidated : forall contexts package_name step software s,
  (length contexts <= 3)%nat ->
  add_package resolve contexts package_name step software false s
  = (Return (fst (sql_insert_package (snd (ensure_context (connection s) contexts))
                    (fst (ensure_context (connection s) contexts))
                    package_name step software)),
     mk_Session (load_production s)
       (snd (sql_insert_package (snd (ensure_context (connection s) contexts))
               (fst (ensure_context (connection s) contexts))
               package_name step software))
       (edits s ++ [mk_HistoryEdit contexts package_name step software INSTALL])
       true).
Proof.
  intros contexts package_name step software s H.
  unfold add_package, ensure_context, bind, lift, get, put, ret.
  rewrite get_context_row_id_ok by assumption.
  destruct (negb (truthy_int (lookup_context (connection s) (pad3 contexts)))) eqn:E.
  - rewrite insert_context_ok by assumption. reflexivity.
  - reflexivity.
Qed.

Lemma add_package_too_long : forall contexts package_name step software validate s,
  (3 < length contexts)%nat ->
  add_package resolve contexts package_name step software validate s
  = (Raise (ValueError "A context can only 0 to 3 production environments."), s).
Proof.
  intros contexts package_name step software validate s H.
  unfold add_package, get_package_list, get_context_row_id, bind, lift, get, put, ret, obind.
  rewrite sanitize_context_too_long by assumption.
  destruct validate; reflexivity.
Qed.

Lemma remove_package_unvalidated : forall contexts package_name step software s,
  (length contexts <= 3)%nat ->
  remove_package resolve contexts package_name step software false s
  = match lookup_context (connection s) (pad3 contexts) with
    | Some cid =>
        if cid =? 0
        then (Raise (ValueError (String.append "Context '"
                (String.append (join "," (truthy_levels contexts)) "' doesn't exist."))), s)
        else
          match first_package_rowid (connection s) package_name cid step software with
          | Some rid =>
              if rid =? 0
              then (Raise (ValueError (String.append "Package '"
                      (String.append package_name "' doesn't exists."))), s)
              else (Return tt,
                    mk_Session (load_production s)
                      (sql_delete_package (connection s) rid)
                      (edits s ++ [mk_HistoryEdit contexts package_name step software
                                                  UNINSTALL])
                      true)
          | None =>
              (Raise (ValueError (String.append "Package '"
                 (String.append package_name "' doesn't exists."))), s)
          end
    | None =>
        (Raise (ValueError (String.append "Context '"
           (String.append (join "," (truthy_levels contexts)) "' doesn't exist."))), s)
    end.
Proof.
  intros contexts package_name step software s H.
  unfold remove_package, first_package_rowid, bind, lift, get, put, ret, raise.
  rewrite get_context_row_id_ok by assumption.
  destruct (lookup_context (connection s) (pad3 contexts)) as [cid|]; simpl; auto.
  destruct (cid =? 0); simpl; auto.
  destruct (first_or_none (select_rowids (connection s) package_name cid step software))
    as [rid|]; simpl; auto.
  destruct (rid =? 0); simpl; auto.
Qed.

Lemma save_eq : forall store_history comment s,
  save getuser now store_history comment s
  = (Return tt,
     mk_Session (load_production s)
       (if store_history
        then mk_Database (context (connection s)) (context_seq (connection s))
               (package (connection s))
               (history (connection s)
                ++ map (fun ie => history_entry getuser now comment (length (edits s))
                                    (fst ie) (snd ie))
                       (combine (seq 0 (length (edits s))) (edits s)))
        else connection s)
       [] false).
Proof.
  intros store_history comment s. unfold save, bind, get, put, ret.
  destruct store_history; simpl; auto.
  unfold set_edits, sql_commit. simpl.
  pose proof (fold_write_history
                (fun ie => history_entry getuser now comment (length (edits s))
                             (fst ie) (snd ie))
                (combine (seq 0 (length (edits s))) (edits s)) s) as H.
  simpl in H. destruct H as [F1 [_ F3]]. rewrite F1, F3.
  pose proof (fold_insert_history_tables
                (fun ie => history_entry getuser now comment (length (edits s))
                             (fst ie) (snd ie))
                (combine (seq 0 (length (edits s))) (edits s)) (connection s)) as H.
  simpl in H. destruct H as [E1 [E2 [E3 E4]]].
  f_equal. f_equal.
  destruct (fold_left _ _ (connection s)) as [c cs pk h]. simpl in *. congruence.
Qed.

End Equations.

(** ** Validation happens before any write *)

Section Validation.

Variable resolve : list string -> outcome ResolverStatus.

Lemma add_package_validated : forall contexts package_name step software s,
  add_package resolve contexts package_name step software true s
  = match add_validation resolve (connection s) contexts package_name step software with
    | Raise e => (Raise e, s)
    | Return _ => add_package resolve contexts package_name step software false s
    end.
Proof.
  intros contexts package_name step software s.
  unfold add_package, add_validation, bind, lift, get, put, ret, raise, obind.
  destruct (get_package_list resolve (connection s) contexts step software false)
    as [all_packages|e]; auto.
  destruct (validate_context resolve (all_packages ++ [package_name])) as [[status message]|e];
    auto.
  destruct status; reflexivity.
Qed.

Lemma remove_package_raise_unchanged : forall contexts package_name step software s e s',
  remove_package resolve contexts package_name step software false s = (Raise e, s') ->
  s' = s.
Proof.
  intros contexts package_name step software s e s'.
  unfold remove_package, bind, lift, get, put, ret, raise.
  destruct (get_context_row_id (connection s) contexts) as [found|e0]; [|congruence].
  destruct (negb (truthy_int found)); [congruence|].
  destruct (negb (truthy_int _)); [congruence|]. discriminate.
Qed.

Lemma remove_package_validated : forall contexts package_name step software s,
  remove_package resolve contexts package_name step software true s
  = match remove_package resolve contexts package_name step software false s with
    | (Raise e, _) => (Raise e, s)
    | (Return u, s1) =>
        match remove_validation resolve (connection s) contexts package_name step software with
        | Raise e => (Raise e, s)
        | Return _ => (Return u, s1)
        end
    end.
Proof.
  intros contexts package_name step software s.
  unfold remove_package, remove_validation, bind, lift, get, put, ret, raise, obind.
  destruct (get_context_row_id (connection s) contexts) as [found|e0]; auto.
  destruct (negb (truthy_int found)); auto.
  destruct (negb (truthy_int _)); auto.
  destruct (get_package_list resolve (connection s) contexts step software false)
    as [all_packages|e]; auto.
  destruct (list_remove package_name all_packages) as [remaining|e]; auto.
  destruct (validate_context resolve remaining) as [[status message]|e]; auto.
  destruct status; reflexivity.
Qed.

(** A call that raises leaves the session as it was; a call that returns
    has appended exactly its own record. *)
Lemma add_package_edits : forall contexts package_name step software validate s,
  match add_package resolve contexts package_name step software validate s with
  | (Raise _, s') => s' = s
  | (Return _, s') =>
      edits s' = edits s ++ [mk_HistoryEdit contexts package_name step software INSTALL]
      /\ load_production s' = load_production s
  end.
Proof.
  intros contexts package_name step software validate s.
  assert (H : match add_package resolve contexts package_name step software false s with
              | (Raise _, s') => s' = s
              | (Return _, s') =>
                  edits s' = edits s
                             ++ [mk_HistoryEdit contexts package_name step software INSTALL]
                  /\ load_production s' = load_production s
              end).
  { destruct (Nat.le_gt_cases (length contexts) 3) as [Hl|Hl].
    - rewrite add_package_unvalidated by assumption. simpl. auto.
    - rewrite add_package_too_long by assumption. reflexivity. }
  destruct validate; auto.
  rewrite add_package_validated.
  destruct (add_validation _ _ _ _ _ _); auto.
Qed.

Lemma remove_package_edits : forall contexts package_name step software validate s,
  match remove_package resolve contexts package_name step software validate s with
  | (Raise _, s') => s' = s
  | (Return _, s') =>
      edits s' = edits s ++ [mk_HistoryEdit contexts package_name step software UNINSTALL]
      /\ load_production s' = load_production s
  end.
Proof.
  intros contexts package_name step software validate s.
  assert (H : match remove_package resolve contexts package_name step software false s with
              | (Raise _, s') => s' = s
              | (Return _, s') =>
                  edits s' = edits s
                             ++ [mk_HistoryEdit contexts package_name step software UNINSTALL]
                  /\ load_production s' = load_production s
              end).
  { destruct (remove_package resolve contexts package_name step software false s)
      as [[u|e] s'] eqn:E.
    - revert E. unfold remove_package, bind, lift, get, put, ret, raise.
      destruct (get_context_row_id (connection s) contexts) as [found|e0]; [|congruence].
      destruct (negb (truthy_int found)); [congruence|].
      destruct (negb (truthy_int _)); [congruence|].
      intro E. injection E as _ <-. simpl. auto.
    - eapply remove_package_raise_unchanged. eassumption. }
  destruct validate; auto.
  rewrite remove_package_validated.
  destruct (remove_package resolve contexts package_name step software false s)
    as [[u|e] s'] eqn:E; auto.
  destruct (remove_validation _ _ _ _ _ _); auto.
Qed.

End Validation.

(** ** The pending edit buffer *)

Lemma run_call_edits : forall resolve c s s',
  run_call resolve c s = (Return tt, s') -> edits s' = edits s ++ [call_record c].
Proof.
  intros resolve c s s'. destruct c as [contexts n st sw v|contexts n st sw v]; simpl.
  - unfold bind, ret.
    pose proof (add_package_edits resolve contexts n st sw v s) as H.
    destruct (add_package resolve contexts n st sw v s) as [[r|e] s1]; [|discriminate].
    intro E. injection E as <-. tauto.
  - pose proof (remove_package_edits resolve contexts n st sw v s) as H.
    destruct (remove_package resolve contexts n st sw v s) as [[r|e] s1]; [|discriminate].
    intro E. injection E as _ <-. tauto.
Qed.

Lemma run_calls_edits : forall resolve calls s s',
  run_calls resolve calls s = (Return tt, s') ->
  edits s' = edits s ++ map call_record calls.
Proof.
  intros resolve calls. induction calls as [|c rest IH]; intros s s'; simpl.
  - unfold ret. intro E. injection E as <-. rewrite app_nil_r. reflexivity.
  - unfold bind. destruct (run_call resolve c s) as [[[]|e] s1] eqn:E1; [|discriminate].
    intro E2. apply run_call_edits in E1. apply IH in E2.
    rewrite E2, E1, <- app_assoc. reflexivity.
Qed.

(** C7. When [N] calls of [add_package] and [remove_package] have
    returned with no [save] in between, the pending edit buffer is the
    buffer as it was followed by the [N] records of these calls, in call
    order, so it holds exactly [N] records when it was empty before; and
    [save] always returns with an empty buffer, whether [store_history]
    is true or false. *)
Theorem edit_buffer_accounting :
  forall resolve getuser now calls s s' store_history comment s0,
    run_calls resolve calls s = (Return tt, s') ->
    edits s' = edits s ++ map call_record calls
    /\ length (edits s') = (length (edits s) + length calls)%nat
    /\ fst (save getuser now store_history comment s0) = Return tt
    /\ edits (snd (save getuser now store_history comment s0)) = [].
Proof.
  intros resolve getuser now calls s s' store_history comment s0 H.
  apply run_calls_edits in H. split; [assumption|]. split.
  - rewrite H, length_app, length_map. reflexivity.
  - rewrite save_eq. simpl. auto.
Qed.

Lemma edit_buffer_accounting_witness :
  edits (snd (run_calls resolver_solved test_edits_calls initialized_session))
  = edits initialized_session ++ map call_record test_edits_calls
  /\ length (edits (snd (run_calls resolver_solved test_edits_calls initialized_session)))
     = (length (edits initialized_session) + length test_edits_calls)%nat
  /\ fst (save "user" (fun _ => 0) false ""
               (snd (run_calls resolver_solved test_edits_calls initialized_session)))
     = Return tt
  /\ edits (snd (save "user" (fun _ => 0) false ""
               (snd (run_calls resolver_solved test_edits_calls initialized_session))))
     = [].
Proof.
  apply (edit_buffer_accounting resolver_solved "user" (fun _ => 0) test_edits_calls
           initialized_session
           (snd (run_calls resolver_solved test_edits_calls initialized_session))
           false "").
  vm_compute. reflexivity.
Defined.

(** ** Deployment direction *)

(** C3. On a session opened in production mode [deploy] raises
    [RuntimeError("Cannot deploy a production database.")] and leaves the
    file system, its log of calls included, exactly as it was: no file
    is created, read or written. *)
Theorem deploy_production_rejected :
  forall fault keep_history timestamp s fs,
    load_production s = true ->
    deploy fault keep_history timestamp s fs
    = (Completes (Raise (RuntimeError "Cannot deploy a production database.")), fs).
Proof.
  intros fault keep_history timestamp s fs H. unfold deploy. rewrite H. reflexivity.
Qed.

Lemma deploy_production_rejected_witness :
  deploy (fun _ _ => None) (CfgStr "true") "20_01_01_00_00_00_000000"
         fresh_production_session (mk_FileSystem None None [])
  = (Completes (Raise (RuntimeError "Cannot deploy a production database.")),
     mk_FileSystem None None []).
Proof.
  apply (deploy_production_rejected (fun _ _ => None) (CfgStr "true")
           "20_01_01_00_00_00_000000" fresh_production_session (mk_FileSystem None None [])).
  reflexivity.
Defined.

(** ** The validation gateway *)

(** C8, as stated, fails: an exception of the resolver that is not a
    [RezError] leaves [validate_context] as it came. *)
Lemma validate_context_propagates_other_exceptions :
  validate_context resolver_crashing ["anotherTool"]
  = Raise (TypeError "'NoneType' object is not iterable")
  /\ forall r, validate_context resolver_crashing ["anotherTool"] <> Return r.
Proof. split; [reflexivity | intros r H; discriminate H]. Qed.

(** C8, amended.  When the resolver raises [e], [validate_context]
    returns [(False, e)] if [e] is a [RezError] and raises [e] itself
    otherwise. *)
Theorem validate_context_catches_RezError :
  forall resolve packages e,
    resolve packages = Raise e ->
    validate_context resolve packages
    = if is_RezError e then Return (false, Some e) else Raise e.
Proof.
  intros resolve packages e H. unfold validate_context. rewrite H. reflexivity.
Qed.

Lemma validate_context_catches_RezError_witness :
  validate_context resolver_rejecting ["anotherTool"]
  = Return (false, Some (RezError "Mocked message")).
Proof.
  apply (validate_context_catches_RezError resolver_rejecting ["anotherTool"]
           (RezError "Mocked message")).
  reflexivity.
Defined.

(** ** Rejected additions *)

(** C4, the failing input.  The resolver ends with a status other than
    [solved] and raises nothing: [validate_context] returns
    [(False, None)], [add_package] executes [raise None], and the caller
    receives the [TypeError] of that statement, which carries nothing
    of the gateway, in place of a diagnostic.  The session is
    unchanged. *)
Lemma add_package_rejected_without_diagnostic :
  get_package_list resolver_unsolved (connection initialized_session) [None; None; None]
                   None None false
  = Return []
  /\ validate_context resolver_unsolved ([] ++ ["anotherTool"]) = Return (false, None)
  /\ add_package resolver_unsolved [None; None; None] "anotherTool" None None true
                 initialized_session
     = (Raise (TypeError "exceptions must derive from BaseException"), initialized_session).
Proof. split; [reflexivity|]. split; reflexivity. Qed.

(** C4, what the code does.  When [add_package] validates and the
    gateway answers [(False, message)] on the current list followed by
    the new name, the call raises what [raise message] raises and the
    session is unchanged: no context row, no package row, no edit
    record, no transaction opened.  What is raised is the gateway's
    diagnostic when it gave one, and the [TypeError] of [raise None]
    when it gave none. *)
Theorem add_package_rejected_unchanged :
  forall resolve contexts package_name step software s all_packages message,
    get_package_list resolve (connection s) contexts step software false
    = Return all_packages ->
    validate_context resolve (all_packages ++ [package_name]) = Return (false, message) ->
    add_package resolve contexts package_name step software true s
    = (Raise (py_raise message), s)
    /\ (forall diagnostic, message = Some diagnostic -> py_raise message = diagnostic)
    /\ (message = None ->
        py_raise message = TypeError "exceptions must derive from BaseException").
Proof.
  intros resolve contexts package_name step software s all_packages message H1 H2.
  split; [|split].
  - rewrite add_package_validated. unfold add_validation, obind.
    rewrite H1, H2. reflexivity.
  - intros diagnostic ->. reflexivity.
  - intros ->. reflexivity.
Qed.

Lemma add_package_rejected_unchanged_witness :
  add_package resolver_rejecting [None; None; None] "anotherTool" None None true
              initialized_session
  = (Raise (py_raise (Some (RezError "Mocked message"))), initialized_session)
  /\ (forall diagnostic, Some (RezError "Mocked message") = Some diagnostic ->
      py_raise (Some (RezError "Mocked message")) = diagnostic)
  /\ (Some (RezError "Mocked message") = None ->
      py_raise (Some (RezError "Mocked message"))
      = TypeError "exceptions must derive from BaseException").
Proof.
  apply (add_package_rejected_unchanged resolver_rejecting [None; None; None]
           "anotherTool" None None initialized_session [] (Some (RezError "Mocked message"))).
  - vm_compute. reflexivity.
  - vm_compute. reflexivity.
Defined.

(** ** Deployment: backup, then promotion *)

Lemma write_file_fresh : forall name db files,
  read_file name files = None -> write_file name db files = files ++ [(name, db)].
Proof.
  intros name db files. unfold read_file.
  induction files as [|[n d] t IH]; simpl; auto.
  destruct (String.eqb n name) eqn:E; simpl; [discriminate|].
  intro H. rewrite IH by assumption. reflexivity.
Qed.

Lemma write_file_twice : forall name d1 d2 files,
  write_file name d2 (write_file name d1 files) = write_file name d2 files.
Proof.
  intros name d1 d2 files. induction files as [|[n d] t IH]; simpl.
  - rewrite String.eqb_refl. reflexivity.
  - destruct (String.eqb n name) eqn:E; simpl; rewrite E; congruence.
Qed.

Lemma deploy_failure_keeps_production : forall fault keep_history timestamp s fs c fs',
  deploy fault keep_history timestamp s fs = (c, fs') ->
  c <> Completes (Return tt) ->
  contents (production_database fs') = contents (production_database fs).
Proof.
  intros fault keep_history timestamp s fs c fs'.
  unfold deploy, connect_production, connect_backup, backup_production_to,
    backup_connection_to_production, io, bindB, completes, bind, get, ret, raise.
  destruct (load_production s); [intro H; injection H as _ <-; reflexivity|].
  destruct (py_bool keep_history), (history_folder fs) as [files|] eqn:Eh;
    cbn [production_database history_folder io_log set_history_folder set_production].
  all: repeat (match goal with
               | |- context [match ?x with Some _ => _ | None => _ end] => destruct x
               | |- context [if in_transaction ?x then _ else _] =>
                   destruct (in_transaction x)
               end;
               cbn [production_database history_folder io_log set_history_folder
                    set_production];
               try (intros H Hc; injection H as <- <-; destruct (production_database fs);
                    reflexivity || (exfalso; apply Hc; reflexivity))).
Qed.

Lemma deploy_committed_completes : forall fault keep_history timestamp s fs,
  in_transaction s = false ->
  fst (deploy fault keep_history timestamp s fs) <> Blocks.
Proof.
  intros fault keep_history timestamp s fs Htx.
  unfold deploy, connect_production, connect_backup, backup_production_to,
    backup_connection_to_production, io, bindB, completes, bind, get, ret, raise.
  rewrite Htx.
  destruct (load_production s); [discriminate|].
  destruct (py_bool keep_history), (history_folder fs) as [files|] eqn:Eh;
    cbn [production_database history_folder io_log set_history_folder set_production].
  all: repeat (match goal with
               | |- context [match ?x with Some _ => _ | None => _ end] => destruct x
               end;
               cbn [fst production_database history_folder io_log set_history_folder
                    set_production];
               try discriminate).
Qed.

(** C2, as stated, fails in two ways.  First, when the history folder
    already holds a file with the name computed for the backup, [deploy]
    writes over this file and creates none: the folder holds one file
    before and one after, and what the file held is lost.  Second, on a
    staging session that holds an uncommitted write, here an
    [add_package] not followed by [save], [deploy] never returns and the
    production file is not overwritten, with retention disabled as
    well. *)
Lemma deploy_without_new_backup_or_promotion :
  deploy no_fault (CfgBool true) "20_01_01_00_00_00_000000" maya_session
         (mk_FileSystem (Some initialized_production)
                        (Some [("20_01_01_00_00_00_000000.db", empty_database)]) [])
  = (Completes (Return tt),
     mk_FileSystem (Some (connection maya_session))
                   (Some [("20_01_01_00_00_00_000000.db", initialized_production)])
                   (backup_calls
                      (mk_FileSystem (Some initialized_production)
                         (Some [("20_01_01_00_00_00_000000.db", empty_database)]) [])
                      "20_01_01_00_00_00_000000.db"
                    ++ promotion_calls))
  /\ in_transaction unsaved_maya_session = true
  /\ deploy no_fault (CfgBool false) "20_01_01_00_00_00_000000" unsaved_maya_session
            (mk_FileSystem (Some initialized_production) None [])
     = (Blocks, mk_FileSystem (Some initialized_production) None promotion_calls)
  /\ connection unsaved_maya_session <> initialized_production.
Proof.
  split; [reflexivity|]. split; [reflexivity|]. split; [reflexivity|].
  intro H. apply (f_equal (fun db => length (package db))) in H.
  vm_compute in H. discriminate H.
Qed.

(** C2, amended.  On a staging session with no uncommitted write, for a
    backup name that the history folder does not hold yet: when no call
    fails, [deploy] with retention enabled makes the calls of the backup
    step and then those of the promotion, adds exactly one file to the
    history folder, the copy of the production database as it was, and
    leaves the session's database in the production file; with
    retention disabled it makes the promotion calls only and leaves the
    history folder untouched.  When the backup call raises, [deploy]
    raises the same exception before any promotion call, with the
    production database as it was; and whatever call fails, a [deploy]
    that raises has not changed the production database. *)
Theorem deploy_backup_then_promotion :
  forall fault e keep_history timestamp s fs,
    load_production s = false ->
    in_transaction s = false ->
    read_file (_compute_history_database_path timestamp) (history_files fs) = None ->
    (forall log, fault log (BackupProductionTo (_compute_history_database_path timestamp))
                 = Some e) ->
    (forall log ev, ev <> BackupProductionTo (_compute_history_database_path timestamp) ->
                    fault log ev = None) ->
    deploy no_fault keep_history timestamp s fs
    = (Completes (Return tt),
       if py_bool keep_history
       then deployed_with_history s (_compute_history_database_path timestamp) fs
       else deployed_without_history s fs)
    /\ deploy fault keep_history timestamp s fs
       = (if py_bool keep_history
          then (Completes (Raise e),
                backup_failed (_compute_history_database_path timestamp) fs)
          else (Completes (Return tt), deployed_without_history s fs))
    /\ (forall fault' e' fs',
          deploy fault' keep_history timestamp s fs = (Completes (Raise e'), fs') ->
          contents (production_database fs') = contents (production_database fs)).
Proof.
  intros fault e keep_history timestamp s fs Hs Htx Hfresh Hbk Hother.
  set (name := _compute_history_database_path timestamp) in *.
  assert (Hf : forall log ev, io_event_eqb ev (BackupProductionTo name) = false ->
                              fault log ev = None).
  { intros log ev H. apply Hother. intros ->. simpl in H.
    rewrite String.eqb_refl in H. discriminate. }
  split; [|split].
  - unfold deploy, connect_production, connect_backup, backup_production_to,
      backup_connection_to_production, io, bindB, completes, bind, get, ret, raise,
      no_fault.
    rewrite Hs, Htx. fold name.
    unfold deployed_with_history, deployed_without_history, backup_calls, promotion_calls.
    unfold history_files in *.
    destruct (py_bool keep_history);
      cbn [production_database history_folder io_log set_history_folder set_production];
      [|rewrite <- app_assoc; reflexivity].
    destruct (history_folder fs) as [files|];
      cbn [production_database history_folder io_log set_history_folder set_production];
      rewrite Hfresh;
      cbn [production_database history_folder io_log set_history_folder set_production];
      rewrite write_file_twice, write_file_fresh by assumption;
      repeat rewrite <- app_assoc; reflexivity.
  - unfold deploy, connect_production, connect_backup, backup_production_to,
      backup_connection_to_production, io, bindB, completes, bind, get, ret, raise.
    rewrite Hs, Htx. fold name.
    unfold backup_failed, deployed_without_history, backup_calls, promotion_calls.
    unfold history_files in *.
    destruct (py_bool keep_history);
      cbn [production_database history_folder io_log set_history_folder set_production].
    + rewrite (Hf _ PathExists) by reflexivity.
      destruct (history_folder fs) as [files|];
        cbn [production_database history_folder io_log set_history_folder set_production];
        rewrite ?(Hf _ Makedirs) by reflexivity;
        cbn [production_database history_folder io_log set_history_folder set_production];
        rewrite (Hf _ ConnectProduction) by reflexivity;
        cbn [production_database history_folder io_log set_history_folder set_production];
        rewrite (Hf _ (ConnectBackup name)) by reflexivity;
        cbn [production_database history_folder io_log set_history_folder set_production];
        rewrite Hfresh;
        cbn [production_database history_folder io_log set_history_folder set_production];
        rewrite Hbk, write_file_fresh by assumption;
        repeat rewrite <- app_assoc; reflexivity.
    + rewrite (Hf _ ConnectProduction) by reflexivity.
      cbn [production_database history_folder io_log set_history_folder set_production].
      rewrite (Hf _ BackupConnectionToProduction) by reflexivity.
      rewrite <- app_assoc. reflexivity.
  - intros fault' e' fs' H. eapply deploy_failure_keeps_production; [eassumption|].
    intro Hc. discriminate Hc.
Qed.

Lemma deploy_backup_then_promotion_witness :
  deploy no_fault (CfgStr "true") "20_01_01_00_00_00_000000" maya_session
         (mk_FileSystem (Some initialized_production) None [])
  = (Completes (Return tt),
     deployed_with_history maya_session "20_01_01_00_00_00_000000.db"
       (mk_FileSystem (Some initialized_production) None []))
  /\ deploy (backup_fault "20_01_01_00_00_00_000000.db") (CfgStr "true")
            "20_01_01_00_00_00_000000" maya_session
            (mk_FileSystem (Some initialized_production) None [])
     = (Completes (Raise (OperationalError "disk I/O error")),
        backup_failed "20_01_01_00_00_00_000000.db"
          (mk_FileSystem (Some initialized_production) None [])).
Proof.
  destruct (deploy_backup_then_promotion
              (backup_fault "20_01_01_00_00_00_000000.db")
              (OperationalError "disk I/O error")
              (CfgStr "true") "20_01_01_00_00_00_000000" maya_session
              (mk_FileSystem (Some initialized_production) None []))
    as [H1 [H2 _]].
  - reflexivity.
  - reflexivity.
  - reflexivity.
  - intro log. reflexivity.
  - intros log ev H. unfold backup_fault.
    destruct ev; try reflexivity. simpl.
    destruct (String.eqb_spec name "20_01_01_00_00_00_000000.db"); [|reflexivity].
    subst. contradiction H. reflexivity.
  - split; [exact H1 | exact H2].
Defined.

(** ** Exact matching of package rows *)

Lemma sql_cond_pystr_eqb : forall v c, sql_cond v c = pystr_eqb c v.
Proof. intros [v|] [c|]; reflexivity. Qed.

Lemma pystr_eqb_eq : forall a b, pystr_eqb a b = true <-> a = b.
Proof.
  intros [a|] [b|]; simpl; split; intro H; try discriminate; auto.
  - apply String.eqb_eq in H. congruence.
  - injection H as ->. apply String.eqb_refl.
Qed.

Lemma entry_eqb_eq : forall cid name step software r,
  entry_eqb cid name step software r = true <-> entry_of r = (cid, name, step, software).
Proof.
  intros cid name step software r. unfold entry_eqb, entry_of.
  rewrite !andb_true_iff, Z.eqb_eq, String.eqb_eq, !pystr_eqb_eq.
  split.
  - intros [[[-> ->] ->] ->]. reflexivity.
  - intro H. injection H as -> -> -> ->. auto.
Qed.

Lemma select_rowids_entries : forall db name cid step software,
  select_rowids db name cid step software
  = map pkg_rowid (filter (entry_eqb cid name step software) (package db)).
Proof.
  intros db name cid step software. unfold select_rowids. f_equal.
  apply filter_ext. intro r. unfold entry_eqb. rewrite !sql_cond_pystr_eqb.
  destruct (String.eqb (pkg_name r) name), (pkg_context_id r =? cid); reflexivity.
Qed.

Lemma first_package_rowid_None : forall db name cid step software,
  first_package_rowid db name cid step software = None <->
  (forall r, In r (package db) -> entry_of r <> (cid, name, step, software)).
Proof.
  intros db name cid step software. unfold first_package_rowid.
  rewrite select_rowids_entries.
  destruct (filter (entry_eqb cid name step software) (package db)) as [|r0 l] eqn:E; simpl.
  - split; auto. intros _ r Hr Heq. apply entry_eqb_eq in Heq.
    assert (Hin : In r (filter (entry_eqb cid name step software) (package db)))
      by (apply filter_In; auto).
    rewrite E in Hin. contradiction.
  - split; [discriminate|]. intro H. exfalso.
    assert (Hin : In r0 (filter (entry_eqb cid name step software) (package db)))
      by (rewrite E; left; reflexivity).
    apply filter_In in Hin. destruct Hin as [Hin Heq].
    apply entry_eqb_eq in Heq. exact (H r0 Hin Heq).
Qed.

Lemma first_package_rowid_Some : forall db name cid step software rid,
  first_package_rowid db name cid step software = Some rid ->
  exists r, In r (package db) /\ pkg_rowid r = rid
            /\ entry_eqb cid name step software r = true.
Proof.
  intros db name cid step software rid. unfold first_package_rowid.
  rewrite select_rowids_entries.
  destruct (filter (entry_eqb cid name step software) (package db)) as [|r0 l] eqn:E; simpl;
    [discriminate|].
  intro H. injection H as <-. exists r0.
  assert (Hin : In r0 (filter (entry_eqb cid name step software) (package db)))
    by (rewrite E; left; reflexivity).
  apply filter_In in Hin. tauto.
Qed.

Lemma NoDup_map_injective : forall {R : Type} (f : R -> Z) l a b,
  NoDup (map f l) -> In a l -> In b l -> f a = f b -> a = b.
Proof.
  intros R f l. induction l as [|x l IH]; intros a b Hnd Ha Hb Hf; [contradiction|].
  simpl in Hnd. inversion Hnd as [|y m Hnot Hnd']; subst.
  destruct Ha as [<- | Ha], Hb as [<- | Hb]; auto.
  - exfalso. apply Hnot. rewrite Hf. apply in_map. assumption.
  - exfalso. apply Hnot. rewrite <- Hf. apply in_map. assumption.
Qed.

Lemma wf_rowid_positive : forall db r,
  wf_database db -> In r (package db) -> (pkg_rowid r =? 0) = false.
Proof.
  intros db r Hwf Hr. pose proof (wf_package_positive db Hwf) as H.
  rewrite Forall_forall in H. apply H in Hr. apply Z.eqb_neq. lia.
Qed.

Lemma wf_context_id_nonzero : forall db pc cid,
  wf_database db -> lookup_context db pc = Some cid -> (cid =? 0) = false.
Proof.
  intros db pc cid Hwf H. pose proof (lookup_context_truthy db pc cid Hwf H) as Ht.
  simpl in Ht. destruct (cid =? 0); [discriminate | reflexivity].
Qed.

(** Deleting by rowid removes the selected row and no other. *)
Lemma delete_keeps_others : forall db r0 r,
  wf_database db -> In r0 (package db) -> In r (package db) -> r <> r0 ->
  In r (package (sql_delete_package db (pkg_rowid r0))).
Proof.
  intros db r0 r Hwf H0 Hr Hne. simpl. apply filter_In. split; auto.
  apply negb_true_iff, Z.eqb_neq. intro Heq. apply Hne.
  apply (NoDup_map_injective pkg_rowid (package db)); auto.
  apply sorted_NoDup. apply wf_package_sorted. assumption.
Qed.

Lemma context_matches_triple : forall pc r,
  context_matches pc r = true <-> triple_of r = (nth 0 pc None, nth 1 pc None, nth 2 pc None).
Proof.
  intros pc r. unfold context_matches, triple_of.
  rewrite !andb_true_iff, !sql_cond_pystr_eqb, !pystr_eqb_eq. split.
  - intros [[-> ->] ->]. reflexivity.
  - intro H. injection H as -> -> ->. auto.
Qed.

Lemma lookup_context_None : forall db pc,
  lookup_context db pc = None <->
  (forall r, In r (context db) -> triple_of r <> (nth 0 pc None, nth 1 pc None, nth 2 pc None)).
Proof.
  intros db pc. unfold lookup_context.
  destruct (filter (context_matches pc) (context db)) as [|r0 l] eqn:E; simpl.
  - split; auto. intros _ r Hr Heq. apply context_matches_triple in Heq.
    assert (Hin : In r (filter (context_matches pc) (context db)))
      by (apply filter_In; auto).
    rewrite E in Hin. contradiction.
  - split; [discriminate|]. intro H. exfalso.
    assert (Hin : In r0 (filter (context_matches pc) (context db)))
      by (rewrite E; left; reflexivity).
    apply filter_In in Hin. destruct Hin as [Hin Heq].
    apply context_matches_triple in Heq. exact (H r0 Hin Heq).
Qed.

Lemma lookup_context_Some : forall db pc cid,
  lookup_context db pc = Some cid ->
  exists r, In r (context db) /\ ctx_context_id r = cid
            /\ triple_of r = (nth 0 pc None, nth 1 pc None, nth 2 pc None).
Proof.
  intros db pc cid. unfold lookup_context.
  destruct (filter (context_matches pc) (context db)) as [|r0 l] eqn:E; simpl;
    [discriminate|].
  intro H. injection H as <-. exists r0.
  assert (Hin : In r0 (filter (context_matches pc) (context db)))
    by (rewrite E; left; reflexivity).
  apply filter_In in Hin. destruct Hin as [Hin Heq].
  apply context_matches_triple in Heq. auto.
Qed.

(** ** Removal *)

Section Removal.

Variable resolve : list string -> outcome ResolverStatus.

Lemma remove_package_raises : forall contexts package_name step software validate s e,
  remove_package resolve contexts package_name step software false s = (Raise e, s) ->
  remove_package resolve contexts package_name step software validate s = (Raise e, s).
Proof.
  intros contexts package_name step software validate s e H.
  destruct validate; auto. rewrite remove_package_validated, H. reflexivity.
Qed.

Lemma remove_package_context_unchanged : forall contexts package_name step software validate s,
  context (connection (snd (remove_package resolve contexts package_name step software
                                           validate s)))
  = context (connection s).
Proof.
  intros contexts package_name step software validate s.
  assert (H : context (connection (snd (remove_package resolve contexts package_name step
                                          software false s)))
              = context (connection s)).
  { unfold remove_package, bind, lift, get, put, ret, raise.
    destruct (get_context_row_id (connection s) contexts) as [found|e0]; auto.
    destruct (negb (truthy_int found)); auto.
    destruct (negb (truthy_int _)); auto. }
  destruct validate; auto.
  rewrite remove_package_validated.
  destruct (remove_package resolve contexts package_name step software false s)
    as [[u|e] s1]; auto.
  destruct (remove_validation _ _ _ _ _ _); auto.
Qed.

(** C5. For a call on at most three levels and a well-formed store:
    [remove_package] raises [ValueError("Context '...' doesn't exist.")]
    when no context row has the triple, and
    [ValueError("Package '...' doesn't exists.")] when no package row
    equals [(context_id, name, step, software)], an absent step or
    software being equal to a [NULL] column only; a call that raises
    leaves the session unchanged; no call changes the context table;
    and every row that differs from the tuple is still there after the
    call, so removing [(name, None, None)] keeps a row of the same name
    whose step is not [NULL]. *)
Theorem remove_package_exact_match :
  forall contexts package_name step software validate s,
    (length contexts <= 3)%nat ->
    wf_database (connection s) ->
    ((forall r, In r (context (connection s)) -> triple_of r <> triple_of_levels contexts) ->
     remove_package resolve contexts package_name step software validate s
     = (Raise (ValueError (unknown_context_message contexts)), s))
    /\ (forall cid,
          get_context_row_id (connection s) contexts = Return (Some cid) ->
          (forall r, In r (package (connection s)) ->
                     entry_of r <> (cid, package_name, step, software)) ->
          remove_package resolve contexts package_name step software validate s
          = (Raise (ValueError (unknown_package_message package_name)), s))
    /\ (forall e s',
          remove_package resolve contexts package_name step software validate s
          = (Raise e, s') -> s' = s)
    /\ context (connection (snd (remove_package resolve contexts package_name step
                                                software validate s)))
       = context (connection s)
    /\ (forall r,
          In r (package (connection s)) ->
          (forall cid, get_context_row_id (connection s) contexts = Return (Some cid) ->
                       entry_of r <> (cid, package_name, step, software)) ->
          In r (package (connection (snd (remove_package resolve contexts package_name
                                                         step software validate s))))).
Proof.
  intros contexts package_name step software validate s Hlen Hwf.
  pose proof (remove_package_unvalidated resolve contexts package_name step software s Hlen)
    as Heq.
  rewrite get_context_row_id_ok by assumption.
  split; [|split; [|split; [|split]]].
  - intro Hno. apply remove_package_raises. rewrite Heq.
    apply (lookup_context_None (connection s) (pad3 contexts)) in Hno.
    rewrite Hno. reflexivity.
  - intros cid Hcid Hno. injection Hcid as Hcid. apply remove_package_raises.
    rewrite Heq, Hcid, (wf_context_id_nonzero _ _ _ Hwf Hcid).
    apply first_package_rowid_None in Hno. rewrite Hno. reflexivity.
  - intros e s' H.
    pose proof (remove_package_edits resolve contexts package_name step software validate s)
      as He.
    rewrite H in He. assumption.
  - apply remove_package_context_unchanged.
  - intros r Hr Hne.
    assert (H : In r (package (connection (snd (remove_package resolve contexts package_name
                                                   step software false s))))).
    { rewrite Heq.
      destruct (lookup_context (connection s) (pad3 contexts)) as [cid|] eqn:Hcid; auto.
      rewrite (wf_context_id_nonzero _ _ _ Hwf Hcid).
      destruct (first_package_rowid (connection s) package_name cid step software)
        as [rid|] eqn:Hrid; auto.
      destruct (first_package_rowid_Some _ _ _ _ _ _ Hrid) as [r0 [H0 [E0 M0]]].
      subst rid. rewrite (wf_rowid_positive _ _ Hwf H0).
      cbn [snd connection]. apply delete_keeps_others; auto.
      intros ->. apply entry_eqb_eq in M0. exact (Hne cid eq_refl M0). }
    destruct validate; auto.
    rewrite remove_package_validated.
    destruct (remove_package resolve contexts package_name step software false s)
      as [[u|e] s1]; auto.
    destruct (remove_validation _ _ _ _ _ _); auto.
Qed.

End Removal.

Ltac concrete_wf :=
  constructor; vm_compute;
  repeat match goal with
         | |- StronglySorted _ _ => constructor
         | |- Forall _ _ => constructor
         | |- _ = _ => reflexivity
         | |- _ \/ _ => first [left; reflexivity | right]
         end.

Lemma remove_package_exact_match_witness :
  remove_package resolver_solved [Some "unknownProject"] "pkgB" None None true
                 two_pkgB_session
  = (Raise (ValueError "Context 'unknownProject' doesn't exist."), two_pkgB_session)
  /\ In (mk_package_row 2 1 "pkgB" (Some "stepA") None)
        (package (connection (snd (remove_package resolver_solved [] "pkgB" None None false
                                                  two_pkgB_session)))).
Proof.
  split.
  - apply (remove_package_exact_match resolver_solved [Some "unknownProject"] "pkgB"
             None None true two_pkgB_session).
    + simpl. lia.
    + concrete_wf.
    + intros r Hr. vm_compute in Hr. destruct Hr as [<- | []]. discriminate.
  - apply (remove_package_exact_match resolver_solved [] "pkgB" None None false
             two_pkgB_session).
    + simpl. lia.
    + concrete_wf.
    + vm_compute. right. left. reflexivity.
    + intros cid _. discriminate.
Defined.

(** ** Duplicate rows *)

Lemma count_after_delete : forall (P : package_row -> bool) l r0,
  NoDup (map pkg_rowid l) -> In r0 l -> P r0 = true ->
  length (filter P l)
  = S (length (filter P (filter (fun r => negb (pkg_rowid r =? pkg_rowid r0)) l)))
  /\ length l = S (length (filter (fun r => negb (pkg_rowid r =? pkg_rowid r0)) l)).
Proof.
  intros P l r0. induction l as [|a l IH]; intros Hnd Hin HP; [contradiction|].
  simpl in Hnd. inversion Hnd as [|x m Hnot Hnd']; subst.
  destruct Hin as [-> | Hin].
  - simpl. rewrite Z.eqb_refl, HP. simpl.
    assert (E : filter (fun r => negb (pkg_rowid r =? pkg_rowid r0)) l = l).
    { clear IH Hnd. induction l as [|b l IHl]; simpl; auto.
      inversion Hnd' as [|y m Hnb Hnd'']; subst.
      destruct (Z.eqb_spec (pkg_rowid b) (pkg_rowid r0)) as [E|E].
      - exfalso. apply Hnot. left. assumption.
      - simpl. f_equal. apply IHl; auto.
        intro H. apply Hnot. right. assumption. }
    rewrite E. auto.
  - destruct (IH Hnd' Hin HP) as [E1 E2].
    assert (Hne : (pkg_rowid a =? pkg_rowid r0) = false).
    { apply Z.eqb_neq. intro E. apply Hnot. rewrite E. apply in_map. assumption. }
    simpl. rewrite Hne. simpl. destruct (P a); simpl; lia.
Qed.

Lemma entry_eqb_refl : forall cid name step software rid,
  entry_eqb cid name step software (mk_package_row rid cid name step software) = true.
Proof.
  intros. apply entry_eqb_eq. reflexivity.
Qed.

(** C10. [add_package] does not look for an equal row: on a well-formed
    store whose context exists, an unvalidated call returns and the
    number of rows equal on [(context_id, name, step, software)] grows
    by one, whatever it was, so a store may hold [k > 1] of them.  When
    the store holds at least one, an unvalidated [remove_package] with
    the same tuple returns, leaves one row less in the table and one row
    less with that tuple: it deletes exactly one of the [k]. *)
Theorem remove_package_deletes_one_duplicate :
  forall resolve contexts package_name step software s cid,
    (length contexts <= 3)%nat ->
    wf_database (connection s) ->
    get_context_row_id (connection s) contexts = Return (Some cid) ->
    (1 <= count_entries (connection s) cid package_name step software)%nat ->
    (exists rowid, fst (add_package resolve contexts package_name step software false s)
                   = Return rowid)
    /\ count_entries
         (connection (snd (add_package resolve contexts package_name step software false s)))
         cid package_name step software
       = S (count_entries (connection s) cid package_name step software)
    /\ fst (remove_package resolve contexts package_name step software false s) = Return tt
    /\ S (count_entries
            (connection (snd (remove_package resolve contexts package_name step software
                                             false s)))
            cid package_name step software)
       = count_entries (connection s) cid package_name step software
    /\ S (length (package (connection (snd (remove_package resolve contexts package_name
                                                           step software false s)))))
       = length (package (connection s)).
Proof.
  intros resolve contexts package_name step software s cid Hlen Hwf Hcid Hk.
  rewrite get_context_row_id_ok in Hcid by assumption. injection Hcid as Hcid.
  pose proof (wf_context_id_nonzero _ _ _ Hwf Hcid) as Hnz.
  rewrite add_package_unvalidated, remove_package_unvalidated by assumption.
  unfold ensure_context. rewrite Hcid. cbn [truthy_int]. rewrite Hnz.
  cbn [negb fst snd connection sql_insert_package].
  split; [eexists; reflexivity|]. split.
  - unfold count_entries. cbn [package]. rewrite filter_app, length_app.
    cbn [filter]. rewrite entry_eqb_refl. simpl. lia.
  - unfold count_entries in *.
    destruct (first_package_rowid (connection s) package_name cid step software)
      as [rid|] eqn:Hrid.
    + destruct (first_package_rowid_Some _ _ _ _ _ _ Hrid) as [r0 [H0 [E0 M0]]].
      subst rid. rewrite (wf_rowid_positive _ _ Hwf H0).
      cbn [fst snd connection sql_delete_package package].
      assert (Hnd : NoDup (map pkg_rowid (package (connection s))))
        by (apply sorted_NoDup, wf_package_sorted; assumption).
      destruct (count_after_delete (entry_eqb cid package_name step software)
                  (package (connection s)) r0 Hnd H0 M0) as [E1 E2].
      rewrite <- E1, <- E2. auto.
    + exfalso. unfold first_package_rowid in Hrid. rewrite select_rowids_entries in Hrid.
      destruct (filter (entry_eqb cid package_name step software) (package (connection s)));
        simpl in *; [lia | discriminate].
Qed.

Lemma remove_package_deletes_one_duplicate_witness :
  count_entries (connection duplicated_session) 1 "pkgA" None None = 2%nat
  /\ S (count_entries
          (connection (snd (remove_package resolver_solved [] "pkgA" None None false
                                           duplicated_session)))
          1 "pkgA" None None)
     = count_entries (connection duplicated_session) 1 "pkgA" None None.
Proof.
  split; [reflexivity|].
  apply (remove_package_deletes_one_duplicate resolver_solved [] "pkgA" None None
           duplicated_session 1).
  - simpl. lia.
  - concrete_wf.
  - reflexivity.
  - vm_compute. lia.
Defined.

(** ** Uniqueness of context triples *)

Lemma NoDup_snoc : forall {T : Type} (l : list T) x, NoDup l -> ~ In x l -> NoDup (l ++ [x]).
Proof.
  intros T l x. induction l as [|a l IH]; simpl; intros Hnd Hx.
  - constructor; [intros [] | constructor].
  - inversion Hnd as [|y m Hnot Hnd']; subst. constructor.
    + rewrite in_app_iff. simpl. intros [H | [H | []]]; auto.
    + apply IH; auto.
Qed.

Lemma context_invariant_same_tables : forall db db',
  context db' = context db -> package db' = package db ->
  context_invariant db -> context_invariant db'.
Proof.
  intros db db' E1 E2 [Hwf [Hu Hs]]. split; [|split].
  - eapply wf_same_tables; eauto.
  - unfold unique_triples. rewrite E1. assumption.
  - unfold studio_rows. rewrite E1. assumption.
Qed.

Lemma studio_row_found : forall db,
  length (studio_rows db) = 1%nat -> lookup_context db [None; None; None] <> None.
Proof.
  intros db H Hnone.
  destruct (studio_rows db) as [|r l] eqn:E; [discriminate|].
  assert (Hin : In r (studio_rows db)) by (rewrite E; left; reflexivity).
  apply filter_In in Hin. destruct Hin as [Hin Hst].
  rewrite lookup_context_None in Hnone. apply (Hnone r Hin).
  unfold is_studio_root in Hst. simpl.
  destruct (triple_of r) as [[[p|] [c|]] [e|]]; try discriminate. reflexivity.
Qed.

Lemma context_invariant_ensure : forall db contexts,
  (length contexts <= 3)%nat ->
  context_invariant db ->
  context_invariant (snd (ensure_context db contexts))
  /\ In (fst (ensure_context db contexts))
        (map ctx_context_id (context (snd (ensure_context db contexts))))
  /\ package (snd (ensure_context db contexts)) = package db.
Proof.
  intros db contexts Hlen [Hwf [Hu Hs]]. unfold ensure_context.
  destruct (lookup_context db (pad3 contexts)) as [cid|] eqn:Hcid.
  - rewrite (lookup_context_truthy _ _ _ Hwf Hcid). cbn [negb fst snd].
    split; [split; auto|]. split; auto. eapply lookup_context_In. eassumption.
  - cbn [truthy_int negb]. split; [split; [|split]|split].
    + apply wf_sql_insert_context. assumption.
    + unfold unique_triples, sql_insert_context. cbn [snd context].
      rewrite map_app. cbn [map]. apply NoDup_snoc; auto.
      rewrite in_map_iff. intros [r [E Hr]].
      rewrite lookup_context_None in Hcid. exact (Hcid r Hr E).
    + unfold studio_rows, sql_insert_context. cbn [snd context].
      rewrite filter_app, length_app. fold (studio_rows db). rewrite Hs.
      cbn [filter]. unfold is_studio_root at 1. cbn [triple_of ctx_project ctx_category
                                                      ctx_entity].
      destruct (nth 0 (pad3 contexts) None) as [p|] eqn:E0; [reflexivity|].
      destruct (nth 1 (pad3 contexts) None) as [c|] eqn:E1; [reflexivity|].
      destruct (nth 2 (pad3 contexts) None) as [e|] eqn:E2; [reflexivity|].
      exfalso. apply (studio_row_found db Hs).
      rewrite (pad3_eta contexts Hlen) in Hcid. rewrite E0, E1, E2 in Hcid. assumption.
    + unfold sql_insert_context. cbn [fst snd context]. rewrite map_app, in_app_iff.
      right. left. reflexivity.
    + reflexivity.
Qed.

Section Invariant.

Variable resolve : list string -> outcome ResolverStatus.
Variable getuser : string.
Variable now : nat -> Z.

Lemma context_invariant_add_package : forall contexts package_name step software validate s,
  context_invariant (connection s) ->
  context_invariant
    (connection (snd (add_package resolve contexts package_name step software validate s))).
Proof.
  intros contexts package_name step software validate s Hinv.
  assert (H : context_invariant
                (connection (snd (add_package resolve contexts package_name step software
                                              false s)))).
  { destruct (Nat.le_gt_cases (length contexts) 3) as [Hl|Hl].
    - rewrite add_package_unvalidated by assumption. cbn [snd connection].
      destruct (context_invariant_ensure (connection s) contexts Hl Hinv)
        as [[Hwf [Hu Hs]] [Hin Hp]].
      split; [|split].
      + apply wf_sql_insert_package; assumption.
      + exact Hu.
      + exact Hs.
    - rewrite add_package_too_long by assumption. assumption. }
  destruct validate; auto.
  rewrite add_package_validated. destruct (add_validation _ _ _ _ _ _); auto.
Qed.

Lemma remove_package_result : forall contexts package_name step software validate s,
  snd (remove_package resolve contexts package_name step software validate s) = s
  \/ exists rid,
       connection (snd (remove_package resolve contexts package_name step software
                                       validate s))
       = sql_delete_package (connection s) rid.
Proof.
  intros contexts package_name step software validate s.
  assert (H : snd (remove_package resolve contexts package_name step software false s) = s
              \/ exists rid,
                  connection (snd (remove_package resolve contexts package_name step
                                                  software false s))
                  = sql_delete_package (connection s) rid).
  { unfold remove_package, bind, lift, get, put, ret, raise.
    destruct (get_context_row_id (connection s) contexts) as [found|e0]; auto.
    destruct (negb (truthy_int found)); auto.
    destruct (negb (truthy_int _)); auto.
    right. eexists. reflexivity. }
  destruct validate; auto.
  rewrite remove_package_validated.
  destruct (remove_package resolve contexts package_name step software false s)
    as [[u|e] s1]; auto.
  destruct (remove_validation _ _ _ _ _ _); auto.
Qed.

Lemma context_invariant_remove_package :
  forall contexts package_name step software validate s,
    context_invariant (connection s) ->
    context_invariant
      (connection (snd (remove_package resolve contexts package_name step software
                                       validate s))).
Proof.
  intros contexts package_name step software validate s Hinv.
  destruct (remove_package_result contexts package_name step software validate s)
    as [-> | [rid ->]]; auto.
  destruct Hinv as [Hwf [Hu Hs]]. split; [|split]; auto.
  apply wf_sql_delete_package. assumption.
Qed.

Lemma context_invariant_save : forall store_history comment s,
  context_invariant (connection s) ->
  context_invariant (connection (snd (save getuser now store_history comment s))).
Proof.
  intros store_history comment s Hinv. rewrite save_eq. cbn [snd connection].
  destruct store_history; auto.
  eapply context_invariant_same_tables; [| |eassumption]; reflexivity.
Qed.

Lemma context_invariant_insert_if_missing : forall contexts s,
  context_invariant (connection s) ->
  context_invariant (connection (snd (insert_context_if_missing contexts s))).
Proof.
  intros contexts s Hinv. unfold insert_context_if_missing, bind, lift, get, ret.
  destruct (Nat.le_gt_cases (length contexts) 3) as [Hl|Hl].
  - rewrite get_context_row_id_ok by assumption.
    pose proof (context_invariant_ensure (connection s) contexts Hl Hinv) as [H _].
    unfold ensure_context in H.
    destruct (negb (truthy_int (lookup_context (connection s) (pad3 contexts)))); auto.
    rewrite insert_context_ok by assumption. exact H.
  - unfold get_context_row_id, obind.
    rewrite sanitize_context_too_long by assumption. assumption.
Qed.

Lemma context_invariant_call : forall c s,
  context_invariant (connection s) ->
  context_invariant (connection (snd (run_session_call resolve getuser now c s))).
Proof.
  intros [[contexts n st sw v|contexts n st sw v]|store_history comment|contexts] s Hinv;
    simpl.
  - unfold bind, ret.
    pose proof (context_invariant_add_package contexts n st sw v s Hinv) as H.
    destruct (add_package resolve contexts n st sw v s) as [[r|e] s1]; exact H.
  - apply context_invariant_remove_package. assumption.
  - apply context_invariant_save. assumption.
  - apply context_invariant_insert_if_missing. assumption.
Qed.

Lemma context_invariant_initialize : forall production,
  context_invariant
    (connection (snd (initialize getuser now (mk_Session production empty_database [] false)))).
Proof.
  intro production. unfold initialize, bind, get, put. rewrite save_eq.
  split; [|split].
  - concrete_wf.
  - unfold unique_triples. simpl. repeat constructor. simpl. tauto.
  - reflexivity.
Qed.

End Invariant.

(** C9, as stated, fails: [initialize] and [insert_context] insert
    without looking, so a second [initialize], or [insert_context()]
    after it, leaves two all-[NULL] rows. *)
Lemma repeated_initialize_duplicates_studio_root :
  ~ unique_triples (connection (snd (initialize "user" (fun _ => 0) initialized_session)))
  /\ length (studio_rows
               (connection (snd (initialize "user" (fun _ => 0) initialized_session))))
     = 2%nat
  /\ ~ unique_triples (connection (snd (insert_context [] initialized_session))).
Proof.
  split; [|split].
  - vm_compute. intro H. inversion H as [|x l Hnot Hnd]; subst.
    apply Hnot. left. reflexivity.
  - reflexivity.
  - vm_compute. intro H. inversion H as [|x l Hnot Hnd]; subst.
    apply Hnot. left. reflexivity.
Qed.

(** C9, amended.  After one [initialize] on a new store, and then after
    any sequence of [add_package], [remove_package] and [save] calls and
    of [insert_context] calls made only when [get_context_row_id] finds
    nothing, no two context rows share a triple and exactly one row is
    the all-[NULL] studio root. *)
Theorem context_triples_unique :
  forall resolve getuser now production calls,
    unique_triples
      (connection (after_calls resolve getuser now calls
                     (snd (initialize getuser now
                             (mk_Session production empty_database [] false)))))
    /\ length (studio_rows
                 (connection (after_calls resolve getuser now calls
                                (snd (initialize getuser now
                                        (mk_Session production empty_database [] false))))))
       = 1%nat.
Proof.
  intros resolve getuser now production calls.
  assert (H : context_invariant
                (connection (after_calls resolve getuser now calls
                               (snd (initialize getuser now
                                       (mk_Session production empty_database [] false)))))).
  { unfold after_calls.
    generalize (context_invariant_initialize getuser now production).
    generalize (snd (initialize getuser now (mk_Session production empty_database [] false))).
    induction calls as [|c rest IH]; intros s Hinv; simpl; auto.
    apply IH. apply context_invariant_call. assumption. }
  destruct H as [_ [Hu Hs]]. auto.
Qed.

(** ** The package list *)

Lemma get_package_list_stages : forall resolve db contexts step software validate,
  (length contexts <= 3)%nat ->
  get_package_list resolve db contexts step software validate
  = validated resolve validate
      (stacked db (first_occurrences Z.eqb (truthy_ids (chain_lookups db (pad3 contexts))))
               step software).
Proof.
  intros resolve db contexts step software validate Hlen.
  unfold get_package_list. rewrite sanitize_context_ok by assumption.
  cbn [obind].
  rewrite !get_context_row_id_ok by (simpl; lia).
  cbn [obind].
  rewrite (dict_fromkeys_first_occurrences Z.eqb Z.eqb_eq).
  rewrite (fold_left_nested (select_names db)). reflexivity.
Qed.

Lemma get_package_list_too_long : forall resolve db contexts step software validate,
  (3 < length contexts)%nat ->
  get_package_list resolve db contexts step software validate
  = Raise (ValueError "A context can only 0 to 3 production environments.").
Proof.
  intros resolve db contexts step software validate Hlen.
  unfold get_package_list. rewrite sanitize_context_too_long by assumption. reflexivity.
Qed.

Lemma first_or_none_find : forall {R T : Type} (f : R -> T) (p q : R -> bool) l,
  (forall r, p r = q r) ->
  first_or_none (map f (filter p l))
  = match find q l with Some r => Some (f r) | None => None end.
Proof.
  intros R T f p q l H. induction l as [|a l IH]; simpl; auto.
  rewrite <- H. destruct (p a); simpl; auto.
Qed.

Lemma lookup_context_findId : forall db a b c,
  lookup_context db [a; b; c] = findId db (a, b, c).
Proof.
  intros db a b c. unfold lookup_context, findId. apply first_or_none_find.
  intro r. unfold context_matches, triple_eqb. simpl.
  rewrite !sql_cond_pystr_eqb. reflexivity.
Qed.

Lemma truthy_lookup : forall db pc,
  wf_database db ->
  (if truthy_int (lookup_context db pc)
   then match lookup_context db pc with Some z => [z] | None => [] end
   else [])
  = match lookup_context db pc with Some i => [i] | None => [] end.
Proof.
  intros db pc Hwf. destruct (lookup_context db pc) as [z|] eqn:E; auto.
  rewrite (lookup_context_truthy db pc z Hwf E). reflexivity.
Qed.

Lemma truthy_chain_lookups : forall db pc,
  wf_database db ->
  truthy_ids (chain_lookups db pc)
  = existing_ids db (ancestor_chain (nth 0 pc None, nth 1 pc None, nth 2 pc None)).
Proof.
  intros db pc Hwf. unfold truthy_ids, chain_lookups, existing_ids, ancestor_chain.
  cbn [flat_map fst snd]. rewrite !truthy_lookup by assumption.
  rewrite !lookup_context_findId. reflexivity.
Qed.

Lemma select_names_group_names : forall db cid l,
  select_names db cid l = group_names db cid l.
Proof.
  intros db cid l. unfold select_names, group_names. f_equal.
  apply filter_ext. intro r. rewrite !sql_cond_pystr_eqb. reflexivity.
Qed.

Lemma stacked_stacked_names : forall db contexts step software,
  wf_database db ->
  stacked db (first_occurrences Z.eqb (truthy_ids (chain_lookups db (pad3 contexts))))
          step software
  = stacked_names truthy_str db (triple_of_levels contexts) step software.
Proof.
  intros db contexts step software Hwf. unfold stacked, stacked_names, triple_of_levels.
  rewrite truthy_chain_lookups by assumption.
  apply flat_map_ext. intro cid. apply flat_map_ext. intro l.
  apply select_names_group_names.
Qed.

Lemma group_names_row : forall db cid g name,
  In name (group_names db cid g) ->
  exists r, In r (package db) /\ pkg_name r = name /\ pkg_context_id r = cid
            /\ pkg_step r = fst g /\ pkg_software r = snd g.
Proof.
  intros db cid g name H. unfold group_names in H.
  apply in_map_iff in H. destruct H as [r [E Hr]].
  apply filter_In in Hr. destruct Hr as [Hr Hm].
  rewrite !andb_true_iff, Z.eqb_eq, !pystr_eqb_eq in Hm.
  exists r. tauto.
Qed.

Lemma axis_groups_cases : forall asked step software g,
  In g (axis_groups asked step software) ->
  (fst g = None \/ fst g = step) /\ (snd g = None \/ snd g = software).
Proof.
  intros asked step software g. unfold axis_groups.
  destruct (asked step), (asked software); simpl;
    intuition (subst; simpl; auto).
Qed.

(** C1, as stated, fails: a step given as the empty string is not
    queried, so [get_package_list] leaves out the package that was
    inserted under that step, which the stated algorithm returns. *)
Lemma empty_step_is_not_queried :
  get_package_list resolver_solved (connection empty_step_session) [] (Some "") None false
  = Return []
  /\ listPackages requested (connection empty_step_session) (triple_of_levels [])
                  (Some "") None
     = ["pkgE"]
  /\ get_package_list resolver_solved (connection empty_step_session) [] (Some "") None
                      false
     <> Return (listPackages requested (connection empty_step_session)
                             (triple_of_levels []) (Some "") None).
Proof.
  split; [reflexivity|]. split; [reflexivity|].
  vm_compute. intro H. discriminate H.
Qed.

(** C1, amended.  On a well-formed store, for at most three levels, when
    validation is off or the gateway accepts the stacked list,
    [get_package_list] returns the list that the stated algorithm builds
    when a step or a software counts as requested only if it is a
    non-empty string: ancestor chain, absent ids dropped, ids without
    repetition in first-seen order, the axis groups of each id in their
    fixed order, names without repetition at their first occurrence.
    Every name returned comes from a row whose step is [NULL] or the
    step asked for, and whose software is [NULL] or the software asked
    for.  On the store of the test suite the four scopes come back in
    the order studio, project, category, entity, and the package under
    [stepA] comes back only when [stepA] is asked for. *)
Theorem get_package_list_merges_scopes :
  forall resolve db contexts step software validate,
    (length contexts <= 3)%nat ->
    wf_database db ->
    (validate = true ->
     exists message,
       validate_context resolve
         (stacked_names truthy_str db (triple_of_levels contexts) step software)
       = Return (true, message)) ->
    get_package_list resolve db contexts step software validate
    = Return (listPackages truthy_str db (triple_of_levels contexts) step software)
    /\ (forall name,
          In name (listPackages truthy_str db (triple_of_levels contexts) step software) ->
          exists r, In r (package db) /\ pkg_name r = name
                    /\ (pkg_step r = None \/ pkg_step r = step)
                    /\ (pkg_software r = None \/ pkg_software r = software))
    /\ get_package_list resolve (connection override_session)
         [Some "project"; Some "category"; Some "entity"] None None false
       = Return ["pkgA"; "pkgB"; "pkgC"; "pkgD"]
    /\ get_package_list resolve (connection override_session) [] (Some "stepA") None false
       = Return ["pkgA"; "pkgE"]
    /\ get_package_list resolve (connection override_session) [] None None false
       = Return ["pkgA"].
Proof.
  intros resolve db contexts step software validate Hlen Hwf Hval.
  split; [|split; [|split; [|split]]].
  - rewrite get_package_list_stages by assumption.
    rewrite stacked_stacked_names by assumption.
    unfold validated, listPackages.
    rewrite (dict_fromkeys_first_occurrences String.eqb String_eqb_spec).
    destruct validate; auto.
    destruct (Hval eq_refl) as [message Hm]. rewrite Hm. reflexivity.
  - intros name H. unfold listPackages in H.
    apply (proj1 (first_occurrences_In String.eqb String_eqb_spec _ _)) in H.
    unfold stacked_names in H.
    apply in_flat_map in H. destruct H as [cid [_ H]].
    apply in_flat_map in H. destruct H as [g [Hg H]].
    apply group_names_row in H. destruct H as [r [Hr [En [_ [Es Esw]]]]].
    apply axis_groups_cases in Hg. destruct Hg as [H1 H2].
    exists r. rewrite Es, Esw. auto.
  - reflexivity.
  - reflexivity.
  - reflexivity.
Qed.

Lemma get_package_list_merges_scopes_witness :
  get_package_list resolver_solved (connection override_session)
                   [Some "project"; Some "category"] (Some "stepA") None true
  = Return (listPackages truthy_str (connection override_session)
              (triple_of_levels [Some "project"; Some "category"]) (Some "stepA") None).
Proof.
  apply (get_package_list_merges_scopes resolver_solved (connection override_session)
           [Some "project"; Some "category"] (Some "stepA") None true).
  - simpl. lia.
  - concrete_wf.
  - intros _. exists None. reflexivity.
Defined.

(** ** Adds followed by the same removes *)

Lemma run_calls_app : forall resolve l1 l2 s,
  run_calls resolve (l1 ++ l2) s
  = match run_calls resolve l1 s with
    | (Return _, s1) => run_calls resolve l2 s1
    | (Raise e, s1) => (Raise e, s1)
    end.
Proof.
  intros resolve l1 l2. induction l1 as [|c l1 IH]; intro s; simpl; auto.
  unfold bind. destruct (run_call resolve c s) as [[u|e] s1]; auto.
Qed.

Lemma lookup_context_app : forall db rows1 rows2 pc,
  context db = rows1 ++ rows2 ->
  lookup_context db pc
  = match first_or_none (map ctx_context_id (filter (context_matches pc) rows1)) with
    | Some c => Some c
    | None => first_or_none (map ctx_context_id (filter (context_matches pc) rows2))
    end.
Proof.
  intros db rows1 rows2 pc H. unfold lookup_context. rewrite H, filter_app, map_app.
  destruct (map ctx_context_id (filter (context_matches pc) rows1)); reflexivity.
Qed.

Lemma lookup_context_same : forall db db' pc,
  context db' = context db -> lookup_context db' pc = lookup_context db pc.
Proof. intros db db' pc H. unfold lookup_context. rewrite H. reflexivity. Qed.

Lemma extends_refl : forall db, extends db db.
Proof. intro db. exists []. rewrite app_nil_r. reflexivity. Qed.

Lemma extends_trans : forall a b c, extends a b -> extends b c -> extends a c.
Proof.
  intros a b c [n1 H1] [n2 H2]. exists (n1 ++ n2). rewrite H2, H1, app_assoc. reflexivity.
Qed.

Lemma lookup_extends_Some : forall db0 db pc c,
  extends db0 db -> lookup_context db0 pc = Some c -> lookup_context db pc = Some c.
Proof.
  intros db0 db pc c [new_rows H] H0.
  rewrite (lookup_context_app db _ _ pc H).
  unfold lookup_context in H0. rewrite H0. reflexivity.
Qed.

Lemma lookup_extends_None : forall db0 db pc c,
  extends db0 db -> wf_database db ->
  lookup_context db0 pc = None -> lookup_context db pc = Some c ->
  ~ In c (map ctx_context_id (context db0)).
Proof.
  intros db0 db pc c [new_rows H] Hwf H0 H1.
  rewrite (lookup_context_app db _ _ pc H) in H1.
  unfold lookup_context in H0. rewrite H0 in H1.
  destruct (filter (context_matches pc) new_rows) as [|r l] eqn:E; simpl in H1;
    [discriminate|].
  injection H1 as <-.
  assert (Hin : In r new_rows).
  { assert (Hf : In r (filter (context_matches pc) new_rows)) by (rewrite E; left; auto).
    apply filter_In in Hf. tauto. }
  pose proof (sorted_NoDup _ (wf_context_sorted db Hwf)) as Hnd.
  rewrite H, map_app in Hnd. intro Hold.
  revert Hnd Hold Hin. generalize (context db0). intros old Hnd Hold Hin.
  induction old as [|a old IH]; simpl in *; [contradiction|].
  inversion Hnd as [|x m Hnot Hnd']; subst.
  destruct Hold as [E1 | Hold].
  - apply Hnot. rewrite in_app_iff. right. rewrite E1. apply in_map. assumption.
  - apply IH; assumption.
Qed.

Lemma ensure_context_facts : forall db contexts,
  (length contexts <= 3)%nat ->
  wf_database db ->
  wf_database (snd (ensure_context db contexts))
  /\ extends db (snd (ensure_context db contexts))
  /\ package (snd (ensure_context db contexts)) = package db
  /\ lookup_context (snd (ensure_context db contexts)) (pad3 contexts)
     = Some (fst (ensure_context db contexts)).
Proof.
  intros db contexts Hlen Hwf. unfold ensure_context.
  destruct (lookup_context db (pad3 contexts)) as [cid|] eqn:Hcid.
  - rewrite (lookup_context_truthy _ _ _ Hwf Hcid). cbn [negb fst snd].
    split; [assumption|]. split; [apply extends_refl|]. split; [reflexivity|assumption].
  - cbn [truthy_int negb]. split; [|split; [|split]].
    + apply wf_sql_insert_context. assumption.
    + eexists. unfold sql_insert_context. cbn [snd context]. reflexivity.
    + reflexivity.
    + unfold sql_insert_context. cbn [fst snd].
      unfold lookup_context in *. cbn [context]. rewrite filter_app, map_app.
      destruct (map ctx_context_id (filter (context_matches (pad3 contexts)) (context db)))
        as [|c0 l0]; [|discriminate Hcid].
      cbn [app filter].
      assert (Hm : context_matches (pad3 contexts)
                     (mk_context_row
                        (1 + Z.max (context_seq db)
                                   (max_list (map ctx_context_id (context db))))
                        (nth 0 (pad3 contexts) None) (nth 1 (pad3 contexts) None)
                        (nth 2 (pad3 contexts) None)) = true)
        by (apply context_matches_triple; reflexivity).
      rewrite Hm. reflexivity.
Qed.

Section RoundTrip.

Variable resolve : list string -> outcome ResolverStatus.

Lemma row_of_call_extends : forall db db' a r,
  extends db db' -> row_of_call db a r -> row_of_call db' a r.
Proof.
  intros db db' a r Hext [H1 H2]. split; auto.
  eapply lookup_extends_Some; eassumption.
Qed.

(** The adds return; they append their rows, in order, after the rows
    that were there, and context rows after the context rows that were
    there. *)
Lemma adds_append : forall l s,
  wf_database (connection s) ->
  Forall (fun a => (length (arg_contexts a) <= 3)%nat) l ->
  exists s1 added,
    run_calls resolve (map add_call l) s = (Return tt, s1)
    /\ wf_database (connection s1)
    /\ extends (connection s) (connection s1)
    /\ package (connection s1) = package (connection s) ++ added
    /\ Forall2 (row_of_call (connection s1)) l added.
Proof.
  induction l as [|a l IH]; intros s Hwf Hlen.
  - exists s, []. simpl. rewrite app_nil_r.
    repeat (split; [first [reflexivity | assumption | apply extends_refl]|]).
    constructor.
  - inversion Hlen as [|x m Ha Hl]; subst.
    destruct (ensure_context_facts (connection s) (arg_contexts a) Ha Hwf)
      as [Hwf1 [Hext1 [Hpkg1 Hlook1]]].
    cbn [map run_calls]. unfold bind at 1. unfold add_call at 1. cbn [run_call].
    unfold bind at 1. rewrite add_package_unvalidated by assumption.
    unfold ret at 1.
    set (db1 := snd (ensure_context (connection s) (arg_contexts a))) in *.
    set (cid := fst (ensure_context (connection s) (arg_contexts a))) in *.
    set (s_mid := mk_Session _ _ _ _).
    assert (Hwf_mid : wf_database (connection s_mid)).
    { subst s_mid. cbn [connection]. apply wf_sql_insert_package; auto.
      eapply lookup_context_In. eassumption. }
    destruct (IH s_mid Hwf_mid Hl) as [s1 [added [Hrun [Hwf' [Hext' [Hpkg' Hrows]]]]]].
    exists s1, (mk_package_row (1 + max_list (map pkg_rowid (package db1))) cid
                  (arg_name a) (arg_step a) (arg_software a) :: added).
    split; [exact Hrun|]. split; [exact Hwf'|].
    assert (Hext_mid : extends (connection s) (connection s_mid)).
    { subst s_mid. cbn [connection]. unfold sql_insert_package. cbn [snd].
      destruct Hext1 as [n Hn]. exists n. cbn [context]. exact Hn. }
    split; [eapply extends_trans; eassumption|]. split.
    + rewrite Hpkg'. subst s_mid. cbn [connection]. unfold sql_insert_package.
      cbn [snd package]. rewrite Hpkg1, <- app_assoc. reflexivity.
    + constructor; auto.
      apply (row_of_call_extends (connection s_mid)); auto.
      split; [|cbn; auto]. cbn [pkg_context_id].
      subst s_mid. cbn [connection]. unfold sql_insert_package. cbn [snd].
      rewrite <- Hlook1. apply lookup_context_same. reflexivity.
Qed.

Lemma filter_none : forall {R : Type} (p : R -> bool) l,
  (forall x, In x l -> p x = false) -> filter p l = [].
Proof.
  intros R p l. induction l as [|a l IH]; intro H; simpl; auto.
  rewrite (H a) by (left; reflexivity). apply IH. intros x Hx. apply H. right. assumption.
Qed.

Lemma delete_middle : forall base r added,
  NoDup (map pkg_rowid (base ++ r :: added)) ->
  filter (fun x => negb (pkg_rowid x =? pkg_rowid r)) (base ++ r :: added) = base ++ added.
Proof.
  intros base r added Hnd.
  assert (Hkeep : forall l, (forall x, In x l -> pkg_rowid x <> pkg_rowid r) ->
                            filter (fun x => negb (pkg_rowid x =? pkg_rowid r)) l = l).
  { induction l as [|a l IH]; intro H; simpl; auto.
    destruct (Z.eqb_spec (pkg_rowid a) (pkg_rowid r)) as [E|E].
    - exfalso. exact (H a (or_introl eq_refl) E).
    - simpl. f_equal. apply IH. intros x Hx. apply H. right. assumption. }
  rewrite filter_app. cbn [filter]. rewrite Z.eqb_refl. cbn [negb].
  rewrite map_app in Hnd. cbn [map] in Hnd.
  pose proof (NoDup_remove_2 _ _ _ Hnd) as Hnot.
  rewrite !Hkeep; auto.
  - intros x Hx E. apply Hnot. rewrite in_app_iff. right. rewrite <- E.
    apply in_map. assumption.
  - intros x Hx E. apply Hnot. rewrite in_app_iff. left. rewrite <- E.
    apply in_map. assumption.
Qed.

(** The removes return; each one deletes the row that the add of the
    same rank had appended, when no older row has the same tuple. *)
Lemma removes_delete_added : forall l added s1 base,
  package (connection s1) = base ++ added ->
  wf_database (connection s1) ->
  Forall2 (row_of_call (connection s1)) l added ->
  Forall (fun a => (length (arg_contexts a) <= 3)%nat) l ->
  (forall a r, In a l -> In r base ->
               entry_eqb (match lookup_context (connection s1) (pad3 (arg_contexts a)) with
                          | Some c => c
                          | None => 0
                          end)
                         (arg_name a) (arg_step a) (arg_software a) r = false) ->
  exists s2,
    run_calls resolve (map remove_call l) s1 = (Return tt, s2)
    /\ package (connection s2) = base
    /\ context (connection s2) = context (connection s1)
    /\ wf_database (connection s2).
Proof.
  induction l as [|a l IH]; intros added s1 base Hpkg Hwf Hrows Hlen Hbase.
  - inversion Hrows; subst. exists s1. simpl. rewrite app_nil_r in Hpkg. auto.
  - inversion Hrows as [|x r1 m added' Hr1 Hrest]; subst.
    inversion Hlen as [|x m Ha Hl]; subst.
    destruct Hr1 as [Hlook [Hn [Hst Hsw]]].
    cbn [map run_calls]. unfold bind at 1. unfold remove_call at 1. cbn [run_call].
    rewrite remove_package_unvalidated by assumption.
    rewrite Hlook. rewrite (wf_context_id_nonzero _ _ _ Hwf Hlook).
    assert (Hin1 : In r1 (package (connection s1)))
      by (rewrite Hpkg, in_app_iff; right; left; reflexivity).
    assert (Hfirst : first_package_rowid (connection s1) (arg_name a) (pkg_context_id r1)
                       (arg_step a) (arg_software a) = Some (pkg_rowid r1)).
    { unfold first_package_rowid. rewrite select_rowids_entries, Hpkg, filter_app.
      rewrite filter_none.
      - cbn [app filter].
        replace (entry_eqb (pkg_context_id r1) (arg_name a) (arg_step a) (arg_software a) r1)
          with true; [reflexivity|].
        symmetry. apply entry_eqb_eq. unfold entry_of. congruence.
      - intros x Hx. specialize (Hbase a x (or_introl eq_refl) Hx).
        rewrite Hlook in Hbase. exact Hbase. }
    rewrite Hfirst, (wf_rowid_positive _ _ Hwf Hin1).
    set (s1' := mk_Session _ _ _ _).
    assert (Hpkg' : package (connection s1') = base ++ added').
    { subst s1'. cbn [connection sql_delete_package package]. rewrite Hpkg.
      apply delete_middle. rewrite <- Hpkg.
      apply sorted_NoDup, wf_package_sorted. assumption. }
    assert (Hctx' : context (connection s1') = context (connection s1)) by reflexivity.
    assert (Hwf' : wf_database (connection s1')).
    { subst s1'. cbn [connection]. apply wf_sql_delete_package. assumption. }
    assert (Hrest' : Forall2 (row_of_call (connection s1')) l added').
    { clear - Hrest Hctx'.
      induction Hrest as [|b r l' m Hbr Hrest IHr]; constructor; [|exact IHr].
      destruct Hbr as [H1 H2]. split; [|exact H2].
      rewrite <- H1. apply lookup_context_same. assumption. }
    assert (Hbase' : forall b r, In b l -> In r base ->
              entry_eqb (match lookup_context (connection s1') (pad3 (arg_contexts b)) with
                         | Some c => c
                         | None => 0
                         end)
                        (arg_name b) (arg_step b) (arg_software b) r = false).
    { intros b r Hb Hr. rewrite (lookup_context_same _ _ _ Hctx').
      apply Hbase; auto. right. assumption. }
    destruct (IH added' s1' base Hpkg' Hwf' Hrest' Hl Hbase') as [s2 [Hrun [Hp2 [Hc2 Hwf2]]]].
    exists s2. rewrite Hrun, Hc2. auto.
Qed.

Lemma select_names_unknown : forall db c l,
  wf_database db -> known_context db c = false -> select_names db c l = [].
Proof.
  intros db c l Hwf Hc. unfold select_names. rewrite filter_none; auto.
  intros r Hr. pose proof (wf_foreign_key db Hwf) as Hfk.
  rewrite Forall_forall in Hfk. apply Hfk in Hr.
  destruct (Z.eqb_spec (pkg_context_id r) c) as [E|E]; auto.
  exfalso. subst c. unfold known_context in Hc.
  assert (Ht : existsb (Z.eqb (pkg_context_id r)) (map ctx_context_id (context db)) = true)
    by (apply (existsb_eqb_In Z.eqb Z.eqb_eq); assumption).
  congruence.
Qed.

(** Context rows that no package row refers to do not change any list. *)
Lemma stacked_known_only : forall db ids step software,
  wf_database db ->
  stacked db ids step software = stacked db (filter (known_context db) ids) step software.
Proof.
  intros db ids step software Hwf. unfold stacked.
  induction ids as [|c ids IH]; cbn [filter flat_map]; auto.
  destruct (known_context db c) eqn:E; cbn [flat_map].
  - f_equal. exact IH.
  - rewrite <- IH. clear IH.
    assert (Hnil : flat_map (select_names db c) (lookup_steps step software) = []).
    { induction (lookup_steps step software) as [|g gs IHg]; cbn [flat_map]; auto.
      rewrite select_names_unknown by assumption. assumption. }
    rewrite Hnil. reflexivity.
Qed.

End RoundTrip.

Section SameLists.

Variable resolve : list string -> outcome ResolverStatus.

Lemma known_lookup : forall db0 db pc,
  wf_database db0 -> wf_database db -> extends db0 db ->
  filter (known_context db0)
         (if truthy_int (lookup_context db pc)
          then match lookup_context db pc with Some z => [z] | None => [] end
          else [])
  = (if truthy_int (lookup_context db0 pc)
     then match lookup_context db0 pc with Some z => [z] | None => [] end
     else []).
Proof.
  intros db0 db pc Hwf0 Hwf Hext.
  destruct (lookup_context db0 pc) as [c|] eqn:E0.
  - rewrite (lookup_extends_Some db0 db pc c Hext E0).
    rewrite (lookup_context_truthy db0 pc c Hwf0 E0). cbn [filter].
    assert (Hk : known_context db0 c = true).
    { apply (existsb_eqb_In Z.eqb Z.eqb_eq). eapply lookup_context_In. eassumption. }
    rewrite Hk. reflexivity.
  - cbn [truthy_int].
    destruct (lookup_context db pc) as [c|] eqn:E; [|reflexivity].
    assert (Hk : known_context db0 c = false).
    { destruct (known_context db0 c) eqn:Hk; auto. exfalso.
      apply (existsb_eqb_In Z.eqb Z.eqb_eq) in Hk.
      exact (lookup_extends_None db0 db pc c Hext Hwf E0 E Hk). }
    destruct (truthy_int (Some c)); cbn [filter]; rewrite ?Hk; reflexivity.
Qed.

Lemma known_chain : forall db0 db pc,
  wf_database db0 -> wf_database db -> extends db0 db ->
  filter (known_context db0) (truthy_ids (chain_lookups db pc))
  = truthy_ids (chain_lookups db0 pc).
Proof.
  intros db0 db pc Hwf0 Hwf Hext. unfold truthy_ids, chain_lookups. cbn [flat_map].
  rewrite !filter_app. cbn [filter].
  rewrite !(known_lookup db0 db) by assumption. reflexivity.
Qed.

Lemma stacked_same_package : forall db db' ids step software,
  package db' = package db -> stacked db' ids step software = stacked db ids step software.
Proof.
  intros db db' ids step software H. unfold stacked, select_names. rewrite H. reflexivity.
Qed.

(** New context rows that hold no package leave every list as it was. *)
Lemma get_package_list_extends : forall db0 db contexts step software validate,
  wf_database db0 -> wf_database db -> extends db0 db -> package db = package db0 ->
  get_package_list resolve db contexts step software validate
  = get_package_list resolve db0 contexts step software validate.
Proof.
  intros db0 db contexts step software validate Hwf0 Hwf Hext Hpkg.
  destruct (Nat.le_gt_cases (length contexts) 3) as [Hl|Hl].
  - rewrite !get_package_list_stages by assumption. f_equal.
    rewrite (stacked_same_package db0 db) by assumption.
    rewrite (stacked_known_only db0
               (first_occurrences Z.eqb (truthy_ids (chain_lookups db (pad3 contexts)))))
      by assumption.
    rewrite <- (first_occurrences_filter Z.eqb Z.eqb_eq).
    rewrite known_chain by assumption. reflexivity.
  - rewrite !get_package_list_too_long by assumption. reflexivity.
Qed.

End SameLists.

(** ** Every method keeps the store well formed *)

Section WellFormed.

Variable resolve : list string -> outcome ResolverStatus.
Variable getuser : string.
Variable now : nat -> Z.

Lemma wf_insert_context : forall contexts s,
  wf_database (connection s) -> wf_database (connection (snd (insert_context contexts s))).
Proof.
  intros contexts s Hwf.
  destruct (Nat.le_gt_cases (length contexts) 3) as [Hl|Hl].
  - rewrite insert_context_ok by assumption. cbn [snd after_write connection].
    apply wf_sql_insert_context. assumption.
  - unfold insert_context, bind, lift. rewrite sanitize_context_too_long by assumption.
    assumption.
Qed.

Lemma wf_add_package : forall contexts package_name step software validate s,
  wf_database (connection s) ->
  wf_database
    (connection (snd (add_package resolve contexts package_name step software validate s))).
Proof.
  intros contexts package_name step software validate s Hwf.
  assert (H : wf_database
                (connection (snd (add_package resolve contexts package_name step software
                                              false s)))).
  { destruct (Nat.le_gt_cases (length contexts) 3) as [Hl|Hl].
    - rewrite add_package_unvalidated by assumption. cbn [snd connection].
      destruct (ensure_context_facts (connection s) contexts Hl Hwf) as [H1 [_ [_ H4]]].
      apply wf_sql_insert_package; auto. eapply lookup_context_In. eassumption.
    - rewrite add_package_too_long by assumption. assumption. }
  destruct validate; auto.
  rewrite add_package_validated. destruct (add_validation _ _ _ _ _ _); auto.
Qed.

Lemma wf_remove_package : forall contexts package_name step software validate s,
  wf_database (connection s) ->
  wf_database
    (connection (snd (remove_package resolve contexts package_name step software
                                     validate s))).
Proof.
  intros contexts package_name step software validate s Hwf.
  destruct (remove_package_result resolve contexts package_name step software validate s)
    as [-> | [rid ->]]; auto.
  apply wf_sql_delete_package. assumption.
Qed.

Lemma wf_save : forall store_history comment s,
  wf_database (connection s) ->
  wf_database (connection (snd (save getuser now store_history comment s))).
Proof.
  intros store_history comment s Hwf. rewrite save_eq. cbn [snd connection].
  destruct store_history; auto.
  eapply wf_same_tables; [| |eassumption]; reflexivity.
Qed.

Lemma wf_initialize : forall s,
  wf_database (connection s) ->
  wf_database (connection (snd (initialize getuser now s))).
Proof.
  intros s Hwf. unfold initialize, bind, get, put.
  apply wf_save. cbn [connection after_write].
  apply wf_sql_insert_context. assumption.
Qed.

End WellFormed.

(** C6, as stated, fails: when the store already holds a row equal to an
    added tuple, the remove deletes the older row, and the name moves
    behind the names that were between the two. *)
Lemma round_trip_reorders_duplicates :
  fst (run_calls resolver_solved (adds_then_removes [mk_entry_args [] "pkgA" None None])
                 pkgA_pkgB_session)
  = Return tt
  /\ get_package_list resolver_solved (connection pkgA_pkgB_session) [] None None false
     = Return ["pkgA"; "pkgB"]
  /\ get_package_list resolver_solved
       (connection (snd (run_calls resolver_solved
                           (adds_then_removes [mk_entry_args [] "pkgA" None None])
                           pkgA_pkgB_session)))
       [] None None false
     = Return ["pkgB"; "pkgA"].
Proof. repeat split. Qed.

(** C6, amended.  On a well-formed store, for every finite sequence of
    tuples of at most three levels none of which is the tuple of a
    package row that the store already holds: the unvalidated adds of
    the sequence followed by the unvalidated removes of the same tuples
    all return, the package table is again what it was, and every call
    of [get_package_list] gives what it gave before the adds. *)
Theorem adds_then_removes_round_trip :
  forall resolve l s,
    wf_database (connection s) ->
    Forall (fun a => (length (arg_contexts a) <= 3)%nat) l ->
    Forall (fun a => forall cid,
                get_context_row_id (connection s) (arg_contexts a) = Return (Some cid) ->
                count_entries (connection s) cid (arg_name a) (arg_step a) (arg_software a)
                = 0%nat) l ->
    exists s',
      run_calls resolve (adds_then_removes l) s = (Return tt, s')
      /\ package (connection s') = package (connection s)
      /\ forall contexts step software validate,
           get_package_list resolve (connection s') contexts step software validate
           = get_package_list resolve (connection s) contexts step software validate.
Proof.
  intros resolve l s Hwf Hlen Hnew.
  destruct (adds_append resolve l s Hwf Hlen)
    as [s1 [added [Hrun1 [Hwf1 [Hext1 [Hpkg1 Hrows]]]]]].
  assert (Hbase : forall a r, In a l -> In r (package (connection s)) ->
            entry_eqb (match lookup_context (connection s1) (pad3 (arg_contexts a)) with
                       | Some c => c
                       | None => 0
                       end)
                      (arg_name a) (arg_step a) (arg_software a) r = false).
  { intros a r Ha Hr.
    rewrite Forall_forall in Hlen, Hnew.
    specialize (Hlen a Ha). specialize (Hnew a Ha).
    rewrite get_context_row_id_ok in Hnew by assumption.
    destruct (lookup_context (connection s) (pad3 (arg_contexts a))) as [c|] eqn:E0.
    - rewrite (lookup_extends_Some _ _ _ c Hext1 E0).
      specialize (Hnew c eq_refl). unfold count_entries in Hnew.
      apply length_zero_iff_nil in Hnew.
      destruct (entry_eqb c (arg_name a) (arg_step a) (arg_software a) r) eqn:Em; auto.
      exfalso.
      assert (Hin : In r (filter (entry_eqb c (arg_name a) (arg_step a) (arg_software a))
                                 (package (connection s))))
        by (apply filter_In; auto).
      rewrite Hnew in Hin. contradiction.
    - pose proof (wf_foreign_key _ Hwf) as Hfk. rewrite Forall_forall in Hfk.
      specialize (Hfk r Hr).
      destruct (lookup_context (connection s1) (pad3 (arg_contexts a))) as [c|] eqn:E1.
      + unfold entry_eqb.
        destruct (Z.eqb_spec (pkg_context_id r) c) as [Ec|Ec]; auto.
        exfalso. subst c.
        exact (lookup_extends_None _ _ _ _ Hext1 Hwf1 E0 E1 Hfk).
      + unfold entry_eqb.
        destruct (Z.eqb_spec (pkg_context_id r) 0) as [Ec|Ec]; auto.
        exfalso. pose proof (wf_context_positive _ Hwf) as Hpos.
        rewrite Forall_forall in Hpos. rewrite Ec in Hfk.
        apply in_map_iff in Hfk. destruct Hfk as [cr [Eid Hcr]].
        apply Hpos in Hcr. lia. }
  destruct (removes_delete_added resolve l added s1 (package (connection s))
              Hpkg1 Hwf1 Hrows Hlen Hbase)
    as [s2 [Hrun2 [Hpkg2 [Hctx2 Hwf2]]]].
  exists s2. split; [|split].
  - unfold adds_then_removes. rewrite run_calls_app, Hrun1. exact Hrun2.
  - exact Hpkg2.
  - intros contexts step software validate.
    apply get_package_list_extends; auto.
    destruct Hext1 as [n Hn]. exists n. rewrite Hctx2. exact Hn.
Qed.

Lemma adds_then_removes_round_trip_witness :
  exists s',
    run_calls resolver_solved
      (adds_then_removes [mk_entry_args [Some "project"] "pkgC" (Some "stepA") None;
                          mk_entry_args [] "pkgC" None None;
                          mk_entry_args [] "pkgC" None None])
      pkgA_pkgB_session
    = (Return tt, s')
    /\ package (connection s') = package (connection pkgA_pkgB_session)
    /\ forall contexts step software validate,
         get_package_list resolver_solved (connection s') contexts step software validate
         = get_package_list resolver_solved (connection pkgA_pkgB_session)
                            contexts step software validate.
Proof.
  apply (adds_then_removes_round_trip resolver_solved
           [mk_entry_args [Some "project"] "pkgC" (Some "stepA") None;
            mk_entry_args [] "pkgC" None None;
            mk_entry_args [] "pkgC" None None]
           pkgA_pkgB_session).
  - concrete_wf.
  - repeat constructor.
  - repeat constructor; intros cid H; vm_compute in H; try discriminate H;
      injection H as <-; reflexivity.
Defined.

(** * Further properties of the library *)

(** ** [sanitize_context] *)

(** X1. [sanitize_context] returns exactly when it is given at most three
    levels, and raises [ValueError] otherwise.  What it returns has
    three positions, begins with the levels given, holds [None] at
    every other position, and is left as it is by a second call. *)
Theorem sanitize_context_normal_form :
  forall contexts,
    match sanitize_context contexts with
    | Return production_context =>
        (length contexts <= 3)%nat
        /\ length production_context = 3%nat
        /\ firstn (length contexts) production_context = contexts
        /\ (forall i, (length contexts <= i)%nat -> nth i production_context None = None)
        /\ sanitize_context production_context = Return production_context
    | Raise e =>
        (3 < length contexts)%nat
        /\ e = ValueError "A context can only 0 to 3 production environments."
    end.
Proof.
  intro contexts. destruct (Nat.le_gt_cases (length contexts) 3) as [H|H].
  - rewrite sanitize_context_ok by assumption.
    assert (Hlen : length (pad3 contexts) = 3%nat)
      by (unfold pad3; rewrite length_app, repeat_length; lia).
    split; [assumption|]. split; [assumption|]. split; [|split].
    + unfold pad3. rewrite firstn_app, Nat.sub_diag, firstn_all. simpl.
      apply app_nil_r.
    + intros i Hi. unfold pad3. rewrite app_nth2 by lia.
      apply nth_repeat.
    + rewrite sanitize_context_ok by lia. unfold pad3 at 1. rewrite Hlen. simpl.
      rewrite app_nil_r. reflexivity.
  - rewrite sanitize_context_too_long by assumption. auto.
Qed.

(** ** [get_context_row_id] *)

Lemma first_match_is_least : forall {R : Type} (f : R -> Z) (p : R -> bool) l r0 rest,
  StronglySorted Z.lt (map f l) ->
  filter p l = r0 :: rest ->
  In r0 l /\ p r0 = true /\ forall r, In r l -> p r = true -> f r0 <= f r.
Proof.
  intros R f p l. induction l as [|a l IH]; intros r0 rest Hs Hf; [discriminate|].
  simpl in Hs. inversion Hs as [|x m Hs' Hall]; subst. simpl in Hf.
  destruct (p a) eqn:Ea.
  - injection Hf as <- _. split; [left; reflexivity|]. split; [assumption|].
    intros r [<- | Hr] _; [lia|].
    rewrite Forall_forall in Hall. specialize (Hall (f r) (in_map f l r Hr)). lia.
  - destruct (IH r0 rest Hs' Hf) as [Hin [Hp Hmin]].
    split; [right; assumption|]. split; [assumption|].
    intros r [<- | Hr] Hpr; [congruence|]. apply Hmin; assumption.
Qed.

(** X2. On a well-formed store and for at most three levels,
    [get_context_row_id] gives the same answer on the levels and on
    their padded form; it returns [None] exactly when no context row
    has the triple, a null level being equal to a [NULL] column only;
    and when it returns an id, that id is the least [context_id] among
    the rows that have the triple. *)
Theorem get_context_row_id_least_match :
  forall db contexts,
    (length contexts <= 3)%nat ->
    wf_database db ->
    get_context_row_id db (pad3 contexts) = get_context_row_id db contexts
    /\ (get_context_row_id db contexts = Return None <->
        forall r, In r (context db) -> triple_of r <> triple_of_levels contexts)
    /\ (forall cid,
          get_context_row_id db contexts = Return (Some cid) <->
          (exists r, In r (context db) /\ ctx_context_id r = cid
                     /\ triple_of r = triple_of_levels contexts)
          /\ (forall r, In r (context db) -> triple_of r = triple_of_levels contexts ->
                        cid <= ctx_context_id r)).
Proof.
  intros db contexts Hlen Hwf.
  assert (Hpad : pad3 (pad3 contexts) = pad3 contexts).
  { unfold pad3 at 1. replace (length (pad3 contexts)) with 3%nat.
    - simpl. apply app_nil_r.
    - unfold pad3. rewrite length_app, repeat_length. lia. }
  assert (Hlen3 : (length (pad3 contexts) <= 3)%nat).
  { unfold pad3. rewrite length_app, repeat_length. lia. }
  split; [|split].
  - rewrite !get_context_row_id_ok by assumption. rewrite Hpad. reflexivity.
  - rewrite get_context_row_id_ok by assumption. split.
    + intro H. injection H as H. apply lookup_context_None. assumption.
    + intro H. f_equal. apply lookup_context_None. assumption.
  - intro cid. rewrite get_context_row_id_ok by assumption.
    unfold lookup_context, triple_of_levels.
    destruct (filter (context_matches (pad3 contexts)) (context db)) as [|r0 rest] eqn:E.
    + simpl. split; [discriminate|]. intros [[r [Hr [_ Ht]]] _]. exfalso.
      apply context_matches_triple in Ht.
      assert (Hin : In r (filter (context_matches (pad3 contexts)) (context db)))
        by (apply filter_In; auto).
      rewrite E in Hin. contradiction.
    + destruct (first_match_is_least ctx_context_id _ _ _ _ (wf_context_sorted db Hwf) E)
        as [Hin [Hp Hmin]].
      simpl. split.
      * intro H. injection H as <-. split.
        -- exists r0. split; [assumption|]. split; [reflexivity|].
           apply context_matches_triple. assumption.
        -- intros r Hr Ht. apply Hmin; auto. apply context_matches_triple. assumption.
      * intros [[r [Hr [Hid Ht]]] Hleast]. do 2 f_equal.
        apply context_matches_triple in Ht.
        specialize (Hmin r Hr Ht).
        specialize (Hleast r0 Hin (proj1 (context_matches_triple _ _) Hp)). lia.
Qed.

Lemma get_context_row_id_least_match_witness :
  get_context_row_id (connection override_session) (pad3 [Some "project"])
  = get_context_row_id (connection override_session) [Some "project"].
Proof.
  refine (proj1 (get_context_row_id_least_match (connection override_session)
                   [Some "project"] _ _)).
  - simpl. lia.
  - concrete_wf.
Defined.

(** ** [insert_context] *)

(** X3. [insert_context] with more than three levels raises [ValueError]
    and leaves the session as it was.  With at most three levels it
    returns an id that is larger than every [context_id] of the table,
    appends one row that holds this id and the padded levels, and
    changes neither the package table, nor the history table, nor the
    edit buffer; it does so whether or not a row with the same triple
    exists. *)
Theorem insert_context_appends_fresh_row :
  forall contexts s,
    if (length contexts <=? 3)%nat
    then
      exists id s',
        insert_context contexts s = (Return id, s')
        /\ (forall r, In r (context (connection s)) -> ctx_context_id r < id)
        /\ context (connection s')
           = context (connection s)
             ++ [mk_context_row id (nth 0 (pad3 contexts) None)
                                (nth 1 (pad3 contexts) None)
                                (nth 2 (pad3 contexts) None)]
        /\ package (connection s') = package (connection s)
        /\ history (connection s') = history (connection s)
        /\ edits s' = edits s
        /\ load_production s' = load_production s
    else
      insert_context contexts s
      = (Raise (ValueError "A context can only 0 to 3 production environments."), s).
Proof.
  intros contexts s. destruct (Nat.leb_spec (length contexts) 3) as [H|H].
  - rewrite insert_context_ok by assumption. eexists. eexists.
    split; [reflexivity|]. unfold sql_insert_context.
    cbn [fst snd after_write connection context package history edits load_production].
    split; [|repeat split].
    intros r Hr. pose proof (max_list_ge _ _ (in_map ctx_context_id _ _ Hr)). lia.
  - unfold insert_context, bind, lift. rewrite sanitize_context_too_long by assumption.
    reflexivity.
Qed.

(** X4. After [insert_context] with at most three levels,
    [get_context_row_id] on the same levels returns the id it returned
    before when it had found a row, and the new id when it had found
    none: a row inserted for a triple that was there already is never
    the one that is found. *)
Theorem insert_context_then_lookup :
  forall contexts s,
    (length contexts <= 3)%nat ->
    get_context_row_id (connection (snd (insert_context contexts s))) contexts
    = match get_context_row_id (connection s) contexts with
      | Return (Some cid) => Return (Some cid)
      | _ => match fst (insert_context contexts s) with
             | Return id => Return (Some id)
             | Raise e => Raise e
             end
      end.
Proof.
  intros contexts s Hlen.
  rewrite insert_context_ok by assumption.
  rewrite !get_context_row_id_ok by assumption.
  cbn [fst snd after_write connection].
  unfold sql_insert_context. cbn [fst snd].
  unfold lookup_context. cbn [context]. rewrite filter_app, map_app.
  destruct (map ctx_context_id (filter (context_matches (pad3 contexts))
                                       (context (connection s)))) as [|c0 l0];
    [|reflexivity].
  cbn [app filter].
  assert (Hm : context_matches (pad3 contexts)
                 (mk_context_row
                    (1 + Z.max (context_seq (connection s))
                               (max_list (map ctx_context_id (context (connection s)))))
                    (nth 0 (pad3 contexts) None) (nth 1 (pad3 contexts) None)
                    (nth 2 (pad3 contexts) None)) = true)
    by (apply context_matches_triple; reflexivity).
  rewrite Hm. reflexivity.
Qed.

Lemma insert_context_then_lookup_witness :
  get_context_row_id (connection (snd (insert_context [] initialized_session))) []
  = Return (Some 1)
  /\ get_context_row_id
       (connection (snd (insert_context [Some "project"] initialized_session)))
       [Some "project"]
     = Return (Some 2).
Proof.
  split.
  - rewrite (insert_context_then_lookup [] initialized_session); [reflexivity|].
    simpl. lia.
  - rewrite (insert_context_then_lookup [Some "project"] initialized_session);
      [reflexivity|].
    simpl. lia.
Defined.

(** ** [add_package]: what a call that returns has done *)

Section AddPackage.

Variable resolve : list string -> outcome ResolverStatus.

(** X5. On a well-formed store an unvalidated [add_package] with at
    most three levels returns the rowid of the row it appended, which is
    larger than every rowid of the table; the row holds the id that
    [get_context_row_id] now returns for the levels; the context table
    is unchanged when the context existed and has one row more, for
    these levels, when it did not; the history table is unchanged; and
    a further [add_package] on the same levels creates no context row. *)
Theorem add_package_appends_row :
  forall contexts package_name step software s,
    (length contexts <= 3)%nat ->
    wf_database (connection s) ->
    exists rid cid s',
      add_package resolve contexts package_name step software false s = (Return rid, s')
      /\ package (connection s')
         = package (connection s) ++ [mk_package_row rid cid package_name step software]
      /\ (forall r, In r (package (connection s)) -> pkg_rowid r < rid)
      /\ get_context_row_id (connection s') contexts = Return (Some cid)
      /\ context (connection s')
         = (match get_context_row_id (connection s) contexts with
            | Return (Some _) => context (connection s)
            | _ => context (connection s)
                   ++ [mk_context_row cid (nth 0 (pad3 contexts) None)
                                      (nth 1 (pad3 contexts) None)
                                      (nth 2 (pad3 contexts) None)]
            end)
      /\ history (connection s') = history (connection s)
      /\ (forall package_name' step' software',
            context (connection (snd (add_package resolve contexts package_name' step'
                                                  software' false s')))
            = context (connection s')).
Proof.
  intros contexts package_name step software s Hlen Hwf.
  destruct (ensure_context_facts (connection s) contexts Hlen Hwf)
    as [Hwf1 [Hext1 [Hpkg1 Hlook1]]].
  rewrite add_package_unvalidated by assumption.
  eexists. eexists. eexists. split; [reflexivity|].
  unfold sql_insert_package at 1 2 3. cbn [fst snd connection package context history].
  split; [rewrite Hpkg1; reflexivity|]. split; [|split; [|split; [|split]]].
  - intros r Hr. rewrite Hpkg1.
    pose proof (max_list_ge _ _ (in_map pkg_rowid _ _ Hr)). lia.
  - rewrite get_context_row_id_ok by assumption. f_equal. exact Hlook1.
  - rewrite get_context_row_id_ok by assumption. unfold ensure_context.
    destruct (lookup_context (connection s) (pad3 contexts)) as [c|] eqn:E.
    + rewrite (lookup_context_truthy _ _ _ Hwf E). reflexivity.
    + reflexivity.
  - unfold ensure_context.
    destruct (negb (truthy_int (lookup_context (connection s) (pad3 contexts))));
      reflexivity.
  - intros package_name' step' software'.
    rewrite add_package_unvalidated by assumption.
    cbn [snd connection]. unfold sql_insert_package at 1. cbn [snd context].
    unfold ensure_context at 1.
    set (db1 := snd (sql_insert_package _ _ package_name step software)).
    assert (Hl : lookup_context db1 (pad3 contexts)
                 = Some (fst (ensure_context (connection s) contexts))).
    { rewrite <- Hlook1. apply lookup_context_same. reflexivity. }
    assert (Hwf' : wf_database db1).
    { subst db1. apply wf_sql_insert_package; auto. eapply lookup_context_In; eassumption. }
    rewrite Hl. rewrite (lookup_context_truthy _ _ _ Hwf' Hl). reflexivity.
Qed.

End AddPackage.

Lemma add_package_appends_row_witness :
  exists rid cid s',
    add_package resolver_solved [Some "project"] "pkgB" None None false initialized_session
    = (Return rid, s')
    /\ package (connection s')
       = package (connection initialized_session)
         ++ [mk_package_row rid cid "pkgB" None None].
Proof.
  destruct (add_package_appends_row resolver_solved [Some "project"] "pkgB" None None
              initialized_session)
    as [rid [cid [s' [H1 [H2 _]]]]].
  - simpl. lia.
  - concrete_wf.
  - exists rid, cid, s'. split; assumption.
Defined.

(** ** [get_package_list]: which names, in which order *)

Section FirstOccurrencesApp.

Context {A : Type} (eqb : A -> A -> bool).
Hypothesis eqb_spec : forall x y, eqb x y = true <-> x = y.

Lemma first_occurrences_app : forall a b,
  first_occurrences eqb (a ++ b)
  = first_occurrences eqb a
    ++ filter (fun y => negb (existsb (eqb y) a)) (first_occurrences eqb b).
Proof.
  intros a b. induction a as [|x a IH]; cbn [app first_occurrences existsb].
  - symmetry. apply forallb_filter_id. apply forallb_forall. reflexivity.
  - rewrite IH, filter_app. cbn [app]. do 2 f_equal.
    rewrite filter_filter. apply filter_ext. intro y.
    rewrite negb_orb, (eqb_sym' eqb eqb_spec y x). reflexivity.
Qed.

Lemma first_occurrences_absorb : forall a b,
  (forall y, In y b -> In y a) ->
  first_occurrences eqb (a ++ b) = first_occurrences eqb a.
Proof.
  intros a b H. rewrite first_occurrences_app.
  rewrite filter_none; [apply app_nil_r|].
  intros y Hy. apply (proj1 (first_occurrences_In eqb eqb_spec _ _)) in Hy. apply H in Hy.
  apply (proj2 (existsb_eqb_In eqb eqb_spec _ _)) in Hy. rewrite Hy. reflexivity.
Qed.

End FirstOccurrencesApp.

Lemma lookup_steps_exact : forall step software,
  step <> Some "" -> software <> Some "" ->
  In (step, software) (lookup_steps step software).
Proof.
  intros [st|] [sw|] Hs Hw; unfold lookup_steps; simpl.
  - destruct (String.eqb_spec st ""); [subst; contradiction|].
    destruct (String.eqb_spec sw ""); [subst; contradiction|].
    simpl. auto.
  - destruct (String.eqb_spec st ""); [subst; contradiction|]. simpl. auto.
  - destruct (String.eqb_spec sw ""); [subst; contradiction|]. simpl. auto.
  - auto.
Qed.

Lemma chain_lookups_prefixes : forall db contexts,
  (length contexts <= 3)%nat ->
  chain_lookups db (pad3 contexts)
  = map (fun k => lookup_context db (pad3 (firstn k (pad3 contexts)))) [0; 1; 2; 3]%nat.
Proof.
  intros db contexts H.
  destruct contexts as [|a [|b [|c [|d t]]]]; simpl in H; try lia; reflexivity.
Qed.

Lemma In_truthy_ids : forall cid ids,
  In cid (truthy_ids ids) <-> In (Some cid) ids /\ cid <> 0.
Proof.
  intros cid ids. unfold truthy_ids. rewrite in_flat_map. split.
  - intros [[z|] [Hin H]]; simpl in H.
    + destruct (Z.eqb_spec z 0); simpl in H; [contradiction|].
      destruct H as [<- | []]. auto.
    + contradiction.
  - intros [Hin Hnz]. exists (Some cid). split; auto. simpl.
    destruct (Z.eqb_spec cid 0); [contradiction|]. simpl. auto.
Qed.

Section PackageList.

Variable resolve : list string -> outcome ResolverStatus.

Lemma get_package_list_returned : forall db contexts step software validate l,
  get_package_list resolve db contexts step software validate = Return l ->
  (length contexts <= 3)%nat
  /\ l = first_occurrences String.eqb
           (stacked db (first_occurrences Z.eqb
                          (truthy_ids (chain_lookups db (pad3 contexts))))
                    step software).
Proof.
  intros db contexts step software validate l H.
  destruct (Nat.le_gt_cases (length contexts) 3) as [Hl|Hl].
  - split; auto. rewrite get_package_list_stages in H by assumption.
    unfold validated in H.
    rewrite (dict_fromkeys_first_occurrences String.eqb String_eqb_spec) in H.
    destruct validate.
    + unfold obind in H. destruct (validate_context resolve _) as [[ok m]|e];
        [|discriminate]. destruct ok; cbn [fst negb] in H; [|discriminate].
      injection H as <-. reflexivity.
    + injection H as <-. reflexivity.
  - rewrite get_package_list_too_long in H by assumption. discriminate.
Qed.

(** Which names the stacked list holds. *)
Lemma listed_iff : forall db contexts step software name,
  (length contexts <= 3)%nat ->
  In name (first_occurrences String.eqb
             (stacked db (first_occurrences Z.eqb
                            (truthy_ids (chain_lookups db (pad3 contexts))))
                      step software)) <->
  exists r k cid g,
    In r (package db) /\ pkg_name r = name
    /\ (k <= 3)%nat
    /\ get_context_row_id db (firstn k (pad3 contexts)) = Return (Some cid)
    /\ cid <> 0 /\ pkg_context_id r = cid
    /\ In g (lookup_steps step software)
    /\ pkg_step r = fst g /\ pkg_software r = snd g.
Proof.
  intros db contexts step software name Hlen.
  rewrite (first_occurrences_In String.eqb String_eqb_spec).
  unfold stacked. rewrite in_flat_map.
  assert (Hk : forall k, (length (firstn k (pad3 contexts)) <= 3)%nat).
  { intro k. rewrite length_firstn. unfold pad3. rewrite length_app, repeat_length. lia. }
  split.
  - intros [cid [Hcid Hname]].
    rewrite (first_occurrences_In Z.eqb Z.eqb_eq) in Hcid.
    apply In_truthy_ids in Hcid. destruct Hcid as [Hin Hnz].
    rewrite chain_lookups_prefixes in Hin by assumption.
    apply in_map_iff in Hin. destruct Hin as [k [Ek Hkin]].
    apply in_flat_map in Hname. destruct Hname as [g [Hg Hname]].
    rewrite select_names_group_names in Hname.
    apply group_names_row in Hname.
    destruct Hname as [r [Hr [En [Ec [Es Ew]]]]].
    exists r, k, cid, g. split; [assumption|]. split; [assumption|]. split.
    + simpl in Hkin. lia.
    + rewrite get_context_row_id_ok by apply Hk. rewrite Ek. auto 10.
  - intros [r [k [cid [g [Hr [En [Hk3 [Hc [Hnz [Ec [Hg [Es Ew]]]]]]]]]]]].
    rewrite get_context_row_id_ok in Hc by apply Hk. injection Hc as Hc.
    exists cid. split.
    + rewrite (first_occurrences_In Z.eqb Z.eqb_eq). apply In_truthy_ids.
      split; [|assumption].
      rewrite chain_lookups_prefixes by assumption. rewrite <- Hc.
      apply (in_map (fun k => lookup_context db (pad3 (firstn k (pad3 contexts))))).
      simpl. lia.
    + apply in_flat_map. exists g. split; [assumption|].
      unfold select_names. apply in_map_iff. exists r. split; [assumption|].
      apply filter_In. split; [assumption|].
      rewrite !sql_cond_pystr_eqb, !andb_true_iff, Z.eqb_eq, !pystr_eqb_eq. auto.
Qed.

(** X6. The list that [get_package_list] returns never repeats a name,
    and it holds exactly the names of the package rows that belong to
    the context found for the first [k] levels, for some [k] from 0 to
    3, and whose step and software are those of one of the queried
    groups. *)
Theorem get_package_list_members :
  forall db contexts step software validate l,
    get_package_list resolve db contexts step software validate = Return l ->
    NoDup l
    /\ forall name,
         In name l <->
         exists r k cid g,
           In r (package db) /\ pkg_name r = name
           /\ (k <= 3)%nat
           /\ get_context_row_id db (firstn k (pad3 contexts)) = Return (Some cid)
           /\ cid <> 0 /\ pkg_context_id r = cid
           /\ In g (lookup_steps step software)
           /\ pkg_step r = fst g /\ pkg_software r = snd g.
Proof.
  intros db contexts step software validate l H.
  apply get_package_list_returned in H. destruct H as [Hlen ->].
  split.
  - apply (first_occurrences_NoDup String.eqb String_eqb_spec).
  - intro name. apply listed_iff. assumption.
Qed.

End PackageList.

Lemma get_package_list_members_witness :
  NoDup ["pkgA"; "pkgB"; "pkgC"; "pkgD"].
Proof.
  refine (proj1 (get_package_list_members resolver_solved (connection override_session)
                   [Some "project"; Some "category"; Some "entity"] None None true
                   ["pkgA"; "pkgB"; "pkgC"; "pkgD"] _)).
  reflexivity.
Defined.

Section Listing.

Variable resolve : list string -> outcome ResolverStatus.

(** A row stored at the context of the levels, under the step and the
    software asked for, is listed, unless an axis is the empty string. *)
Lemma stored_row_is_listed : forall db contexts step software r cid,
  (length contexts <= 3)%nat ->
  wf_database db ->
  get_context_row_id db contexts = Return (Some cid) ->
  In r (package db) ->
  pkg_context_id r = cid -> pkg_step r = step -> pkg_software r = software ->
  step <> Some "" -> software <> Some "" ->
  exists l, get_package_list resolve db contexts step software false = Return l
            /\ In (pkg_name r) l.
Proof.
  intros db contexts step software r cid Hlen Hwf Hc Hr Ecid Es Ew Hs Hw.
  rewrite get_package_list_stages by assumption. unfold validated.
  rewrite (dict_fromkeys_first_occurrences String.eqb String_eqb_spec).
  eexists. split; [reflexivity|].
  apply listed_iff; [assumption|].
  exists r, 3%nat, cid, (step, software).
  rewrite firstn_all2 by (unfold pad3; rewrite length_app, repeat_length; lia).
  rewrite get_context_row_id_ok in Hc by assumption. injection Hc as Hc.
  assert (Hpad : get_context_row_id db (pad3 contexts) = Return (Some cid)).
  { rewrite get_context_row_id_ok
      by (unfold pad3; rewrite length_app, repeat_length; lia).
    rewrite <- Hc. f_equal. f_equal. unfold pad3 at 1.
    replace (length (pad3 contexts)) with 3%nat
      by (unfold pad3; rewrite length_app, repeat_length; lia).
    simpl. apply app_nil_r. }
  pose proof (wf_context_id_nonzero _ _ _ Hwf Hc) as Hnz. apply Z.eqb_neq in Hnz.
  pose proof (lookup_steps_exact step software Hs Hw). auto 12.
Qed.

(** X7. On a well-formed store, when neither the step nor the software
    is the empty string, the name given to an unvalidated [add_package]
    with at most three levels is in the list that [get_package_list]
    then returns for the same levels, step and software. *)
Theorem add_package_then_listed :
  forall contexts package_name step software s,
    (length contexts <= 3)%nat ->
    wf_database (connection s) ->
    step <> Some "" -> software <> Some "" ->
    exists l,
      get_package_list resolve
        (connection (snd (add_package resolve contexts package_name step software false s)))
        contexts step software false
      = Return l
      /\ In package_name l.
Proof.
  intros contexts package_name step software s Hlen Hwf Hs Hw.
  destruct (ensure_context_facts (connection s) contexts Hlen Hwf)
    as [Hwf1 [_ [_ Hlook1]]].
  pose proof (wf_add_package resolve contexts package_name step software false s Hwf)
    as Hwf'.
  rewrite add_package_unvalidated in * by assumption. cbn [snd connection] in *.
  set (db1 := snd (ensure_context (connection s) contexts)) in *.
  set (cid := fst (ensure_context (connection s) contexts)) in *.
  apply (stored_row_is_listed _ contexts step software
           (mk_package_row (1 + max_list (map pkg_rowid (package db1))) cid
                           package_name step software) cid); auto.
  - rewrite get_context_row_id_ok by assumption. f_equal. rewrite <- Hlook1.
    apply lookup_context_same. reflexivity.
  - unfold sql_insert_package. cbn [snd package]. rewrite in_app_iff.
    right. left. reflexivity.
Qed.

(** X8. With validation off, the list for the first levels is a prefix
    of the list for one level more: going from studio to project, from
    project to category, from category to entity only appends names. *)
Theorem broader_scope_is_prefix :
  forall db contexts level step software,
    (length contexts < 3)%nat ->
    exists l more,
      get_package_list resolve db contexts step software false = Return l
      /\ get_package_list resolve db (contexts ++ [level]) step software false
         = Return (l ++ more).
Proof.
  intros db contexts level step software Hlen.
  rewrite !get_package_list_stages by (rewrite ?length_app; simpl; lia).
  unfold validated. rewrite !(dict_fromkeys_first_occurrences String.eqb String_eqb_spec).
  assert (Hids : exists extra,
             first_occurrences Z.eqb
               (truthy_ids (chain_lookups db (pad3 (contexts ++ [level]))))
             = first_occurrences Z.eqb (truthy_ids (chain_lookups db (pad3 contexts)))
               ++ extra).
  { assert (Habsorb : forall common again more,
              (forall v, In v again -> In v common) ->
              exists extra,
                first_occurrences Z.eqb (truthy_ids (common ++ more))
                = first_occurrences Z.eqb (truthy_ids (common ++ again)) ++ extra).
    { intros common again more Hin. unfold truthy_ids. rewrite !flat_map_app.
      fold (truthy_ids common). fold (truthy_ids again). fold (truthy_ids more).
      rewrite (first_occurrences_absorb Z.eqb Z.eqb_eq (truthy_ids common)
                 (truthy_ids again)).
      - rewrite (first_occurrences_app Z.eqb Z.eqb_eq). eexists. reflexivity.
      - intros y Hy. apply In_truthy_ids in Hy. apply In_truthy_ids.
        destruct Hy as [Hy Hnz]. auto. }
    destruct contexts as [|a [|b [|c t]]]; simpl in Hlen; try lia.
    - apply (Habsorb [lookup_context db [None; None; None]]
                     [lookup_context db [None; None; None];
                      lookup_context db [None; None; None];
                      lookup_context db [None; None; None]]
                     [lookup_context db [level; None; None];
                      lookup_context db [level; None; None];
                      lookup_context db [level; None; None]]).
      intros v Hv. simpl in *. tauto.
    - apply (Habsorb [lookup_context db [None; None; None];
                      lookup_context db [a; None; None]]
                     [lookup_context db [a; None; None];
                      lookup_context db [a; None; None]]
                     [lookup_context db [a; level; None];
                      lookup_context db [a; level; None]]).
      intros v Hv. simpl in *. tauto.
    - apply (Habsorb [lookup_context db [None; None; None];
                      lookup_context db [a; None; None];
                      lookup_context db [a; b; None]]
                     [lookup_context db [a; b; None]]
                     [lookup_context db [a; b; level]]).
      intros v Hv. simpl in *. tauto. }
  destruct Hids as [extra ->].
  unfold stacked. rewrite flat_map_app.
  rewrite (first_occurrences_app String.eqb String_eqb_spec).
  eexists. eexists. split; reflexivity.
Qed.

Lemma lookup_steps_incl : forall step software step' software',
  (step' = None \/ step' = step) -> (software' = None \/ software' = software) ->
  incl (lookup_steps step' software') (lookup_steps step software).
Proof.
  intros step software step' software' Hs Hw g.
  unfold lookup_steps.
  destruct Hs as [-> | ->], Hw as [-> | ->];
    destruct (truthy_str step), (truthy_str software); simpl; tauto.
Qed.

(** X9. Asking for a step or a software never hides a name: the names
    listed with an axis left out are all listed when the axis is given,
    the levels being the same. *)
Theorem narrowing_keeps_names :
  forall db contexts step software step' software' l l',
    (step' = None \/ step' = step) ->
    (software' = None \/ software' = software) ->
    get_package_list resolve db contexts step' software' false = Return l' ->
    get_package_list resolve db contexts step software false = Return l ->
    incl l' l.
Proof.
  intros db contexts step software step' software' l l' Hs Hw H' H name Hname.
  apply get_package_list_returned in H'. destruct H' as [Hlen ->].
  apply get_package_list_returned in H. destruct H as [_ ->].
  apply (proj1 (listed_iff db contexts step' software' name Hlen)) in Hname.
  apply listed_iff; [assumption|].
  destruct Hname as [r [k [cid [g [Hr [En [Hk [Hc [Hnz [Ec [Hg [Es Ew]]]]]]]]]]]].
  exists r, k, cid, g. pose proof (lookup_steps_incl step software step' software' Hs Hw g Hg).
  auto 12.
Qed.

(** X10. With validation on, [get_package_list] returns what it returns
    with validation off, or raises; it raises [ValueError] with the
    diagnostic in its message when the gateway rejects the names of all
    the groups, repetitions included, stacked in query order. *)
Theorem get_package_list_validation :
  forall db contexts step software message,
    (length contexts <= 3)%nat ->
    (forall l, get_package_list resolve db contexts step software true = Return l ->
               get_package_list resolve db contexts step software false = Return l)
    /\ (validate_context resolve
          (stacked db (first_occurrences Z.eqb
                         (truthy_ids (chain_lookups db (pad3 contexts))))
                   step software)
        = Return (false, message) ->
        get_package_list resolve db contexts step software true
        = Raise (ValueError (String.append "Package list can't be validated: "
                                           (message_str message)))).
Proof.
  intros db contexts step software message Hlen. split.
  - intros l H. apply get_package_list_returned in H. destruct H as [_ ->].
    rewrite get_package_list_stages by assumption. unfold validated.
    rewrite (dict_fromkeys_first_occurrences String.eqb String_eqb_spec). reflexivity.
  - intro H. rewrite get_package_list_stages by assumption. unfold validated, obind.
    rewrite H. reflexivity.
Qed.

End Listing.

Lemma add_package_then_listed_witness :
  exists l,
    get_package_list resolver_solved
      (connection (snd (add_package resolver_solved [Some "project"] "pkgB" (Some "stepA")
                                    None false initialized_session)))
      [Some "project"] (Some "stepA") None false
    = Return l
    /\ In "pkgB" l.
Proof.
  apply (add_package_then_listed resolver_solved [Some "project"] "pkgB" (Some "stepA") None
           initialized_session).
  - simpl. lia.
  - concrete_wf.
  - discriminate.
  - discriminate.
Defined.

Lemma broader_scope_is_prefix_witness :
  exists l more,
    get_package_list resolver_solved (connection override_session) [Some "project"]
                     None None false
    = Return l
    /\ get_package_list resolver_solved (connection override_session)
                        ([Some "project"] ++ [Some "category"]) None None false
       = Return (l ++ more).
Proof.
  apply (broader_scope_is_prefix resolver_solved (connection override_session)
           [Some "project"] (Some "category") None None).
  simpl. lia.
Defined.

Lemma narrowing_keeps_names_witness : incl ["pkgA"] ["pkgA"; "pkgE"].
Proof.
  apply (narrowing_keeps_names resolver_solved (connection override_session) []
           (Some "stepA") None None None ["pkgA"; "pkgE"] ["pkgA"]).
  - left. reflexivity.
  - left. reflexivity.
  - reflexivity.
  - reflexivity.
Defined.

Lemma get_package_list_validation_witness :
  get_package_list resolver_rejecting (connection override_session) [] None None true
  = Raise (ValueError "Package list can't be validated: Mocked message").
Proof.
  refine (proj2 (get_package_list_validation resolver_rejecting (connection override_session)
                   [] None None (Some (RezError "Mocked message")) _) _).
  - simpl. lia.
  - reflexivity.
Defined.

(** ** [remove_package]: validation, and which row goes *)

Lemma list_remove_spec : forall x l,
  (In x l -> exists r, list_remove x l = Return r /\ length l = S (length r)
                       /\ (NoDup l -> ~ In x r)
                       /\ (forall y, y <> x -> (In y r <-> In y l)))
  /\ (~ In x l -> list_remove x l = Raise (ValueError "list.remove(x): x not in list")).
Proof.
  intros x l. induction l as [|a l [IH1 IH2]]; simpl.
  - split; [contradiction | reflexivity].
  - destruct (String.eqb_spec a x) as [->|Hne].
    + split; [|tauto]. intros _. exists l. split; [reflexivity|]. split; [reflexivity|].
      split.
      * intro Hnd. inversion Hnd. assumption.
      * intros y Hy. simpl. split; [tauto|]. intros [H|H]; congruence.
    + split.
      * intros [H|H]; [contradiction|].
        destruct (IH1 H) as [r [E [Hlen [Hnd Hin]]]]. rewrite E. simpl.
        exists (a :: r). split; [reflexivity|]. split; [simpl; lia|]. split.
        -- intros Hn. inversion Hn as [|? ? ? Hn']; subst. simpl.
           intros [H1|H1]; [contradiction|]. exact (Hnd Hn' H1).
        -- intros y Hy. simpl. rewrite (Hin y Hy). reflexivity.
      * intro H. rewrite IH2 by tauto. reflexivity.
Qed.

Section RemoveValidation.

Variable resolve : list string -> outcome ResolverStatus.

(** X11. When the unvalidated [remove_package] would return and the
    list of the same levels, step and software is [all_packages]: the
    validated call raises [ValueError] and changes nothing when the
    name is not in that list; otherwise the gateway is given the list
    without the name, in which the name no longer occurs, and the call
    raises what [raise message] raises and changes nothing when the
    gateway answers [(False, message)], and does what the unvalidated
    call does when the gateway accepts. *)
Theorem remove_package_validation :
  forall contexts package_name step software s s1 all_packages,
    remove_package resolve contexts package_name step software false s = (Return tt, s1) ->
    get_package_list resolve (connection s) contexts step software false
    = Return all_packages ->
    (~ In package_name all_packages ->
     remove_package resolve contexts package_name step software true s
     = (Raise (ValueError "list.remove(x): x not in list"), s))
    /\ (In package_name all_packages ->
        exists remaining,
          list_remove package_name all_packages = Return remaining
          /\ ~ In package_name remaining
          /\ (forall name, name <> package_name ->
                           (In name remaining <-> In name all_packages))
          /\ forall ok message,
               validate_context resolve remaining = Return (ok, message) ->
               remove_package resolve contexts package_name step software true s
               = if ok then (Return tt, s1) else (Raise (py_raise message), s)).
Proof.
  intros contexts package_name step software s s1 all_packages Hrun Hlist.
  destruct (list_remove_spec package_name all_packages) as [Hin Hnot].
  split.
  - intro H. rewrite remove_package_validated, Hrun. unfold remove_validation, obind.
    rewrite Hlist, (Hnot H). reflexivity.
  - intro H. destruct (Hin H) as [remaining [E [_ [Hnd Hmem]]]].
    exists remaining. split; [assumption|]. split.
    + apply Hnd. apply get_package_list_returned in Hlist. destruct Hlist as [_ ->].
      apply (first_occurrences_NoDup String.eqb String_eqb_spec).
    + split; [assumption|].
      intros ok message Hv. rewrite remove_package_validated, Hrun.
      unfold remove_validation, obind. rewrite Hlist, E, Hv. destruct ok; reflexivity.
Qed.

End RemoveValidation.

Lemma remove_package_validation_witness :
  remove_package resolver_solved [] "pkgE" (Some "") None true empty_step_session
  = (Raise (ValueError "list.remove(x): x not in list"), empty_step_session).
Proof.
  refine (proj1 (remove_package_validation resolver_solved [] "pkgE" (Some "") None
                   empty_step_session
                   (snd (remove_package resolver_solved [] "pkgE" (Some "") None false
                                        empty_step_session))
                   [] _ _) _).
  - reflexivity.
  - reflexivity.
  - intros [].
Defined.

Lemma delete_first_match : forall (p : package_row -> bool) l r0 rest,
  NoDup (map pkg_rowid l) ->
  filter p l = r0 :: rest ->
  filter (fun r => negb (pkg_rowid r =? pkg_rowid r0)) l = remove_first_match p l.
Proof.
  intros p l. induction l as [|a l IH]; intros r0 rest Hnd Hf; [discriminate|].
  simpl in Hnd. inversion Hnd as [|x m Hnot Hnd']; subst. simpl in Hf. simpl.
  destruct (p a) eqn:Ea.
  - injection Hf as <- _. rewrite Z.eqb_refl. simpl.
    clear IH Hnd. induction l as [|b l IHl]; simpl; auto.
    inversion Hnd' as [|y m Hnb Hnd'']; subst.
    destruct (Z.eqb_spec (pkg_rowid b) (pkg_rowid a)) as [E|E].
    + exfalso. apply Hnot. left. assumption.
    + simpl. f_equal. apply IHl; auto. intro H. apply Hnot. right. assumption.
  - assert (Hin : In r0 l).
    { assert (H : In r0 (filter p l)) by (rewrite Hf; left; reflexivity).
      apply filter_In in H. tauto. }
    destruct (Z.eqb_spec (pkg_rowid a) (pkg_rowid r0)) as [E|E].
    + exfalso. apply Hnot. rewrite E. apply in_map. assumption.
    + simpl. f_equal. eapply IH; eassumption.
Qed.

(** X12. On a well-formed store, an unvalidated [remove_package] on an
    existing context, when at least one package row has the tuple,
    leaves the package table without the first such row in scan order,
    which is the one of least rowid, every other row staying in place;
    it appends one [UNINSTALL] record and leaves the context and
    history tables unchanged. *)
Theorem remove_package_deletes_first_match :
  forall resolve contexts package_name step software s cid,
    (length contexts <= 3)%nat ->
    wf_database (connection s) ->
    get_context_row_id (connection s) contexts = Return (Some cid) ->
    (1 <= count_entries (connection s) cid package_name step software)%nat ->
    exists s',
      remove_package resolve contexts package_name step software false s = (Return tt, s')
      /\ package (connection s')
         = remove_first_match (entry_eqb cid package_name step software)
                              (package (connection s))
      /\ (exists r0,
            In r0 (package (connection s))
            /\ ~ In r0 (package (connection s'))
            /\ entry_of r0 = (cid, package_name, step, software)
            /\ forall r, In r (package (connection s)) ->
                         entry_of r = (cid, package_name, step, software) ->
                         pkg_rowid r0 <= pkg_rowid r)
      /\ context (connection s') = context (connection s)
      /\ history (connection s') = history (connection s)
      /\ edits s' = edits s ++ [mk_HistoryEdit contexts package_name step software
                                               UNINSTALL].
Proof.
  intros resolve contexts package_name step software s cid Hlen Hwf Hcid Hk.
  rewrite get_context_row_id_ok in Hcid by assumption. injection Hcid as Hcid.
  rewrite remove_package_unvalidated by assumption.
  rewrite Hcid, (wf_context_id_nonzero _ _ _ Hwf Hcid).
  unfold first_package_rowid. rewrite select_rowids_entries.
  unfold count_entries in Hk.
  destruct (filter (entry_eqb cid package_name step software) (package (connection s)))
    as [|r0 rest] eqn:E; [simpl in Hk; lia|].
  destruct (first_match_is_least pkg_rowid _ _ _ _ (wf_package_sorted _ Hwf) E)
    as [Hin [Hp Hmin]].
  cbn [map first_or_none]. rewrite (wf_rowid_positive _ _ Hwf Hin).
  eexists. split; [reflexivity|].
  cbn [connection sql_delete_package package context history edits].
  split; [|split; [|repeat split]].
  - apply (delete_first_match _ _ r0 rest); auto.
    apply sorted_NoDup, wf_package_sorted. assumption.
  - exists r0. split; [assumption|]. split; [|split].
    + rewrite filter_In, Z.eqb_refl. simpl. intros [_ H]. discriminate.
    + apply entry_eqb_eq. assumption.
    + intros r Hr Er. apply Hmin; auto. apply entry_eqb_eq. assumption.
Qed.

Lemma remove_package_deletes_first_match_witness :
  exists s',
    remove_package resolver_solved [] "pkgA" None None false duplicated_session
    = (Return tt, s')
    /\ package (connection s')
       = remove_first_match (entry_eqb 1 "pkgA" None None)
                            (package (connection duplicated_session)).
Proof.
  destruct (remove_package_deletes_first_match resolver_solved [] "pkgA" None None
              duplicated_session 1) as [s' [H1 [H2 _]]].
  - simpl. lia.
  - concrete_wf.
  - reflexivity.
  - vm_compute. lia.
  - exists s'. split; assumption.
Defined.

(** ** What every method keeps *)

Section Invariants.

Variable resolve : list string -> outcome ResolverStatus.
Variable getuser : string.
Variable now : nat -> Z.

Lemma kept_refl : forall s, kept s s.
Proof.
  intro s. split; [reflexivity|]. split; [auto|].
  split; exists []; rewrite app_nil_r; reflexivity.
Qed.

Lemma kept_trans : forall a b c, kept a b -> kept b c -> kept a c.
Proof.
  intros a b c [H1 [H2 [[h1 H3] [c1 H4]]]] [K1 [K2 [[h2 K3] [c2 K4]]]].
  split; [congruence|]. split; [auto|]. split.
  - exists (h1 ++ h2). rewrite K3, H3, app_assoc. reflexivity.
  - exists (c1 ++ c2). rewrite K4, H4, app_assoc. reflexivity.
Qed.

Lemma kept_insert_context : forall contexts s, kept s (snd (insert_context contexts s)).
Proof.
  intros contexts s. split; [|split; [|split]].
  - destruct (Nat.le_gt_cases (length contexts) 3) as [Hl|Hl].
    + rewrite insert_context_ok by assumption. reflexivity.
    + unfold insert_context, bind, lift.
      rewrite sanitize_context_too_long by assumption. reflexivity.
  - apply wf_insert_context.
  - exists []. rewrite app_nil_r.
    destruct (Nat.le_gt_cases (length contexts) 3) as [Hl|Hl].
    + rewrite insert_context_ok by assumption. reflexivity.
    + unfold insert_context, bind, lift.
      rewrite sanitize_context_too_long by assumption. reflexivity.
  - destruct (Nat.le_gt_cases (length contexts) 3) as [Hl|Hl].
    + rewrite insert_context_ok by assumption. eexists. reflexivity.
    + exists []. rewrite app_nil_r. unfold insert_context, bind, lift.
      rewrite sanitize_context_too_long by assumption. reflexivity.
Qed.

Lemma kept_add_package : forall contexts package_name step software validate s,
  kept s (snd (add_package resolve contexts package_name step software validate s)).
Proof.
  intros contexts package_name step software validate s.
  assert (H : kept s (snd (add_package resolve contexts package_name step software
                                       false s))).
  { destruct (Nat.le_gt_cases (length contexts) 3) as [Hl|Hl].
    - split; [|split; [|split]].
      + rewrite add_package_unvalidated by assumption. reflexivity.
      + apply wf_add_package.
      + rewrite add_package_unvalidated by assumption. cbn [snd connection].
        unfold sql_insert_package. cbn [snd history]. exists []. rewrite app_nil_r.
        unfold ensure_context.
        destruct (negb (truthy_int (lookup_context (connection s) (pad3 contexts))));
          reflexivity.
      + rewrite add_package_unvalidated by assumption. cbn [snd connection].
        unfold sql_insert_package. cbn [snd context]. unfold ensure_context.
        destruct (negb (truthy_int (lookup_context (connection s) (pad3 contexts)))).
        * eexists. reflexivity.
        * exists []. rewrite app_nil_r. reflexivity.
    - rewrite add_package_too_long by assumption. apply kept_refl. }
  destruct validate; auto.
  rewrite add_package_validated. destruct (add_validation _ _ _ _ _ _); auto.
  apply kept_refl.
Qed.

Lemma kept_remove_package : forall contexts package_name step software validate s,
  kept s (snd (remove_package resolve contexts package_name step software validate s)).
Proof.
  intros contexts package_name step software validate s.
  pose proof (remove_package_edits resolve contexts package_name step software validate s)
    as He.
  pose proof (wf_remove_package resolve contexts package_name step software validate s)
    as Hw.
  destruct (remove_package_result resolve contexts package_name step software validate s)
    as [E | [rid E]].
  - rewrite E. apply kept_refl.
  - destruct (remove_package resolve contexts package_name step software validate s)
      as [[u|e] s'].
    + cbn [snd] in *. split; [tauto|]. split; [assumption|].
      rewrite E. split; exists []; rewrite app_nil_r; reflexivity.
    + cbn [snd] in *. subst s'. apply kept_refl.
Qed.

Lemma kept_save : forall store_history comment s,
  kept s (snd (save getuser now store_history comment s)).
Proof.
  intros store_history comment s. split; [|split; [|split]].
  - rewrite save_eq. reflexivity.
  - apply wf_save.
  - rewrite save_eq. cbn [snd connection]. destruct store_history.
    + eexists. reflexivity.
    + exists []. rewrite app_nil_r. reflexivity.
  - rewrite save_eq. cbn [snd connection]. exists []. rewrite app_nil_r.
    destruct store_history; reflexivity.
Qed.

Lemma kept_initialize : forall s, kept s (snd (initialize getuser now s)).
Proof.
  intro s. unfold initialize, bind, get, put.
  eapply kept_trans; [|apply kept_save].
  split; [reflexivity|]. split; [|split].
  - cbn [connection after_write]. apply wf_sql_insert_context.
  - exists []. rewrite app_nil_r. reflexivity.
  - eexists. reflexivity.
Qed.

Lemma kept_api_call : forall c s, kept s (snd (run_api_call resolve getuser now c s)).
Proof.
  intros [[[contexts n st sw v|contexts n st sw v]|store_history comment|contexts]
         |contexts|] s; simpl.
  - unfold bind, ret.
    pose proof (kept_add_package contexts n st sw v s) as H.
    destruct (add_package resolve contexts n st sw v s) as [[r|e] s1]; exact H.
  - apply kept_remove_package.
  - apply kept_save.
  - unfold insert_context_if_missing, bind, lift, get, ret.
    destruct (get_context_row_id (connection s) contexts) as [found|e];
      [|apply kept_refl].
    destruct (negb (truthy_int found)); [|apply kept_refl].
    pose proof (kept_insert_context contexts s) as H.
    destruct (insert_context contexts s) as [[r|e] s1]; exact H.
  - unfold bind, ret.
    pose proof (kept_insert_context contexts s) as H.
    destruct (insert_context contexts s) as [[r|e] s1]; exact H.
  - apply kept_initialize.
Qed.

(** X13. Whatever methods are called, in whatever order, and whether
    they return or raise: the mode of the session stays what it was at
    opening; the history table only grows at its end, no row of it is
    changed or deleted; the context table only grows at its end, no
    context row is changed or deleted. *)
Theorem history_and_contexts_append_only :
  forall calls s,
    load_production (after_api_calls resolve getuser now calls s) = load_production s
    /\ (exists rows,
          history (connection (after_api_calls resolve getuser now calls s))
          = history (connection s) ++ rows)
    /\ (exists rows,
          context (connection (after_api_calls resolve getuser now calls s))
          = context (connection s) ++ rows).
Proof.
  intros calls s.
  assert (H : kept s (after_api_calls resolve getuser now calls s)).
  { unfold after_api_calls. revert s.
    induction calls as [|c rest IH]; intro s; simpl; [apply kept_refl|].
    eapply kept_trans; [apply kept_api_call | apply IH]. }
  destruct H as [H1 [_ [H3 H4]]]. auto.
Qed.

(** X14. A well-formed store stays well formed whatever methods are
    called, unguarded [insert_context] and repeated [initialize]
    included: rowids stay positive and ascending in both tables, and
    every package row refers to a context row that exists. *)
Theorem well_formed_store_is_kept :
  forall calls s,
    wf_database (connection s) ->
    wf_database (connection (after_api_calls resolve getuser now calls s)).
Proof.
  intros calls. unfold after_api_calls.
  induction calls as [|c rest IH]; intros s Hwf; simpl; auto.
  apply IH. destruct (kept_api_call c s) as [_ [H _]]. auto.
Qed.

End Invariants.

Lemma well_formed_store_is_kept_witness :
  wf_database
    (connection
       (after_api_calls resolver_solved "user" (fun _ => 0)
          [ api_initialize;
            api_insert_context [];
            api_session_call (do_mutation (call_add_package [] "pkgA" None None false));
            api_session_call (do_save true "") ]
          initialized_session)).
Proof.
  apply (well_formed_store_is_kept resolver_solved "user" (fun _ => 0)).
  concrete_wf.
Defined.

(** ** [save] and [initialize] *)

Lemma map_snd_enumerate : forall {T U : Type} (f : T -> U) (l : list T) start,
  map (fun ie : nat * T => f (snd ie)) (combine (seq start (length l)) l) = map f l.
Proof.
  intros T U f l. induction l as [|a l IH]; intro start; simpl; auto.
  rewrite IH. reflexivity.
Qed.

Lemma map_fst_enumerate : forall {T U : Type} (g : nat -> U) (l : list T) start,
  map (fun ie : nat * T => g (fst ie)) (combine (seq start (length l)) l)
  = map g (seq start (length l)).
Proof.
  intros T U g l. induction l as [|a l IH]; intro start; simpl; auto.
  rewrite IH. reflexivity.
Qed.

Section SaveInitialize.

Variable getuser : string.
Variable now : nat -> Z.

(** X15. [save] returns, and never touches the context and package
    tables.  With [store_history] false it leaves the whole database as
    it was.  With [store_history] true it appends to the history table
    one row for each pending edit, in the order of the edits: the user
    is the current user, the context is the non-empty levels joined by
    commas, the step and the software are the empty string when absent,
    the operation is 1 for an install and 2 for an uninstall, and the
    comment is the comment given followed by [(i/N)], [i] counting the
    [N] rows from 1. *)
Theorem save_writes_one_row_per_edit :
  forall comment s,
    connection (snd (save getuser now false comment s)) = connection s
    /\ fst (save getuser now true comment s) = Return tt
    /\ context (connection (snd (save getuser now true comment s))) = context (connection s)
    /\ package (connection (snd (save getuser now true comment s))) = package (connection s)
    /\ exists rows,
         history (connection (snd (save getuser now true comment s)))
         = history (connection s) ++ rows
         /\ length rows = length (edits s)
         /\ Forall (fun r => hist_user r = getuser) rows
         /\ map hist_context rows
            = map (fun e => join "," (truthy_levels (edit_context e))) (edits s)
         /\ map hist_package_name rows = map edit_package_name (edits s)
         /\ map hist_step rows = map (fun e => or_empty (edit_step e)) (edits s)
         /\ map hist_software rows = map (fun e => or_empty (edit_software e)) (edits s)
         /\ map hist_operation rows
            = map (fun e => match edit_operation e with INSTALL => 1 | UNINSTALL => 2 end)
                  (edits s)
         /\ map hist_date rows = map now (seq 0 (length (edits s)))
         /\ map hist_comment rows
            = map (fun i => String.append comment
                              (String.append "("
                                 (String.append (decimal (i + 1))
                                    (String.append "/"
                                       (String.append (decimal (length (edits s))) ")")))))
                  (seq 0 (length (edits s))).
Proof.
  intros comment s. rewrite !save_eq. cbn [fst snd connection context package history].
  repeat (split; [reflexivity|]).
  eexists. split; [reflexivity|].
  split; [rewrite length_map, length_combine, length_seq; lia|].
  split; [rewrite Forall_forall; intros r Hr; apply in_map_iff in Hr;
          destruct Hr as [ie [<- _]]; reflexivity|].
  rewrite !map_map. cbn [history_entry hist_context hist_package_name hist_step hist_software
                         hist_operation hist_date hist_comment].
  rewrite (map_snd_enumerate (fun e => join "," (truthy_levels (edit_context e)))).
  rewrite (map_snd_enumerate edit_package_name).
  rewrite (map_snd_enumerate (fun e => or_empty (edit_step e))).
  rewrite (map_snd_enumerate (fun e => or_empty (edit_software e))).
  rewrite (map_snd_enumerate (fun e => operation_value (edit_operation e))).
  rewrite (map_fst_enumerate now).
  rewrite (map_fst_enumerate
             (fun i => String.append comment
                         (String.append "("
                            (String.append (decimal (i + 1))
                               (String.append "/"
                                  (String.append (decimal (length (edits s))) ")")))))).
  repeat (split; [reflexivity|]). reflexivity.
Qed.

(** X16. [initialize] returns and appends to the context table one
    all-[NULL] row whose id is larger than every id of the table,
    whether or not such a row exists, so the number of all-[NULL] rows
    grows by one at each call; it leaves the package table as it was;
    and, as it ends with [save()], it writes one history row for each
    pending edit and leaves the edit buffer empty. *)
Theorem initialize_adds_one_studio_row :
  forall s,
    fst (initialize getuser now s) = Return tt
    /\ (exists id,
          context (connection (snd (initialize getuser now s)))
          = context (connection s) ++ [mk_context_row id None None None]
          /\ forall r, In r (context (connection s)) -> ctx_context_id r < id)
    /\ length (studio_rows (connection (snd (initialize getuser now s))))
       = S (length (studio_rows (connection s)))
    /\ package (connection (snd (initialize getuser now s))) = package (connection s)
    /\ (exists rows,
          history (connection (snd (initialize getuser now s)))
          = history (connection s) ++ rows
          /\ length rows = length (edits s))
    /\ edits (snd (initialize getuser now s)) = [].
Proof.
  intro s. unfold initialize, bind, get, put. rewrite save_eq.
  cbn [fst snd connection after_write context package history edits sql_insert_context].
  split; [reflexivity|]. split; [|split; [|split; [|split]]].
  - eexists. split; [reflexivity|].
    intros r Hr. pose proof (max_list_ge _ _ (in_map ctx_context_id _ _ Hr)). lia.
  - unfold studio_rows. cbn [context]. rewrite filter_app, length_app. simpl. lia.
  - reflexivity.
  - eexists. split; [reflexivity|]. rewrite length_map, length_combine, length_seq. lia.
  - reflexivity.
Qed.

End SaveInitialize.

(** ** [deploy] when the backup name is taken *)

Lemma write_file_existing : forall name db files old,
  read_file name files = Some old ->
  length (write_file name db files) = length files
  /\ read_file name (write_file name db files) = Some db
  /\ map fst (write_file name db files) = map fst files.
Proof.
  intros name db files old. unfold read_file.
  induction files as [|[n d] t IH]; simpl; [discriminate|].
  destruct (String.eqb n name) eqn:E; simpl.
  - intros _. rewrite E. auto.
  - intro H. rewrite E. destruct (IH H) as [H1 [H2 H3]]. simpl.
    rewrite H1, H3. auto.
Qed.

(** X17. On a staging session with no uncommitted write and with
    retention enabled, when no call fails and the history folder already
    holds a file with the name computed for the backup, [deploy]
    returns, writes the former production database over that file and
    adds no file to the folder, the names in the folder being the same
    as before, and leaves the session's database in the production
    file. *)
Theorem deploy_overwrites_backup_of_same_name :
  forall keep_history timestamp s fs files old,
    load_production s = false ->
    in_transaction s = false ->
    py_bool keep_history = true ->
    history_folder fs = Some files ->
    read_file (_compute_history_database_path timestamp) files = Some old ->
    exists fs',
      deploy no_fault keep_history timestamp s fs = (Completes (Return tt), fs')
      /\ production_database fs' = Some (connection s)
      /\ history_folder fs'
         = Some (write_file (_compute_history_database_path timestamp)
                            (contents (production_database fs)) files)
      /\ length (history_files fs') = length files
      /\ map fst (history_files fs') = map fst files
      /\ read_file (_compute_history_database_path timestamp) (history_files fs')
         = Some (contents (production_database fs)).
Proof.
  intros keep_history timestamp s fs files old Hs Htx Hk Hf Hread.
  destruct fs as [production folder log]. cbn [history_folder] in Hf. subst folder.
  unfold deploy, connect_production, connect_backup, backup_production_to,
    backup_connection_to_production, io, bindB, completes, bind, get, ret, raise,
    no_fault.
  rewrite Hs, Htx, Hk.
  cbn [production_database history_folder io_log set_production set_history_folder].
  rewrite Hread.
  cbn [production_database history_folder io_log set_production set_history_folder].
  eexists. split; [reflexivity|].
  destruct (write_file_existing (_compute_history_database_path timestamp)
              (contents production) files old Hread) as [H1 [H2 H3]].
  unfold history_files.
  cbn [production_database history_folder contents]. auto.
Qed.

Lemma deploy_overwrites_backup_of_same_name_witness :
  exists fs',
    deploy no_fault (CfgBool true) "20_01_01_00_00_00_000000" maya_session
           (mk_FileSystem (Some initialized_production)
                          (Some [("20_01_01_00_00_00_000000.db", empty_database)]) [])
    = (Completes (Return tt), fs')
    /\ production_database fs' = Some (connection maya_session)
    /\ history_folder fs'
       = Some [("20_01_01_00_00_00_000000.db", initialized_production)].
Proof.
  destruct (deploy_overwrites_backup_of_same_name (CfgBool true) "20_01_01_00_00_00_000000"
              maya_session
              (mk_FileSystem (Some initialized_production)
                             (Some [("20_01_01_00_00_00_000000.db", empty_database)]) [])
              [("20_01_01_00_00_00_000000.db", empty_database)] empty_database)
    as [fs' [H1 [H2 [H3 _]]]].
  - reflexivity.
  - reflexivity.
  - reflexivity.
  - reflexivity.
  - reflexivity.
  - exists fs'. split; [exact H1|]. split; [exact H2|]. exact H3.
Defined.

(** ** [validate_context] and validated additions *)

(** X18. When [validate_context] returns [(ok, message)]: [ok] is true
    exactly when the resolver returned with the status [solved], and
    then there is no message; a message, when there is one, is the
    [RezError] that the resolver raised. *)
Theorem validate_context_accepts_iff_solved :
  forall resolve packages ok message,
    validate_context resolve packages = Return (ok, message) ->
    (ok = true <-> resolve packages = Return solved)
    /\ (ok = true -> message = None)
    /\ (forall e, message = Some e ->
                  ok = false /\ is_RezError e = true /\ resolve packages = Raise e).
Proof.
  intros resolve packages ok message. unfold validate_context.
  destruct (resolve packages) as [status|e].
  - intro H. injection H as <- <-. split; [|split].
    + destruct status; simpl; split; intro H; try discriminate; reflexivity.
    + reflexivity.
    + intros e H. discriminate.
  - destruct (is_RezError e) eqn:E; [|discriminate].
    intro H. injection H as <- <-. split; [|split].
    + split; discriminate.
    + discriminate.
    + intros e' H. injection H as <-. auto.
Qed.

Lemma validate_context_accepts_iff_solved_witness :
  (true = true <-> resolver_solved ["python"] = Return solved).
Proof.
  refine (proj1 (validate_context_accepts_iff_solved resolver_solved ["python"]
                   true None _)).
  reflexivity.
Defined.

(** X19. When [add_package] validates, the gateway is asked about the
    current list of the levels, step and software followed by the new
    name; when it accepts, the call does exactly what the unvalidated
    call does. *)
Theorem add_package_accepted :
  forall resolve contexts package_name step software s all_packages message,
    get_package_list resolve (connection s) contexts step software false
    = Return all_packages ->
    validate_context resolve (all_packages ++ [package_name]) = Return (true, message) ->
    add_package resolve contexts package_name step software true s
    = add_package resolve contexts package_name step software false s.
Proof.
  intros resolve contexts package_name step software s all_packages message H1 H2.
  rewrite add_package_validated. unfold add_validation, obind. rewrite H1, H2.
  reflexivity.
Qed.

Lemma add_package_accepted_witness :
  add_package resolver_solved [] "pkgA" None None true initialized_session
  = add_package resolver_solved [] "pkgA" None None false initialized_session.
Proof.
  apply (add_package_accepted resolver_solved [] "pkgA" None None initialized_session
           [] None).
  - reflexivity.
  - reflexivity.
Defined.

(** * Properties of [manage.py] *)

Lemma declined_iff_not_Y : forall upper confirm,
  declined upper confirm = negb (String.eqb (upper confirm) "Y").
Proof.
  intros upper confirm. unfold declined. simpl.
  destruct (String.eqb_spec (upper confirm) "Y") as [E|E].
  - rewrite E. reflexivity.
  - destruct (String.eqb_spec (upper confirm) "N"); reflexivity.
Qed.

(** X20. [_confirm_action] approves exactly when it is forced or the
    line read, put in upper case, is ["Y"]: an empty line, ["N"] and
    any other text cancel.  When forced it reads nothing.  It prints
    one line, the approval or the cancellation, and changes neither the
    session nor the stores. *)
Theorem confirm_action_approves_only_on_Y :
  forall answers upper capitalize repr_list action packages force r,
    exists prompt,
      _confirm_action answers upper capitalize repr_list action packages force r
      = (Return (force || String.eqb (upper (answers (asked (run_world r)))) "Y"),
         mk_Run (run_session r)
           (mk_World (staging_file (run_world r)) (file_system (run_world r))
              (console (run_world r)
               ++ (if force then []
                   else [Asked prompt (answers (asked (run_world r)))])
               ++ [Printed
                     (if force || String.eqb (upper (answers (asked (run_world r)))) "Y"
                      then String.append (capitalize action) " operation approved."
                      else "Operation cancelled by user.")])
              (if force then asked (run_world r) else S (asked (run_world r))))).
Proof.
  intros answers upper capitalize repr_list action packages force r.
  eexists. unfold _confirm_action, bind, input, print, ret.
  destruct force; cbn [negb orb].
  - reflexivity.
  - cbn [run_world run_session staging_file file_system console asked].
    rewrite declined_iff_not_Y.
    destruct (String.eqb (upper (answers (asked (run_world r)))) "Y");
      cbn [negb run_world run_session staging_file file_system console asked];
      rewrite <- ?app_assoc; reflexivity.
Qed.

Section ManageLoops.

Variable resolve : list string -> outcome ResolverStatus.

(** The loop of [command] over the packages makes the calls one after
    the other; it stops at the first call that raises, printing the
    message and returning when the exception is a [ValueError], and
    letting any other exception through. *)
Lemma try_each_run_calls : forall (mk : string -> mutating_call) packages r,
  try_each (fun package => run_call resolve (mk package)) packages r
  = match run_calls resolve (map mk packages) (run_session r) with
    | (Return _, s1) => (Return Continue, mk_Run s1 (run_world r))
    | (Raise (ValueError error_message), s1) =>
        (Return Returned,
         mk_Run s1 (mk_World (staging_file (run_world r)) (file_system (run_world r))
                             (console (run_world r) ++ [Printed error_message])
                             (asked (run_world r))))
    | (Raise e, s1) => (Raise e, mk_Run s1 (run_world r))
    end.
Proof.
  intros mk packages. induction packages as [|p rest IH]; intro r.
  - simpl. unfold ret. destruct r. reflexivity.
  - cbn [try_each map run_calls]. unfold on_session. unfold bind.
    destruct (run_call resolve (mk p) (run_session r)) as [[u|e] s1] eqn:E.
    + rewrite IH. reflexivity.
    + destruct e; reflexivity.
Qed.

End ManageLoops.

Lemma same_stores_refl : forall w, same_stores w w.
Proof. intro w. split; reflexivity. Qed.

Lemma same_stores_trans : forall a b c, same_stores a b -> same_stores b c -> same_stores a c.
Proof. intros a b c [H1 H2] [K1 K2]. split; congruence. Qed.

Section ManageBlocks.

Variable resolve : list string -> outcome ResolverStatus.
Variable getuser : string.
Variable now : nat -> Z.
Variable fault : list io_event -> io_event -> option exn.
Variable keep_history : config_value.
Variable timestamp : string.
Variable answers : nat -> string.
Variable upper : string -> string.
Variable capitalize : string -> string.
Variable repr_list : list string -> string.

Lemma confirm_action_facts : forall action packages force r,
  exists b r',
    _confirm_action answers upper capitalize repr_list action packages force r
    = (Return b, r')
    /\ run_session r' = run_session r
    /\ same_stores (run_world r) (run_world r')
    /\ (force = true -> b = true /\ asked (run_world r') = asked (run_world r))
    /\ ((forall k, upper (answers k) = "Y") -> b = true).
Proof.
  intros action packages force r.
  unfold _confirm_action, bind, input, print, ret.
  destruct force; cbn [negb].
  - eexists. eexists. split; [reflexivity|]. cbn. repeat split; auto.
  - cbn [run_world run_session staging_file file_system console asked].
    rewrite declined_iff_not_Y.
    destruct (String.eqb_spec (upper (answers (asked (run_world r)))) "Y") as [E|E];
      cbn [negb]; eexists; eexists; (split; [reflexivity|]); cbn;
      repeat split; auto; try discriminate;
      try (intro H; exfalso; apply E; apply H).
Qed.

Lemma confirmed_block_facts : forall action packages force (mk : string -> mutating_call) r,
  same_stores (run_world r)
    (run_world (snd (confirmed_block answers upper capitalize repr_list action packages
                       force (fun package => run_call resolve (mk package)) r)))
  /\ (fst (confirmed_block answers upper capitalize repr_list action packages
             force (fun package => run_call resolve (mk package)) r) = Return Continue ->
      exists s1,
        run_calls resolve (map mk (given_packages packages)) (run_session r) = (Return tt, s1)
        /\ run_session (snd (confirmed_block answers upper capitalize repr_list action
                               packages force
                               (fun package => run_call resolve (mk package)) r)) = s1)
  /\ (force = true \/ (forall k, upper (answers k) = "Y") ->
      match run_calls resolve (map mk (given_packages packages)) (run_session r) with
      | (Return _, s1) =>
          fst (confirmed_block answers upper capitalize repr_list action packages
                 force (fun package => run_call resolve (mk package)) r) = Return Continue
          /\ run_session (snd (confirmed_block answers upper capitalize repr_list action
                                 packages force
                                 (fun package => run_call resolve (mk package)) r)) = s1
      | (Raise (ValueError error_message), _) =>
          fst (confirmed_block answers upper capitalize repr_list action packages
                 force (fun package => run_call resolve (mk package)) r) = Return Returned
          /\ In (Printed error_message)
                (console (run_world
                   (snd (confirmed_block answers upper capitalize repr_list action packages
                           force (fun package => run_call resolve (mk package)) r))))
      | (Raise e, _) =>
          fst (confirmed_block answers upper capitalize repr_list action packages
                 force (fun package => run_call resolve (mk package)) r) = Raise e
      end)
  /\ (force = true ->
      asked (run_world (snd (confirmed_block answers upper capitalize repr_list action
                               packages force
                               (fun package => run_call resolve (mk package)) r)))
      = asked (run_world r)).
Proof.
  intros action packages force mk r.
  remember (confirmed_block answers upper capitalize repr_list action packages force
              (fun package => run_call resolve (mk package)) r) as res eqn:Hres.
  unfold confirmed_block in Hres.
  destruct (given_packages packages) as [|p rest] eqn:Eg.
  - unfold ret in Hres. subst res. cbn [map run_calls fst snd]. unfold ret.
    split; [apply same_stores_refl|]. split; [|split; [|reflexivity]].
    + intros _. exists (run_session r). split; reflexivity.
    + intros _. split; reflexivity.
  - unfold bind in Hres.
    destruct (confirm_action_facts action (p :: rest) force r)
      as [b [r' [Hc [Hs [Hst [Hforce Hyes]]]]]].
    rewrite Hc in Hres. destruct b; cbn [negb] in Hres.
    + rewrite try_each_run_calls in Hres. rewrite Hs in Hres.
      assert (Hasked : force = true -> asked (run_world r') = asked (run_world r)).
      { intro H. apply (proj2 (Hforce H)). }
      destruct (run_calls resolve (map mk (p :: rest)) (run_session r))
        as [[[]|e] s1] eqn:E.
      * subst res. cbn [fst snd run_world run_session].
        split; [assumption|]. split; [intros _; exists s1; auto|].
        split; [intros _; auto | assumption].
      * assert (Hstores : forall line, same_stores (run_world r)
                  (mk_World (staging_file (run_world r')) (file_system (run_world r'))
                            (console (run_world r') ++ [Printed line])
                            (asked (run_world r')))).
        { intro line. destruct Hst as [H1 H2]. split; assumption. }
        destruct e; subst res;
          cbn [fst snd run_world run_session console staging_file file_system asked];
          (split; [assumption || apply Hstores|]);
          (split; [intro H; discriminate H|]);
          (split; [intros _|assumption]);
          try reflexivity.
        split; [reflexivity|]. apply in_or_app. right. left. reflexivity.
    + unfold ret in Hres. subst res. cbn [fst snd]. split; [assumption|].
      split; [intro H; discriminate H|]. split.
      * intros [H|H]; [destruct (Hforce H); discriminate | discriminate (Hyes H)].
      * intro H. destruct (Hforce H). discriminate.
Qed.

End ManageBlocks.

Lemma insert_context_if_missing_ok : forall contexts s,
  (length contexts <= 3)%nat ->
  fst (insert_context_if_missing contexts s) = Return tt
  /\ connection (snd (insert_context_if_missing contexts s))
     = snd (ensure_context (connection s) contexts).
Proof.
  intros contexts s H. unfold insert_context_if_missing, bind, lift, get, ret.
  rewrite get_context_row_id_ok by assumption. unfold ensure_context.
  destruct (negb (truthy_int (lookup_context (connection s) (pad3 contexts)))).
  - rewrite insert_context_ok by assumption. split; reflexivity.
  - split; reflexivity.
Qed.

Lemma sanitize_context_returns : forall contexts padded,
  sanitize_context contexts = Return padded ->
  (length contexts <= 3)%nat /\ padded = pad3 contexts /\ length padded = 3%nat.
Proof.
  intros contexts padded H. unfold sanitize_context in H.
  destruct (3 <? length contexts)%nat eqn:E; [discriminate|].
  apply Nat.ltb_ge in E. injection H as <-. split; [assumption|]. split; [reflexivity|].
  destruct contexts as [|a [|b [|c [|d t]]]]; simpl in *; try reflexivity; lia.
Qed.

Section ManageCommand.

Variable resolve : list string -> outcome ResolverStatus.
Variable getuser : string.
Variable now : nat -> Z.
Variable fault : list io_event -> io_event -> option exn.
Variable keep_history : config_value.
Variable timestamp : string.
Variable answers : nat -> string.
Variable upper : string -> string.
Variable capitalize : string -> string.
Variable repr_list : list string -> string.

Lemma command_sanitize_raises : forall opts w e,
  opt_initialize opts = false ->
  sanitize_context (opt_context opts) = Raise e ->
  command resolve getuser now fault keep_history timestamp answers upper capitalize
          repr_list opts w
  = (Completes (Raise e), w).
Proof.
  intros opts w e Hi Hs. unfold command, command_body. rewrite Hi.
  unfold bindB at 1. unfold completes at 1. unfold lift. rewrite Hs. reflexivity.
Qed.

Lemma command_reaches_branches : forall opts w contexts,
  opt_initialize opts = false ->
  sanitize_context (opt_context opts) = Return contexts ->
  command resolve getuser now fault keep_history timestamp answers upper capitalize
          repr_list opts w
  = let after :=
      (if opt_list_packages opts
       then completes (list_branch resolve opts contexts)
       else
         after_uninstall <-
           completes
             (confirmed_block answers upper capitalize repr_list "uninstall"
                (opt_uninstall opts) (opt_force opts)
                (fun package =>
                   run_call resolve
                     (call_remove_package contexts package (opt_step opts)
                        (opt_software opts) (negb (opt_force opts))))) ;;
         match after_uninstall with
         | Returned => completes (ret tt)
         | Continue =>
             after_install <-
               completes
                 (confirmed_block answers upper capitalize repr_list "install"
                    (opt_install opts) (opt_force opts)
                    (fun package =>
                       run_call resolve
                         (call_add_package contexts package (opt_step opts)
                            (opt_software opts) (negb (opt_force opts))))) ;;
             match after_install with
             | Returned => completes (ret tt)
             | Continue =>
                 save_and_deploy getuser now fault keep_history timestamp answers upper
                   opts
             end
         end)%blocking (entry_run opts contexts w) in
    (fst after, run_world (snd after)).
Proof.
  intros opts w contexts Hi Hs.
  destruct (sanitize_context_returns _ _ Hs) as [_ [_ Hlen]].
  assert (Hlen3 : (length contexts <= 3)%nat) by (rewrite Hlen; auto).
  destruct (insert_context_if_missing_ok contexts
              (mk_Session false (staging_file w) [] false) Hlen3) as [Hfst _].
  unfold command, command_body. rewrite Hi.
  unfold bindB at 1. unfold completes at 1. unfold lift at 1. rewrite Hs.
  unfold bindB at 1. unfold completes at 1. unfold print at 1.
  cbn [run_session run_world staging_file file_system console asked].
  unfold bindB at 1. unfold completes at 1. unfold on_session at 1.
  cbn [run_session run_world].
  unfold entry_run, entry_session, contexts_line.
  destruct (insert_context_if_missing contexts (mk_Session false (staging_file w) [] false))
    as [o s'].
  cbn [fst] in Hfst. subst o. cbn [snd]. cbv zeta.
  match goal with
  | |- (let (o, r') := ?x in (o, run_world r')) = _ => destruct x as [o r'] eqn:E
  end.
  change (fun package : string =>
            run_call resolve
              (call_remove_package contexts package (opt_step opts) (opt_software opts)
                 (negb (opt_force opts))))
    with (fun package : string =>
            remove_package resolve contexts package (opt_step opts) (opt_software opts)
              (negb (opt_force opts))).
  change (fun package : string =>
            run_call resolve
              (call_add_package contexts package (opt_step opts) (opt_software opts)
                 (negb (opt_force opts))))
    with (fun package : string =>
            (add_package resolve contexts package (opt_step opts) (opt_software opts)
               (negb (opt_force opts)) ;; ret tt)%monad).
  rewrite E. reflexivity.
Qed.

End ManageCommand.

Section ManageOutcome.

Variable resolve : list string -> outcome ResolverStatus.
Variable getuser : string.
Variable now : nat -> Z.
Variable fault : list io_event -> io_event -> option exn.
Variable keep_history : config_value.
Variable timestamp : string.
Variable answers : nat -> string.
Variable upper : string -> string.
Variable capitalize : string -> string.
Variable repr_list : list string -> string.

Lemma save_and_deploy_facts : forall opts r,
  staging_file
    (run_world (snd (save_and_deploy getuser now fault keep_history timestamp answers
                       upper opts r)))
  = connection (snd (save getuser now true "" (run_session r)))
  /\ (opt_deploy opts = false \/ (opt_force opts = false /\ upper (answers (asked (run_world r))) <> "Y") ->
      fst (save_and_deploy getuser now fault keep_history timestamp answers upper opts r)
      = Completes (Return tt)
      /\ file_system
           (run_world (snd (save_and_deploy getuser now fault keep_history timestamp
                              answers upper opts r)))
         = file_system (run_world r))
  /\ (opt_deploy opts = true ->
      opt_force opts = true \/ upper (answers (asked (run_world r))) = "Y" ->
      fst (save_and_deploy getuser now fault keep_history timestamp answers upper opts r)
      = fst (deploy fault keep_history timestamp
               (snd (save getuser now true "" (run_session r)))
               (file_system (run_world r)))
      /\ file_system
           (run_world (snd (save_and_deploy getuser now fault keep_history timestamp
                              answers upper opts r)))
         = snd (deploy fault keep_history timestamp
                  (snd (save getuser now true "" (run_session r)))
                  (file_system (run_world r))))
  /\ (opt_force opts = true ->
      asked (run_world (snd (save_and_deploy getuser now fault keep_history timestamp
                               answers upper opts r)))
      = asked (run_world r)).
Proof.
  intros opts r.
  remember (save_and_deploy getuser now fault keep_history timestamp answers upper opts r)
    as res eqn:Hres.
  unfold save_and_deploy, bindB, completes, bind, on_session, commit in Hres.
  destruct (save getuser now true "" (run_session r)) as [o s2] eqn:Hsave.
  assert (Ho : o = Return tt) by (rewrite save_eq in Hsave; congruence).
  subst o. cbn [snd run_session run_world staging_file file_system console asked] in *.
  destruct (opt_deploy opts).
  - destruct (opt_force opts); cbn [negb] in Hres.
    + unfold ret, deploy_session, print in Hres.
      cbn [run_session run_world staging_file file_system console asked] in Hres.
      destruct (deploy fault keep_history timestamp s2 (file_system (run_world r)))
        as [[[[]|e]|] fs'] eqn:Hd; subst res;
        cbn [fst snd run_session run_world staging_file file_system console asked];
        (split; [reflexivity|]);
        (split; [intros [H|[H _]]; discriminate H|]);
        (split; [intros _ _; split; reflexivity | reflexivity]).
    + unfold input in Hres.
      cbn [run_session run_world staging_file file_system console asked] in Hres.
      rewrite declined_iff_not_Y in Hres.
      destruct (String.eqb_spec (upper (answers (asked (run_world r)))) "Y") as [E|E];
        cbn [negb] in Hres.
      * unfold ret, deploy_session, print in Hres.
        cbn [run_session run_world staging_file file_system console asked] in Hres.
        destruct (deploy fault keep_history timestamp s2 (file_system (run_world r)))
          as [[[[]|e]|] fs'] eqn:Hd; subst res;
          cbn [fst snd run_session run_world staging_file file_system console asked];
          (split; [reflexivity|]);
          (split; [intros [H|[_ H]]; [discriminate H | contradiction]|]);
          (split; [intros _ _; split; reflexivity | intro H; discriminate H]).
      * unfold ret, print in Hres. subst res.
        cbn [fst snd run_session run_world staging_file file_system console asked].
        split; [reflexivity|]. split; [intros _; split; reflexivity|].
        split; [intros _ [H|H]; [discriminate H | contradiction] | intro H; discriminate H].
  - unfold ret in Hres. subst res.
    cbn [fst snd run_session run_world staging_file file_system console asked].
    split; [reflexivity|]. split; [intros _; split; reflexivity|].
    split; [intro H; discriminate H | reflexivity].
Qed.

Lemma list_branch_facts : forall opts contexts r,
  list_branch resolve opts contexts r
  = match get_package_list resolve (connection (run_session r))
            [nth 0 contexts None; nth 1 contexts None; nth 2 contexts None]
            (opt_step opts) (opt_software opts) true with
    | Return package_list =>
        (Return tt,
         mk_Run (run_session r)
           (mk_World (staging_file (run_world r)) (file_system (run_world r))
              (console (run_world r)
               ++ [Printed (String.append "Installed packages: " (join ", " package_list))])
              (asked (run_world r))))
    | Raise e => (Raise e, r)
    end.
Proof.
  intros opts contexts r. unfold list_branch, bind, get, lift, print.
  destruct (get_package_list _ _ _ _ _ _); reflexivity.
Qed.

(** X21. Unless it is run to initialize, [command] changes the staging
    file all at once or not at all, whatever is typed at the prompts:
    either the staging file and the production files are as before, or
    the command was not in list mode, every removal and then every
    addition of the command line returned, in this order, on the
    session the command opened, and the staging file holds what [save]
    left in this session; the production files then change only under
    [--deploy], by [deploy] on the saved session. *)
Theorem command_commits_all_or_nothing :
  forall opts w,
    opt_initialize opts = false ->
    same_stores w
      (snd (command resolve getuser now fault keep_history timestamp answers upper
                    capitalize repr_list opts w))
    \/ (opt_list_packages opts = false
        /\ exists s1,
            run_calls resolve (planned_calls opts (pad3 (opt_context opts)))
                      (entry_session (staging_file w) (pad3 (opt_context opts)))
            = (Return tt, s1)
            /\ staging_file
                 (snd (command resolve getuser now fault keep_history timestamp answers
                               upper capitalize repr_list opts w))
               = connection (snd (save getuser now true "" s1))
            /\ (file_system
                  (snd (command resolve getuser now fault keep_history timestamp answers
                                upper capitalize repr_list opts w))
                = file_system w
                \/ (opt_deploy opts = true
                    /\ file_system
                         (snd (command resolve getuser now fault keep_history timestamp
                                       answers upper capitalize repr_list opts w))
                       = snd (deploy fault keep_history timestamp
                                (snd (save getuser now true "" s1)) (file_system w))))).
Proof.
  intros opts w Hi.
  destruct (sanitize_context (opt_context opts)) as [contexts|e] eqn:Hs.
  2:{ left. rewrite (command_sanitize_raises _ _ _ _ _ _ _ _ _ _ _ _ e Hi Hs).
      apply same_stores_refl. }
  destruct (sanitize_context_returns _ _ Hs) as [Hlen [Hpad _]].
  rewrite (command_reaches_branches _ _ _ _ _ _ _ _ _ _ _ _ _ Hi Hs). cbv zeta.
  rewrite <- Hpad.
  destruct (opt_list_packages opts).
  { left. unfold completes. rewrite list_branch_facts.
    destruct (get_package_list _ _ _ _ _ _); split; reflexivity. }
  cbn [fst snd].
  match goal with
  | |- context [snd (?m (entry_run opts contexts w))] =>
      remember (m (entry_run opts contexts w)) as after eqn:Hafter
  end.
  unfold bindB, completes in Hafter.
  pose proof (confirmed_block_facts resolve answers upper capitalize repr_list "uninstall"
                (opt_uninstall opts) (opt_force opts)
                (fun package => call_remove_package contexts package (opt_step opts)
                                  (opt_software opts) (negb (opt_force opts)))
                (entry_run opts contexts w)) as [F1 [G1 _]].
  cbv beta in F1, G1.
  destruct (confirmed_block answers upper capitalize repr_list "uninstall"
              (opt_uninstall opts) (opt_force opts) _ (entry_run opts contexts w))
    as [[[|]|e1] r1] eqn:E1; cbn [fst snd] in F1, G1;
    try (left; subst after; exact F1).
  destruct (G1 eq_refl) as [s1 [Hrun1 Hs1]].
  pose proof (confirmed_block_facts resolve answers upper capitalize repr_list "install"
                (opt_install opts) (opt_force opts)
                (fun package => call_add_package contexts package (opt_step opts)
                                  (opt_software opts) (negb (opt_force opts)))
                r1) as [F2 [G2 _]].
  cbv beta in F2, G2.
  destruct (confirmed_block answers upper capitalize repr_list "install"
              (opt_install opts) (opt_force opts) _ r1)
    as [[[|]|e2] r2] eqn:E2; cbn [fst snd] in F2, G2;
    try (left; subst after; exact (same_stores_trans _ _ _ F1 F2)).
  destruct (G2 eq_refl) as [s2 [Hrun2 Hs2]].
  right. split; [reflexivity|]. exists s2.
  split.
  { unfold planned_calls. rewrite run_calls_app.
    change (run_session (entry_run opts contexts w))
      with (entry_session (staging_file w) contexts) in Hrun1.
    rewrite Hrun1. rewrite <- Hs1. exact Hrun2. }
  pose proof (save_and_deploy_facts opts r2) as [S1 [S2 [S3 _]]].
  rewrite Hs2 in S1, S3.
  destruct (same_stores_trans _ _ _ F1 F2) as [_ Hfs].
  change (file_system (run_world (entry_run opts contexts w))) with (file_system w) in Hfs.
  rewrite Hfs in S2, S3.
  rewrite <- Hafter in S1, S2, S3.
  split; [exact S1|].
  destruct (opt_deploy opts) eqn:Hd.
  - destruct (opt_force opts) eqn:Hf.
    + right. split; [reflexivity|]. apply (proj2 (S3 eq_refl (or_introl eq_refl))).
    + destruct (String.eqb_spec (upper (answers (asked (run_world r2)))) "Y") as [E|E].
      * right. split; [reflexivity|]. apply (proj2 (S3 eq_refl (or_intror E))).
      * left. apply (proj2 (S2 (or_intror (conj eq_refl E)))).
  - left. apply (proj2 (S2 (or_introl eq_refl))).
Qed.

End ManageOutcome.

Section ManageApproved.

Variable resolve : list string -> outcome ResolverStatus.
Variable getuser : string.
Variable now : nat -> Z.
Variable fault : list io_event -> io_event -> option exn.
Variable keep_history : config_value.
Variable timestamp : string.
Variable answers : nat -> string.
Variable upper : string -> string.
Variable capitalize : string -> string.
Variable repr_list : list string -> string.

(** X22. What [command] does once the user agrees, by [--force] or by
    answering [y] to every prompt, for at most three context levels and
    outside the initialize and list modes.  The removals run first, then
    the additions.  If they all return, the staging file holds what
    [save] left, and under [--deploy] the command ends as [deploy] on the
    saved session does, which does not block.  If one raises
    [ValueError], its message is
    printed, the command returns normally and nothing is written, the
    calls that had succeeded included.  Any other exception leaves the
    command, and nothing is written either. *)
Theorem approved_command_outcome :
  forall opts w,
    opt_initialize opts = false ->
    opt_list_packages opts = false ->
    (length (opt_context opts) <= 3)%nat ->
    approving answers upper opts ->
    match run_calls resolve (planned_calls opts (pad3 (opt_context opts)))
                    (entry_session (staging_file w) (pad3 (opt_context opts))) with
    | (Return _, s1) =>
        staging_file
          (snd (command resolve getuser now fault keep_history timestamp answers upper
                        capitalize repr_list opts w))
        = connection (snd (save getuser now true "" s1))
        /\ (if opt_deploy opts
            then
              command resolve getuser now fault keep_history timestamp answers upper
                      capitalize repr_list opts w
              = (fst (deploy fault keep_history timestamp
                        (snd (save getuser now true "" s1)) (file_system w)),
                 snd (command resolve getuser now fault keep_history timestamp answers
                              upper capitalize repr_list opts w))
              /\ file_system
                   (snd (command resolve getuser now fault keep_history timestamp answers
                                 upper capitalize repr_list opts w))
                 = snd (deploy fault keep_history timestamp
                          (snd (save getuser now true "" s1)) (file_system w))
              /\ fst (command resolve getuser now fault keep_history timestamp answers
                              upper capitalize repr_list opts w)
                 <> Blocks
            else
              fst (command resolve getuser now fault keep_history timestamp answers upper
                           capitalize repr_list opts w)
              = Completes (Return tt)
              /\ file_system
                   (snd (command resolve getuser now fault keep_history timestamp answers
                                 upper capitalize repr_list opts w))
                 = file_system w)
    | (Raise (ValueError error_message), _) =>
        fst (command resolve getuser now fault keep_history timestamp answers upper
                     capitalize repr_list opts w)
        = Completes (Return tt)
        /\ same_stores w
             (snd (command resolve getuser now fault keep_history timestamp answers upper
                           capitalize repr_list opts w))
        /\ In (Printed error_message)
              (console
                 (snd (command resolve getuser now fault keep_history timestamp answers
                               upper capitalize repr_list opts w)))
    | (Raise e, _) =>
        fst (command resolve getuser now fault keep_history timestamp answers upper
                     capitalize repr_list opts w)
        = Completes (Raise e)
        /\ same_stores w
             (snd (command resolve getuser now fault keep_history timestamp answers upper
                           capitalize repr_list opts w))
    end.
Proof.
  intros opts w Hi Hl Hlen Happ.
  pose proof (sanitize_context_ok _ Hlen) as Hs.
  rewrite (command_reaches_branches _ _ _ _ _ _ _ _ _ _ _ _ _ Hi Hs). cbv zeta.
  rewrite Hl. set (contexts := pad3 (opt_context opts)).
  match goal with
  | |- context [snd (?m (entry_run opts contexts w))] =>
      remember (m (entry_run opts contexts w)) as after eqn:Hafter
  end.
  cbn [fst snd]. unfold bindB, completes in Hafter.
  unfold planned_calls. rewrite run_calls_app. fold contexts.
  pose proof (confirmed_block_facts resolve answers upper capitalize repr_list "uninstall"
                (opt_uninstall opts) (opt_force opts)
                (fun package => call_remove_package contexts package (opt_step opts)
                                  (opt_software opts) (negb (opt_force opts)))
                (entry_run opts contexts w)) as [F1 [_ [G1 _]]].
  cbv beta in F1, G1. specialize (G1 Happ).
  change (run_session (entry_run opts contexts w))
    with (entry_session (staging_file w) contexts) in G1.
  destruct (confirmed_block answers upper capitalize repr_list "uninstall"
              (opt_uninstall opts) (opt_force opts) _ (entry_run opts contexts w))
    as [o1 r1] eqn:E1; cbn [fst snd] in F1, G1.
  destruct (run_calls resolve
              (map (fun package => call_remove_package contexts package (opt_step opts)
                                     (opt_software opts) (negb (opt_force opts)))
                   (given_packages (opt_uninstall opts)))
              (entry_session (staging_file w) contexts)) as [[[]|e1] s1] eqn:R1.
  2:{ destruct e1 as [m|m|m|m|m|m];
        [destruct G1 as [G1 Hin]; subst o1 after; cbn [fst snd];
         split; [reflexivity|]; split; [exact F1 | exact Hin] | ..];
        subst o1 after; cbn [fst snd]; (split; [reflexivity | exact F1]). }
  destruct G1 as [-> Hs1].
  pose proof (confirmed_block_facts resolve answers upper capitalize repr_list "install"
                (opt_install opts) (opt_force opts)
                (fun package => call_add_package contexts package (opt_step opts)
                                  (opt_software opts) (negb (opt_force opts)))
                r1) as [F2 [_ [G2 _]]].
  cbv beta in F2, G2. specialize (G2 Happ). rewrite Hs1 in G2.
  pose proof (same_stores_trans _ _ _ F1 F2) as F12.
  destruct (confirmed_block answers upper capitalize repr_list "install"
              (opt_install opts) (opt_force opts) _ r1)
    as [o2 r2] eqn:E2; cbn [fst snd] in F2, G2, F12.
  destruct (run_calls resolve
              (map (fun package => call_add_package contexts package (opt_step opts)
                                     (opt_software opts) (negb (opt_force opts)))
                   (given_packages (opt_install opts)))
              s1) as [[[]|e2] s2] eqn:R2.
  2:{ destruct e2 as [m|m|m|m|m|m];
        [destruct G2 as [G2 Hin]; subst o2 after; cbn [fst snd];
         split; [reflexivity|]; split; [exact F12 | exact Hin] | ..];
        subst o2 after; cbn [fst snd]; (split; [reflexivity | exact F12]). }
  destruct G2 as [-> Hs2].
  pose proof (save_and_deploy_facts getuser now fault keep_history timestamp answers upper
                opts r2) as [S1 [S2 [S3 _]]].
  rewrite Hs2 in S1, S3.
  destruct F12 as [_ Hfs].
  change (file_system (run_world (entry_run opts contexts w))) with (file_system w) in Hfs.
  rewrite Hfs in S2, S3. rewrite <- Hafter in S1, S2, S3.
  split; [exact S1|].
  destruct (opt_deploy opts).
  - assert (Hyes : opt_force opts = true \/ upper (answers (asked (run_world r2))) = "Y").
    { destruct Happ as [H|H]; [left; assumption | right; apply H]. }
    destruct (S3 eq_refl Hyes) as [A B]. split; [|split; [exact B|]].
    + rewrite <- A. destruct after; reflexivity.
    + rewrite A. apply deploy_committed_completes.
      rewrite save_eq. reflexivity.
  - apply S2. left. reflexivity.
Qed.

(** X23. With [--force], and outside the initialize mode, [command]
    reads nothing from the terminal: the number of lines read is as
    before, and the outcome and the final state are the same whatever
    would have been typed. *)
Theorem forced_command_reads_nothing :
  forall answers' upper' opts w,
    opt_force opts = true ->
    opt_initialize opts = false ->
    asked (snd (command resolve getuser now fault keep_history timestamp answers upper
                        capitalize repr_list opts w))
    = asked w
    /\ command resolve getuser now fault keep_history timestamp answers' upper'
               capitalize repr_list opts w
       = command resolve getuser now fault keep_history timestamp answers upper
                 capitalize repr_list opts w.
Proof.
  intros answers' upper' opts w Hf Hi. split.
  - destruct (sanitize_context (opt_context opts)) as [contexts|e] eqn:Hs.
    2:{ rewrite (command_sanitize_raises _ _ _ _ _ _ _ _ _ _ _ _ e Hi Hs). reflexivity. }
    rewrite (command_reaches_branches _ _ _ _ _ _ _ _ _ _ _ _ _ Hi Hs). cbv zeta.
    cbn [fst snd].
    destruct (opt_list_packages opts).
    { unfold completes. rewrite list_branch_facts.
      destruct (get_package_list _ _ _ _ _ _); reflexivity. }
    match goal with
    | |- context [snd (?m (entry_run opts contexts w))] =>
        remember (m (entry_run opts contexts w)) as after eqn:Hafter
    end.
    unfold bindB, completes in Hafter.
    pose proof (confirmed_block_facts resolve answers upper capitalize repr_list
                  "uninstall" (opt_uninstall opts) (opt_force opts)
                  (fun package => call_remove_package contexts package (opt_step opts)
                                    (opt_software opts) (negb (opt_force opts)))
                  (entry_run opts contexts w)) as [_ [_ [_ A1]]].
    cbv beta in A1. specialize (A1 Hf).
    change (asked (run_world (entry_run opts contexts w))) with (asked w) in A1.
    destruct (confirmed_block answers upper capitalize repr_list "uninstall"
                (opt_uninstall opts) (opt_force opts) _ (entry_run opts contexts w))
      as [[[|]|e1] r1] eqn:E1; cbn [fst snd] in A1;
      try (subst after; exact A1).
    pose proof (confirmed_block_facts resolve answers upper capitalize repr_list
                  "install" (opt_install opts) (opt_force opts)
                  (fun package => call_add_package contexts package (opt_step opts)
                                    (opt_software opts) (negb (opt_force opts)))
                  r1) as [_ [_ [_ A2]]].
    cbv beta in A2. specialize (A2 Hf).
    destruct (confirmed_block answers upper capitalize repr_list "install"
                (opt_install opts) (opt_force opts) _ r1)
      as [[[|]|e2] r2] eqn:E2; cbn [fst snd] in A2;
      try (subst after; unfold ret; cbn [fst snd]; congruence).
    pose proof (save_and_deploy_facts getuser now fault keep_history timestamp answers
                  upper opts r2) as [_ [_ [_ A3]]].
    specialize (A3 Hf). rewrite <- Hafter in A3. congruence.
  - unfold command, command_body, confirmed_block, _confirm_action, save_and_deploy.
    rewrite Hf, Hi. reflexivity.
Qed.

(** X24. In initialize mode [command] asks for a confirmation even with
    [--force], and does nothing else than what [initialize] does: on
    [y] the staging file receives what [initialize] leaves in the
    session, one more all-[NULL] context row, the other tables as they
    were; on any other answer the staging file is as before.  The
    production files are never touched, the command returns normally,
    and the other options are ignored. *)
Theorem initialize_mode_outcome :
  forall opts w,
    opt_initialize opts = true ->
    fst (command resolve getuser now fault keep_history timestamp answers upper
                 capitalize repr_list opts w)
    = Completes (Return tt)
    /\ asked (snd (command resolve getuser now fault keep_history timestamp answers upper
                           capitalize repr_list opts w))
       = S (asked w)
    /\ file_system (snd (command resolve getuser now fault keep_history timestamp answers
                                 upper capitalize repr_list opts w))
       = file_system w
    /\ staging_file (snd (command resolve getuser now fault keep_history timestamp
                                  answers upper capitalize repr_list opts w))
       = (if String.eqb (upper (answers (asked w))) "Y"
          then connection (snd (initialize getuser now
                                  (mk_Session false (staging_file w) [] false)))
          else staging_file w)
    /\ (upper (answers (asked w)) = "Y" ->
        (exists id,
            context (staging_file
                       (snd (command resolve getuser now fault keep_history timestamp
                                     answers upper capitalize repr_list opts w)))
            = context (staging_file w) ++ [mk_context_row id None None None])
        /\ package (staging_file
                      (snd (command resolve getuser now fault keep_history timestamp
                                    answers upper capitalize repr_list opts w)))
           = package (staging_file w)
        /\ history (staging_file
                      (snd (command resolve getuser now fault keep_history timestamp
                                    answers upper capitalize repr_list opts w)))
           = history (staging_file w)).
Proof.
  intros opts w Hi.
  unfold command, command_body. rewrite Hi.
  unfold completes, initialize_branch, bind, input, on_session, commit, print.
  cbn [run_session run_world staging_file file_system console asked].
  rewrite declined_iff_not_Y.
  destruct (String.eqb_spec (upper (answers (asked w))) "Y") as [E|E]; cbn [negb].
  - unfold initialize, bind, get, put. rewrite save_eq.
    cbn [fst snd run_session run_world staging_file file_system console asked connection
         after_write sql_insert_context context package history edits combine seq
         length map].
    rewrite app_nil_r.
    split; [reflexivity|]. split; [reflexivity|]. split; [reflexivity|].
    split; [reflexivity|]. intros _.
    split; [eexists; reflexivity|]. split; reflexivity.
  - cbn [fst snd run_session run_world staging_file file_system console asked].
    split; [reflexivity|]. split; [reflexivity|]. split; [reflexivity|].
    split; [reflexivity|]. intro H. contradiction.
Qed.

(** X25. In list mode [command] writes nothing and asks nothing: the
    staging file and the production files are as before, even when the
    context was unknown and a row was inserted for it in the session.
    For a well-formed staging file and at most three levels, it prints
    the context line and then the packages that [get_package_list], with
    validation, returns for this context on the staging file as it
    was; if that call raises, so does the command. *)
Theorem list_mode_outcome :
  forall opts w,
    opt_initialize opts = false ->
    opt_list_packages opts = true ->
    (length (opt_context opts) <= 3)%nat ->
    wf_database (staging_file w) ->
    same_stores w
      (snd (command resolve getuser now fault keep_history timestamp answers upper
                    capitalize repr_list opts w))
    /\ asked (snd (command resolve getuser now fault keep_history timestamp answers upper
                           capitalize repr_list opts w))
       = asked w
    /\ match get_package_list resolve (staging_file w) (opt_context opts)
               (opt_step opts) (opt_software opts) true with
       | Return package_list =>
           fst (command resolve getuser now fault keep_history timestamp answers upper
                        capitalize repr_list opts w)
           = Completes (Return tt)
           /\ console (snd (command resolve getuser now fault keep_history timestamp
                                    answers upper capitalize repr_list opts w))
              = console w
                ++ [Printed (contexts_line opts (pad3 (opt_context opts)));
                    Printed (String.append "Installed packages: "
                               (join ", " package_list))]
       | Raise e =>
           fst (command resolve getuser now fault keep_history timestamp answers upper
                        capitalize repr_list opts w)
           = Completes (Raise e)
       end.
Proof.
  intros opts w Hi Hl Hlen Hwf.
  pose proof (sanitize_context_ok _ Hlen) as Hs.
  rewrite (command_reaches_branches _ _ _ _ _ _ _ _ _ _ _ _ _ Hi Hs). cbv zeta.
  rewrite Hl. unfold completes. rewrite list_branch_facts.
  rewrite <- pad3_eta by assumption.
  assert (Hpadlen : (length (pad3 (opt_context opts)) <= 3)%nat).
  { destruct (sanitize_context_returns _ _ Hs) as [_ [_ H3]]. rewrite H3. auto. }
  assert (Hconn : connection (run_session (entry_run opts (pad3 (opt_context opts)) w))
                  = snd (ensure_context (staging_file w) (pad3 (opt_context opts)))).
  { unfold entry_run, entry_session. cbn [run_session].
    apply (proj2 (insert_context_if_missing_ok _
                    (mk_Session false (staging_file w) [] false) Hpadlen)). }
  rewrite Hconn.
  destruct (ensure_context_facts (staging_file w) (pad3 (opt_context opts)) Hpadlen Hwf)
    as [Hwf' [Hext [Hpkg _]]].
  rewrite (get_package_list_extends resolve (staging_file w)) by assumption.
  assert (Hsame : get_package_list resolve (staging_file w) (pad3 (opt_context opts))
                    (opt_step opts) (opt_software opts) true
                  = get_package_list resolve (staging_file w) (opt_context opts)
                      (opt_step opts) (opt_software opts) true).
  { rewrite !get_package_list_stages by assumption.
    assert (Hpp : pad3 (pad3 (opt_context opts)) = pad3 (opt_context opts)).
    { destruct (opt_context opts) as [|a [|b [|c [|d t]]]]; simpl in *;
        try reflexivity; lia. }
    rewrite Hpp. reflexivity. }
  rewrite Hsame.
  destruct (get_package_list resolve (staging_file w) (opt_context opts)
              (opt_step opts) (opt_software opts) true) as [package_list|e];
    cbn [fst snd run_world run_session staging_file file_system console asked entry_run].
  - split; [split; reflexivity|]. split; [reflexivity|]. split; [reflexivity|].
    rewrite <- app_assoc. reflexivity.
  - split; [split; reflexivity|]. split; reflexivity.
Qed.

End ManageApproved.

Lemma command_commits_all_or_nothing_witness :
  let w' := snd (command resolver_solved "artist" (fun _ => 0) no_fault (CfgBool true)
                         "20_01_01_00_00_00_000000" (fun _ => "n") identity_upper
                         identity_upper (fun _ => "") install_opts pkgA_pkgB_world) in
  same_stores pkgA_pkgB_world w'
  \/ (opt_list_packages install_opts = false
      /\ exists s1,
          run_calls resolver_solved
                    (planned_calls install_opts (pad3 (opt_context install_opts)))
                    (entry_session (staging_file pkgA_pkgB_world)
                                   (pad3 (opt_context install_opts)))
          = (Return tt, s1)
          /\ staging_file w' = connection (snd (save "artist" (fun _ => 0) true "" s1))
          /\ (file_system w' = file_system pkgA_pkgB_world
              \/ (opt_deploy install_opts = true
                  /\ file_system w'
                     = snd (deploy no_fault (CfgBool true) "20_01_01_00_00_00_000000"
                              (snd (save "artist" (fun _ => 0) true "" s1))
                              (file_system pkgA_pkgB_world))))).
Proof.
  intro w'. subst w'.
  apply (command_commits_all_or_nothing resolver_solved "artist" (fun _ => 0) no_fault
           (CfgBool true) "20_01_01_00_00_00_000000" (fun _ => "n") identity_upper
           identity_upper (fun _ => "") install_opts pkgA_pkgB_world).
  reflexivity.
Defined.

Lemma approved_command_outcome_witness :
  exists s1,
    run_calls resolver_solved
              (planned_calls install_opts (pad3 (opt_context install_opts)))
              (entry_session (staging_file pkgA_pkgB_world)
                             (pad3 (opt_context install_opts)))
    = (Return tt, s1)
    /\ staging_file
         (snd (command resolver_solved "artist" (fun _ => 0) no_fault (CfgBool true)
                       "20_01_01_00_00_00_000000" (fun _ => "Y") identity_upper
                       identity_upper (fun _ => "") install_opts pkgA_pkgB_world))
       = connection (snd (save "artist" (fun _ => 0) true "" s1))
    /\ fst (command resolver_solved "artist" (fun _ => 0) no_fault (CfgBool true)
                    "20_01_01_00_00_00_000000" (fun _ => "Y") identity_upper
                    identity_upper (fun _ => "") install_opts pkgA_pkgB_world)
       = Completes (Return tt)
    /\ file_system
         (snd (command resolver_solved "artist" (fun _ => 0) no_fault (CfgBool true)
                       "20_01_01_00_00_00_000000" (fun _ => "Y") identity_upper
                       identity_upper (fun _ => "") install_opts pkgA_pkgB_world))
       = file_system pkgA_pkgB_world.
Proof.
  assert (Hlen : (length (opt_context install_opts) <= 3)%nat) by (simpl; lia).
  assert (Happ : approving (fun _ : nat => "Y") identity_upper install_opts)
    by (right; intro k; reflexivity).
  pose proof (approved_command_outcome resolver_solved "artist" (fun _ => 0) no_fault
                (CfgBool true) "20_01_01_00_00_00_000000" (fun _ => "Y") identity_upper
                identity_upper (fun _ => "") install_opts pkgA_pkgB_world
                eq_refl eq_refl Hlen Happ) as H.
  destruct (run_calls resolver_solved
              (planned_calls install_opts (pad3 (opt_context install_opts)))
              (entry_session (staging_file pkgA_pkgB_world)
                             (pad3 (opt_context install_opts))))
    as [[[]|e] s1] eqn:E.
  - exists s1. cbn [opt_deploy install_opts] in H.
    destruct H as [H1 [H2 H3]]. split; [reflexivity|]. split; [exact H1|].
    split; [exact H2 | exact H3].
  - vm_compute in E. discriminate E.
Defined.

Lemma forced_command_reads_nothing_witness :
  asked (snd (command resolver_solved "artist" (fun _ => 0) no_fault (CfgBool true)
                      "20_01_01_00_00_00_000000" (fun _ => "Y") identity_upper
                      identity_upper (fun _ => "") forced_opts pkgA_pkgB_world))
  = asked pkgA_pkgB_world
  /\ command resolver_solved "artist" (fun _ => 0) no_fault (CfgBool true)
             "20_01_01_00_00_00_000000" (fun _ => "n") (fun _ => "N")
             identity_upper (fun _ => "") forced_opts pkgA_pkgB_world
     = command resolver_solved "artist" (fun _ => 0) no_fault (CfgBool true)
               "20_01_01_00_00_00_000000" (fun _ => "Y") identity_upper
               identity_upper (fun _ => "") forced_opts pkgA_pkgB_world.
Proof.
  apply (forced_command_reads_nothing resolver_solved "artist" (fun _ => 0) no_fault
           (CfgBool true) "20_01_01_00_00_00_000000" (fun _ => "Y") identity_upper
           identity_upper (fun _ => "") (fun _ => "n") (fun _ => "N") forced_opts
           pkgA_pkgB_world).
  - reflexivity.
  - reflexivity.
Defined.

Lemma initialize_mode_outcome_witness :
  let w' := snd (command resolver_solved "artist" (fun _ => 0) no_fault (CfgBool true)
                         "20_01_01_00_00_00_000000" (fun _ => "Y") identity_upper
                         identity_upper (fun _ => "") initialize_opts pkgA_pkgB_world) in
  (exists id,
      context (staging_file w')
      = context (staging_file pkgA_pkgB_world) ++ [mk_context_row id None None None])
  /\ package (staging_file w') = package (staging_file pkgA_pkgB_world)
  /\ history (staging_file w') = history (staging_file pkgA_pkgB_world).
Proof.
  intro w'. subst w'.
  apply (initialize_mode_outcome resolver_solved "artist" (fun _ => 0) no_fault
           (CfgBool true) "20_01_01_00_00_00_000000" (fun _ => "Y") identity_upper
           identity_upper (fun _ => "") initialize_opts pkgA_pkgB_world).
  - reflexivity.
  - reflexivity.
Defined.

Lemma list_mode_outcome_witness :
  same_stores pkgA_pkgB_world
    (snd (command resolver_solved "artist" (fun _ => 0) no_fault (CfgBool true)
                  "20_01_01_00_00_00_000000" (fun _ => "Y") identity_upper
                  identity_upper (fun _ => "") list_opts pkgA_pkgB_world))
  /\ console
       (snd (command resolver_solved "artist" (fun _ => 0) no_fault (CfgBool true)
                     "20_01_01_00_00_00_000000" (fun _ => "Y") identity_upper
                     identity_upper (fun _ => "") list_opts pkgA_pkgB_world))
     = console pkgA_pkgB_world
       ++ [Printed (contexts_line list_opts (pad3 (opt_context list_opts)));
           Printed "Installed packages: pkgA, pkgB"].
Proof.
  assert (Hlen : (length (opt_context list_opts) <= 3)%nat) by (simpl; lia).
  assert (Hwf : wf_database (staging_file pkgA_pkgB_world)) by concrete_wf.
  pose proof (list_mode_outcome resolver_solved "artist" (fun _ => 0) no_fault
                (CfgBool true) "20_01_01_00_00_00_000000" (fun _ => "Y") identity_upper
                identity_upper (fun _ => "") list_opts pkgA_pkgB_world
                eq_refl eq_refl Hlen Hwf) as [H1 [_ H3]].
  split; [exact H1|].
  destruct (get_package_list resolver_solved (staging_file pkgA_pkgB_world)
              (opt_context list_opts) (opt_step list_opts) (opt_software list_opts) true)
    as [package_list|e] eqn:E.
  - vm_compute in E. injection E as <-. apply (proj2 H3).
  - vm_compute in E. discriminate E.
Defined.

(** * [deploy] and uncommitted writes *)

Lemma run_call_opens_transaction : forall resolve c s s1,
  run_call resolve c s = (Return tt, s1) ->
  in_transaction s1 = true /\ load_production s1 = load_production s.
Proof.
  intros resolve c s s1 H.
  assert (Hadd : forall contexts package_name step software id s2,
            add_package resolve contexts package_name step software false s
            = (Return id, s2) ->
            in_transaction s2 = true /\ load_production s2 = load_production s).
  { intros contexts package_name step software id s2.
    destruct (Nat.le_gt_cases (length contexts) 3) as [Hl|Hl].
    - rewrite add_package_unvalidated by assumption.
      intro E. injection E as _ <-. split; reflexivity.
    - rewrite add_package_too_long by assumption. discriminate. }
  assert (Hrem : forall contexts package_name step software s2,
            remove_package resolve contexts package_name step software false s
            = (Return tt, s2) ->
            in_transaction s2 = true /\ load_production s2 = load_production s).
  { intros contexts package_name step software s2.
    unfold remove_package, bind, lift, get, put, ret, raise.
    destruct (get_context_row_id (connection s) contexts) as [found|e0]; [|discriminate].
    destruct (negb (truthy_int found)); [discriminate|].
    destruct (negb (truthy_int _)); [discriminate|].
    intro E. injection E as <-. split; reflexivity. }
  destruct c as [contexts package_name step software validate
                |contexts package_name step software validate];
    cbn [run_call] in H.
  - unfold bind, ret in H.
    destruct (add_package resolve contexts package_name step software validate s)
      as [[id|e] s2] eqn:E; [|discriminate].
    injection H as <-. destruct validate; [|eapply Hadd; eassumption].
    rewrite add_package_validated in E.
    destruct (add_validation _ _ _ _ _ _); [|discriminate].
    eapply Hadd; eassumption.
  - destruct validate; [|eapply Hrem; eassumption].
    rewrite remove_package_validated in H.
    destruct (remove_package resolve contexts package_name step software false s)
      as [[[]|e] s2] eqn:E; [|discriminate].
    destruct (remove_validation _ _ _ _ _ _); [|discriminate].
    injection H as <-. eapply Hrem; eassumption.
Qed.

Lemma deploy_uncommitted_blocks : forall keep_history timestamp s fs,
  load_production s = false ->
  in_transaction s = true ->
  exists fs',
    deploy no_fault keep_history timestamp s fs = (Blocks, fs')
    /\ contents (production_database fs') = contents (production_database fs).
Proof.
  intros keep_history timestamp s fs Hs Htx.
  destruct (deploy no_fault keep_history timestamp s fs) as [c fs'] eqn:E.
  assert (Hc : c = Blocks).
  { revert E.
    unfold deploy, connect_production, connect_backup, backup_production_to,
      backup_connection_to_production, io, bindB, completes, bind, get, ret, raise,
      no_fault.
    rewrite Hs, Htx.
    destruct (py_bool keep_history), (history_folder fs) as [files|];
      cbn [production_database history_folder io_log set_history_folder set_production];
      repeat (match goal with
              | |- context [match ?x with Some _ => _ | None => _ end] => destruct x
              end;
              cbn [production_database history_folder io_log set_history_folder
                   set_production]);
      intro E; injection E as <- _; reflexivity. }
  subst c. exists fs'. split; [reflexivity|].
  eapply deploy_failure_keeps_production; [eassumption | discriminate].
Qed.

Lemma deploy_committed_returns : forall keep_history timestamp s fs,
  load_production s = false ->
  in_transaction s = false ->
  exists fs',
    deploy no_fault keep_history timestamp s fs = (Completes (Return tt), fs')
    /\ production_database fs' = Some (connection s).
Proof.
  intros keep_history timestamp s fs Hs Htx.
  unfold deploy, connect_production, connect_backup, backup_production_to,
    backup_connection_to_production, io, bindB, completes, bind, get, ret, raise,
    no_fault.
  rewrite Hs, Htx.
  destruct (py_bool keep_history), (history_folder fs) as [files|];
    cbn [production_database history_folder io_log set_history_folder set_production];
    repeat (match goal with
            | |- context [match ?x with Some _ => _ | None => _ end] => destruct x
            end;
            cbn [production_database history_folder io_log set_history_folder
                 set_production]);
    eexists; split; reflexivity.
Qed.

(** X26. [deploy] must be preceded by [save].  On a staging session,
    after an [add_package] or a [remove_package] that returned, the
    connection holds an uncommitted write: when no call fails,
    [deploy] makes its calls up to [self.connection.backup] and never
    returns from it, and the production database is as it was.  Once
    [save] has been called, with or without history, the same [deploy]
    returns and leaves the saved store in the production file. *)
Theorem deploy_blocks_until_save :
  forall resolve getuser now keep_history timestamp store_history comment c s s1 fs,
    load_production s = false ->
    run_call resolve c s = (Return tt, s1) ->
    (exists fs',
        deploy no_fault keep_history timestamp s1 fs = (Blocks, fs')
        /\ contents (production_database fs') = contents (production_database fs))
    /\ (exists fs',
           deploy no_fault keep_history timestamp
                  (snd (save getuser now store_history comment s1)) fs
           = (Completes (Return tt), fs')
           /\ production_database fs'
              = Some (connection (snd (save getuser now store_history comment s1)))).
Proof.
  intros resolve getuser now keep_history timestamp store_history comment c s s1 fs Hs Hc.
  destruct (run_call_opens_transaction _ _ _ _ Hc) as [Htx Hlp].
  split.
  - apply deploy_uncommitted_blocks; congruence.
  - apply deploy_committed_returns; rewrite save_eq; cbn [load_production in_transaction snd];
      congruence.
Qed.

Lemma deploy_blocks_until_save_witness :
  (exists fs',
      deploy no_fault (CfgBool true) "20_01_01_00_00_00_000000" unsaved_maya_session
             (mk_FileSystem (Some initialized_production) None [])
      = (Blocks, fs')
      /\ contents (production_database fs') = contents (Some initialized_production))
  /\ (exists fs',
         deploy no_fault (CfgBool true) "20_01_01_00_00_00_000000"
                (snd (save "user" (fun _ => 0) true "" unsaved_maya_session))
                (mk_FileSystem (Some initialized_production) None [])
         = (Completes (Return tt), fs')
         /\ production_database fs'
            = Some (connection (snd (save "user" (fun _ => 0) true ""
                                          unsaved_maya_session)))).
Proof.
  apply (deploy_blocks_until_save resolver_solved "user" (fun _ => 0) (CfgBool true)
           "20_01_01_00_00_00_000000" true ""
           (call_add_package [] "maya-2024" None None false)
           initialized_session unsaved_maya_session
           (mk_FileSystem (Some initialized_production) None [])).
  - reflexivity.
  - reflexivity.
Defined.
